(** * QuickForm: templates, generator and generated Express project

    A shallow embedding of the repository's Jinja templates
    ([templates/express/src/models/modelv3.ts.jinja], the application
    entrypoint template, the first model template, the route template and
    the README example), of the generator given in [docs/design.md], of the
    schema validation the specification describes, and of the generated
    Express project: the authentication middleware and the user model
    ([outputs/express-01/src/middleware/authMiddleware.ts]), the
    configuration ([outputs/express-01/src/config/config.ts]), the
    controllers, the error handlers and the payment webhook
    ([src/unnamed/part_004]), the routes, the application and the server. *)

From Stdlib Require Import Ascii String List Bool Arith Lia Permutation Sorted.
From stdpp Require Import base tactics option list sorting gmap strings.
Import ListNotations.

Set Warnings "-register-all".


(** ** Text helpers *)

Module Text.

(** Line feed and double quote. *)
Definition nl_char : ascii := ascii_of_nat 10.
Definition nl : string := String nl_char EmptyString.
Definition dq : string := String (ascii_of_nat 34) EmptyString.

(** Case of the ASCII letters.  A string is a sequence of bytes; the bytes
    above 127 (the UTF-8 sequences of characters outside ASCII) are left as
    they are, so [lower] and [upper] agree with the engine's filters on
    ASCII text, which is what model names are taken to be. *)
Definition is_upper (c : ascii) : bool :=
  (65 <=? nat_of_ascii c) && (nat_of_ascii c <=? 90).

Definition lower_char (c : ascii) : ascii :=
  if is_upper c then ascii_of_nat (nat_of_ascii c + 32) else c.

Definition is_lower (c : ascii) : bool :=
  (97 <=? nat_of_ascii c) && (nat_of_ascii c <=? 122).

Definition upper_char (c : ascii) : ascii :=
  if is_lower c then ascii_of_nat (nat_of_ascii c - 32) else c.

Fixpoint map_chars (f : ascii -> ascii) (s : string) : string :=
  match s with
  | EmptyString => EmptyString
  | String c s' => String (f c) (map_chars f s')
  end.

Definition lower : string -> string := map_chars lower_char.
Definition upper : string -> string := map_chars upper_char.

Fixpoint spaces (n : nat) : string :=
  match n with
  | O => EmptyString
  | S n' => String " "%char (spaces n')
  end.

(** [split_lines s] cuts [s] at every newline; the result is never empty. *)
Fixpoint split_lines (s : string) : list string :=
  match s with
  | EmptyString => [EmptyString]
  | String c s' =>
      if Ascii.eqb c nl_char then EmptyString :: split_lines s'
      else match split_lines s' with
           | l :: ls => String c l :: ls
           | [] => [String c EmptyString]
           end
  end.

Definition join (sep : string) (l : list string) : string := String.concat sep l.

(** Join a list of lines with newlines. *)
Definition lines (l : list string) : string := join nl l.

(** [prefixb p s]: [p] is a prefix of [s]. *)
Fixpoint prefixb (p s : string) : bool :=
  match p, s with
  | EmptyString, _ => true
  | String a p', String b s' => Ascii.eqb a b && prefixb p' s'
  | String _ _, EmptyString => false
  end.

(** [containsb p s]: [p] occurs somewhere in [s]. *)
Fixpoint containsb (p s : string) : bool :=
  prefixb p s ||
  match s with
  | EmptyString => false
  | String _ s' => containsb p s'
  end.

End Text.

(** ** The template language

    The templates of the repository are written in Jinja and rendered by
    the MiniJinja engine (README, "Template Rendering").  This module gives
    the fragment of the language that the templates use a syntax and its
    meaning: substitution by dotted path, [if]/[elif]/[else] regions, [for]
    loops that visit a sequence in its order, and filters.  Text between
    tags is kept as it stands (no whitespace trimming, the engine's
    default).  Two points follow the contract of section 4.3 of the
    specification: a reference to an undefined path is an error, and the
    filters are the three kinds named there. *)

Module Jinja.
Import Text.

(** Context values: the read-only structured view of the IR. *)
Inductive value : Type :=
| VBool (b : bool)
| VStr (s : string)
| VList (vs : list value)
| VMap (kvs : list (string * value)).

(** Variables in scope, innermost binding first. *)
Definition scope : Type := list (string * value).

Fixpoint assoc {A : Type} (k : string) (l : list (string * A)) : option A :=
  match l with
  | [] => None
  | (k', v) :: l' => if String.eqb k k' then Some v else assoc k l'
  end.

(** Literal arguments of a filter: ['...'] or a number. *)
Inductive lit : Type :=
| LStr (s : string)
| LNum (n : nat).

(** Expressions inside [{{ ... }}] and [{% ... %}]. *)
Inductive expr : Type :=
| EVar (x : string)                              (* x *)
| EAttr (e : expr) (a : string)                  (* e.a *)
| EItems (e : expr)                              (* e.items() *)
| EConst (s : string)                            (* 'text' *)
| EEq (a b : expr)                               (* a == b *)
| EFilter (e : expr) (f : string) (args : list lit).  (* e | f(args) *)

Notation "e .> a" := (EAttr e a) (at level 29, left associativity).

(** A template is a sequence of nodes; every constructor but [TEnd] carries
    the rest of the sequence as its last argument. *)
Inductive tpl : Type :=
| TEnd
| TText (s : string) (k : tpl)                         (* literal text *)
| TEmit (e : expr) (k : tpl)                           (* {{ e }} *)
| TIf (c : expr) (th el : tpl) (k : tpl)               (* {% if c %} th {% else %} el {% endif %} *)
| TFor (xs : list string) (e : expr) (body : tpl) (k : tpl).
                                                       (* {% for xs in e %} body {% endfor %} *)

(** Modelled from the spec: rendering failures (the TemplateError of
    sections 4.3 and 7, without the template identifier, which the
    orchestrator adds).  A reference to an undefined path is an error and
    never empty text. *)
Inductive TemplateError : Type :=
| UndefinedPath (path : string)
| UnknownFilter (name : string)
| BadValue (path : string).

Inductive result (A : Type) : Type :=
| Ok (a : A)
| Err (e : TemplateError).
Arguments Ok {A} a.
Arguments Err {A} e.

Definition bind {A B : Type} (m : result A) (f : A -> result B) : result B :=
  match m with
  | Ok a => f a
  | Err e => Err e
  end.

Notation "'let!' x ':=' m 'in' k" := (bind m (fun x => k))
  (at level 10, x name, m at level 100, k at level 200).

(** The dotted path an expression denotes, for diagnostics. *)
Fixpoint path_text (e : expr) : string :=
  match e with
  | EVar x => x
  | EAttr e' a => path_text e' +:+ "." +:+ a
  | EItems e' => path_text e' +:+ ".items()"
  | EConst s => "'" +:+ s +:+ "'"
  | EEq a b => path_text a +:+ " == " +:+ path_text b
  | EFilter e' f _ => path_text e' +:+ " | " +:+ f
  end.

Fixpoint value_eqb (a b : value) : bool :=
  match a, b with
  | VBool x, VBool y => Bool.eqb x y
  | VStr x, VStr y => String.eqb x y
  | VList xs, VList ys =>
      (fix go (xs : list value) (ys : list value) : bool :=
         match xs, ys with
         | [], [] => true
         | x :: xs', y :: ys' => value_eqb x y && go xs' ys'
         | _, _ => false
         end) xs ys
  | VMap xs, VMap ys =>
      (fix go (xs : list (string * value)) (ys : list (string * value)) : bool :=
         match xs, ys with
         | [], [] => true
         | (k, x) :: xs', (k', y) :: ys' =>
             String.eqb k k' && value_eqb x y && go xs' ys'
         | _, _ => false
         end) xs ys
  | _, _ => false
  end.

(** A value in a condition: [false], the empty string and empty
    collections do not select the region. *)
Definition truthy (v : value) : bool :=
  match v with
  | VBool b => b
  | VStr s => negb (String.eqb s "")
  | VList vs => negb (Nat.eqb (length vs) 0)
  | VMap kvs => negb (Nat.eqb (length kvs) 0)
  end.

(** The text [{{ e }}] writes for a value. *)
Definition to_text (e : expr) (v : value) : result string :=
  match v with
  | VStr s => Ok s
  | VBool true => Ok "true"
  | VBool false => Ok "false"
  | _ => Err (BadValue (path_text e))
  end.

Fixpoint texts (e : expr) (vs : list value) : result (list string) :=
  match vs with
  | [] => Ok []
  | v :: vs' =>
      let! s := to_text e v in
      let! ss := texts e vs' in
      Ok (s :: ss)
  end.

(** *** Filters

    Modelled from the spec: the three kinds of text filter of section 4.3.
    [lower] and [upper] act on the letters A-Z and a-z. *)
Inductive filter_kind : Type :=
| CaseTransformation
| ListJoining
| Indentation.

Definition filter_kind_of (name : string) : option filter_kind :=
  if String.eqb name "lower" then Some CaseTransformation
  else if String.eqb name "upper" then Some CaseTransformation
  else if String.eqb name "join" then Some ListJoining
  else if String.eqb name "indent" then Some Indentation
  else None.

(** [indent n s], the filter with its default options: every line of [s]
    after the first is moved right by [n] columns; empty lines stay empty. *)
Definition indent (n : nat) (s : string) : string :=
  match split_lines s with
  | [] => EmptyString
  | first :: rest =>
      lines (first :: map (fun l => if String.eqb l "" then l else spaces n +:+ l) rest)
  end.

Definition apply_filter (e : expr) (f : string) (args : list lit) (v : value)
  : result value :=
  match filter_kind_of f with
  | None => Err (UnknownFilter f)
  | Some CaseTransformation =>
      match v, args with
      | VStr s, [] => Ok (VStr (if String.eqb f "lower" then lower s else upper s))
      | _, _ => Err (BadValue (path_text e))
      end
  | Some ListJoining =>
      match v, args with
      | VList vs, [LStr sep] => let! ss := texts e vs in Ok (VStr (join sep ss))
      | VList vs, [] => let! ss := texts e vs in Ok (VStr (join "" ss))
      | _, _ => Err (BadValue (path_text e))
      end
  | Some Indentation =>
      match v, args with
      | VStr s, [LNum n] => Ok (VStr (indent n s))
      | _, _ => Err (BadValue (path_text e))
      end
  end.

(** *** Expressions *)
Fixpoint eval (env : scope) (e : expr) : result value :=
  match e with
  | EVar x =>
      match assoc x env with
      | Some v => Ok v
      | None => Err (UndefinedPath x)
      end
  | EAttr e' a =>
      let! v := eval env e' in
      match v with
      | VMap kvs =>
          match assoc a kvs with
          | Some w => Ok w
          | None => Err (UndefinedPath (path_text e))
          end
      | _ => Err (UndefinedPath (path_text e))
      end
  | EItems e' =>
      let! v := eval env e' in
      match v with
      | VMap kvs => Ok (VList (map (fun kv => VList [VStr (fst kv); snd kv]) kvs))
      | _ => Err (BadValue (path_text e))
      end
  | EConst s => Ok (VStr s)
  | EEq a b =>
      let! va := eval env a in
      let! vb := eval env b in
      Ok (VBool (value_eqb va vb))
  | EFilter e' f args =>
      let! v := eval env e' in
      apply_filter e f args v
  end.

(** *** Rendering *)

(** The output is kept as a list of chunks: [Lit] for the template's own
    text, [Sub] for a substituted value.  The rendered text is their
    concatenation. *)
Inductive chunk : Type :=
| Lit (s : string)
| Sub (s : string).

Definition chunk_text (c : chunk) : string :=
  match c with
  | Lit s => s
  | Sub s => s
  end.

Definition text_of (cs : list chunk) : string :=
  String.concat "" (map chunk_text cs).

(** The elements a [for] visits: a list in its own order, a mapping by its
    keys in their order. *)
Definition as_seq (e : expr) (v : value) : result (list value) :=
  match v with
  | VList vs => Ok vs
  | VMap kvs => Ok (map (fun kv => VStr (fst kv)) kvs)
  | _ => Err (BadValue (path_text e))
  end.

(** [for x in ...] binds the element; [for k, v in ...] unpacks it. *)
Definition bind_targets (xs : list string) (v : value) (env : scope) : result scope :=
  match xs with
  | [] => Err (BadValue "for")
  | [x] => Ok ((x, v) :: env)
  | _ =>
      match v with
      | VList vs =>
          if Nat.eqb (length vs) (length xs)
          then Ok (rev (combine xs vs) ++ env)
          else Err (BadValue (join ", " xs))
      | _ => Err (BadValue (join ", " xs))
      end
  end.

(** Run [f] on each element in order and concatenate the outputs. *)
Fixpoint each {A : Type} (f : A -> result (list chunk)) (l : list A)
  : result (list chunk) :=
  match l with
  | [] => Ok []
  | x :: l' =>
      let! r := f x in
      let! rs := each f l' in
      Ok (r ++ rs)
  end.

(** Rendering: a pure function of the template and the context.  Literal
    text is written as it stands, [{{ e }}] writes the value of [e], a
    conditional writes the region its condition selects, and a loop writes
    its body once per element, in the order of the sequence.  (Section 4.3
    of the specification states the same contract.) *)
Fixpoint render_chunks (t : tpl) (env : scope) : result (list chunk) :=
  match t with
  | TEnd => Ok []
  | TText s k =>
      let! r := render_chunks k env in
      Ok (Lit s :: r)
  | TEmit e k =>
      let! v := eval env e in
      let! s := to_text e v in
      let! r := render_chunks k env in
      Ok (Sub s :: r)
  | TIf c th el k =>
      let! v := eval env c in
      let! r1 := (if truthy v then render_chunks th env else render_chunks el env) in
      let! r2 := render_chunks k env in
      Ok (r1 ++ r2)
  | TFor xs e body k =>
      let! v := eval env e in
      let! vs := as_seq e v in
      let! r1 := each (fun x => let! env' := bind_targets xs x env in
                                render_chunks body env') vs in
      let! r2 := render_chunks k env in
      Ok (r1 ++ r2)
  end.

(** The rendered text. *)
Definition render (t : tpl) (env : scope) : result string :=
  let! cs := render_chunks t env in
  Ok (text_of cs).

(** The same contract as a derivation system: [Renders env t cs] when the
    template [t] writes the chunks [cs] in the context [env]. *)
Inductive Renders : scope -> tpl -> list chunk -> Prop :=
| R_end env :
    Renders env TEnd []
| R_text env s k r :
    Renders env k r ->
    Renders env (TText s k) (Lit s :: r)
| R_emit env e k v s r :
    eval env e = Ok v ->
    to_text e v = Ok s ->
    Renders env k r ->
    Renders env (TEmit e k) (Sub s :: r)
| R_if_true env c th el k v r1 r2 :
    eval env c = Ok v ->
    truthy v = true ->
    Renders env th r1 ->
    Renders env k r2 ->
    Renders env (TIf c th el k) (r1 ++ r2)
| R_if_false env c th el k v r1 r2 :
    eval env c = Ok v ->
    truthy v = false ->
    Renders env el r1 ->
    Renders env k r2 ->
    Renders env (TIf c th el k) (r1 ++ r2)
| R_for env xs e body k v vs r1 r2 :
    eval env e = Ok v ->
    as_seq e v = Ok vs ->
    RendersEach env xs body vs r1 ->
    Renders env k r2 ->
    Renders env (TFor xs e body k) (r1 ++ r2)
with RendersEach : scope -> list string -> tpl -> list value -> list chunk -> Prop :=
| RE_nil env xs body :
    RendersEach env xs body [] []
| RE_cons env xs body x env' vs r rs :
    bind_targets xs x env = Ok env' ->
    Renders env' body r ->
    RendersEach env xs body vs rs ->
    RendersEach env xs body (x :: vs) (r ++ rs).

Scheme Renders_mut := Induction for Renders Sort Prop
  with RendersEach_mut := Induction for RendersEach Sort Prop.

(** *** Static inspection of a template *)

(** The filters an expression applies, innermost first. *)
Fixpoint expr_filters (e : expr) : list string :=
  match e with
  | EVar _ => []
  | EAttr e' _ => expr_filters e'
  | EItems e' => expr_filters e'
  | EConst _ => []
  | EEq a b => expr_filters a ++ expr_filters b
  | EFilter e' f _ => expr_filters e' ++ [f]
  end.

(** Every filter application of a template, in source order. *)
Fixpoint filters (t : tpl) : list string :=
  match t with
  | TEnd => []
  | TText _ k => filters k
  | TEmit e k => expr_filters e ++ filters k
  | TIf c th el k => expr_filters c ++ filters th ++ filters el ++ filters k
  | TFor _ e body k => expr_filters e ++ filters body ++ filters k
  end.

(** The literal texts of a template, in source order. *)
Fixpoint literals (t : tpl) : list string :=
  match t with
  | TEnd => []
  | TText s k => s :: literals k
  | TEmit _ k => literals k
  | TIf _ th el k => literals th ++ literals el ++ literals k
  | TFor _ _ body k => literals body ++ literals k
  end.

Definition supported (name : string) : bool :=
  match filter_kind_of name with
  | Some _ => true
  | None => false
  end.

End Jinja.

(** ** The repository's templates

    Each template is transcribed node by node: literal text between two
    tags becomes one [TText] (line breaks and blanks kept as they stand in
    the file), [{{ ... }}] becomes [TEmit], [{% if %}]/[{% elif %}]/
    [{% else %}] becomes [TIf] (an [elif] is an [if] in the else branch),
    and [{% for %}] becomes [TFor]. *)

Module Templates.
Import Text Jinja.

(** [templates/express/src/models/modelv3.ts.jinja], lines 1-95. *)
Definition modelv3_ts : tpl :=
  TText (lines ["// templates/express/models/model.ts.jinja"; ""]) $
  TIf (EEq (EVar "model" .> "features" .> "database") (EConst "MONGO_DB"))
    (TText (lines
          [ "";
            "import mongoose, { Document, Model } from " +:+ dq +:+ "mongoose" +:+ dq +:+ ";";
            "" ]) $
      TEnd)
    (TIf (EEq (EVar "model" .> "features" .> "database") (EConst "FIREBASE"))
        (TText (lines
              [ "";
                "import { getFirestore } from 'firebase-admin/firestore';";
                "" ]) $
          TEnd)
        (TEnd) $
      TEnd) $
  TText (lines [""; ""]) $
  TIf (EVar "model" .> "features" .> "auth")
    (TText (lines
          [ "";
            "import bcrypt from " +:+ dq +:+ "bcrypt" +:+ dq +:+ ";";
            "" ]) $
      TEnd)
    (TEnd) $
  TText (lines [""; ""; "// Define the "]) $
  TEmit (EVar "model" .> "name") $
  TText (lines [" interface"; ""]) $
  TIf (EEq (EVar "model" .> "features" .> "database") (EConst "MONGO_DB"))
    (TText (lines [""; "interface I"]) $
      TEmit (EVar "model" .> "name") $
      TText (lines [" extends Document {"; ""]) $
      TEnd)
    (TText (lines [""; "interface I"]) $
      TEmit (EVar "model" .> "name") $
      TText (lines [" {"; "  id: string;"; ""]) $
      TEnd) $
  TText (lines [""; "  "]) $
  TFor ["field"] (EVar "model" .> "fields")
    (TText (lines [""; "  "]) $
      TEmit (EVar "field" .> "name") $
      TText ": " $
      TEmit (EVar "field" .> "type") $
      TText (lines [";"; "  "]) $
      TEnd) $
  TText (lines [""; "  "]) $
  TFor ["method"] (EVar "model" .> "methods")
    (TText (lines [""; "  "]) $
      TEmit (EVar "method" .> "name") $
      TText "(" $
      TEmit (EFilter (EVar "method" .> "params") "join" [LStr ", "]) $
      TText "): Promise<" $
      TEmit (EVar "method" .> "returnType") $
      TText (lines [">;"; "  "]) $
      TEnd) $
  TText (lines [""; "}"; ""; ""]) $
  TIf (EEq (EVar "model" .> "features" .> "database") (EConst "MONGO_DB"))
    (TText (lines [""; "// Define the "]) $
      TEmit (EFilter (EVar "model" .> "name") "lower" []) $
      TText (lines [" schema"; "const "]) $
      TEmit (EFilter (EVar "model" .> "name") "lower" []) $
      TText "Schema = new mongoose.Schema<I" $
      TEmit (EVar "model" .> "name") $
      TText (lines [">({"; "  "]) $
      TFor ["field"] (EVar "model" .> "fields")
        (TText (lines [""; "  "]) $
          TEmit (EVar "field" .> "name") $
          TText (lines [": {"; "    type: "]) $
          TEmit (EVar "field" .> "schemaType") $
          TText (lines [","; "    "]) $
          TFor ["option"; "value"] (EItems (EVar "field" .> "options"))
            (TText (lines [""; "    "]) $
              TEmit (EVar "option") $
              TText ": " $
              TEmit (EVar "value") $
              TText (lines [","; "    "]) $
              TEnd) $
          TText (lines [""; "  },"; "  "]) $
          TEnd) $
      TText (lines [""; "});"; ""; ""]) $
      TFor ["hook"] (EVar "model" .> "hooks")
        (TText (lines [""; "// "]) $
          TEmit (EVar "hook" .> "description") $
          TText (lines [""; ""]) $
          TEmit (EFilter (EVar "model" .> "name") "lower" []) $
          TText "Schema.pre<I" $
          TEmit (EVar "model" .> "name") $
          TText (">(" +:+ dq) $
          TEmit (EVar "hook" .> "event") $
          TText (lines [dq +:+ ", async function (next) {"; "  "]) $
          TEmit (EFilter (EVar "hook" .> "implementation") "indent" [LNum 2]) $
          TText (lines [""; "  next();"; "});"; ""]) $
          TEnd) $
      TText (lines [""; ""; ""]) $
      TFor ["method"] (EVar "model" .> "methods")
        (TText (lines [""; "// "]) $
          TEmit (EVar "method" .> "description") $
          TText (lines [""; ""]) $
          TEmit (EFilter (EVar "model" .> "name") "lower" []) $
          TText "Schema.methods." $
          TEmit (EVar "method" .> "name") $
          TText (lines [" = async function ("; "  "]) $
          TEmit (EFilter (EVar "method" .> "params") "join" [LStr ", "]) $
          TText (lines [""; "): Promise<"]) $
          TEmit (EVar "method" .> "returnType") $
          TText (lines ["> {"; "  "]) $
          TEmit (EFilter (EVar "method" .> "implementation") "indent" [LNum 2]) $
          TText (lines [""; "};"; ""]) $
          TEnd) $
      TText (lines [""; ""; "// Create the "]) $
      TEmit (EFilter (EVar "model" .> "name") "lower" []) $
      TText (lines [" model"; "const "]) $
      TEmit (EVar "model" .> "name") $
      TText ": Model<I" $
      TEmit (EVar "model" .> "name") $
      TText "> = mongoose.model<I" $
      TEmit (EVar "model" .> "name") $
      TText (">(" +:+ dq) $
      TEmit (EVar "model" .> "name") $
      TText (dq +:+ ", ") $
      TEmit (EFilter (EVar "model" .> "name") "lower" []) $
      TText (lines ["Schema);"; ""]) $
      TEnd)
    (TText (lines
          [ "";
            "// Firebase implementation";
            "const db = getFirestore();";
            "const " ]) $
      TEmit (EFilter (EVar "model" .> "name") "lower" []) $
      TText "Collection = db.collection('" $
      TEmit (EFilter (EVar "model" .> "name") "lower" []) $
      TText (lines ["s');"; ""; "class "]) $
      TEmit (EVar "model" .> "name") $
      TText " implements I" $
      TEmit (EVar "model" .> "name") $
      TText (lines [" {"; "  id: string;"; "  "]) $
      TFor ["field"] (EVar "model" .> "fields")
        (TText (lines [""; "  "]) $
          TEmit (EVar "field" .> "name") $
          TText ": " $
          TEmit (EVar "field" .> "type") $
          TText (lines [";"; "  "]) $
          TEnd) $
      TText (lines [""; ""; "  constructor(data: Partial<I"]) $
      TEmit (EVar "model" .> "name") $
      TText (lines [">) {"; "    this.id = data.id || '';"; "    "]) $
      TFor ["field"] (EVar "model" .> "fields")
        (TText (lines [""; "    this."]) $
          TEmit (EVar "field" .> "name") $
          TText " = data." $
          TEmit (EVar "field" .> "name") $
          TText (lines [";"; "    "]) $
          TEnd) $
      TText (lines [""; "  }"; ""; "  "]) $
      TFor ["method"] (EVar "model" .> "methods")
        (TText (lines [""; "  // "]) $
          TEmit (EVar "method" .> "description") $
          TText (lines [""; "  async "]) $
          TEmit (EVar "method" .> "name") $
          TText "(" $
          TEmit (EFilter (EVar "method" .> "params") "join" [LStr ", "]) $
          TText "): Promise<" $
          TEmit (EVar "method" .> "returnType") $
          TText (lines ["> {"; "    "]) $
          TEmit (EFilter (EVar "method" .> "implementation") "indent" [LNum 4]) $
          TText (lines [""; "  }"; "  "]) $
          TEnd) $
      TText (lines
          [ "";
            "";
            "  // Static methods for Firebase operations";
            "  static async findById(id: string): Promise<" ]) $
      TEmit (EVar "model" .> "name") $
      TText (lines [" | null> {"; "    const doc = await "]) $
      TEmit (EFilter (EVar "model" .> "name") "lower" []) $
      TText (lines ["Collection.doc(id).get();"; "    return doc.exists ? new "]) $
      TEmit (EVar "model" .> "name") $
      TText (lines
          [ "({ id: doc.id, ...doc.data() }) : null;";
            "  }";
            "";
            "  static async create(data: Partial<I" ]) $
      TEmit (EVar "model" .> "name") $
      TText ">): Promise<" $
      TEmit (EVar "model" .> "name") $
      TText (lines ["> {"; "    const docRef = await "]) $
      TEmit (EFilter (EVar "model" .> "name") "lower" []) $
      TText (lines ["Collection.add(data);"; "    return new "]) $
      TEmit (EVar "model" .> "name") $
      TText (lines ["({ id: docRef.id, ...data });"; "  }"; "}"; ""]) $
      TEnd) $
  TText (lines [""; ""; "export default "]) $
  TEmit (EVar "model" .> "name") $
  TText ";" $
  TEnd.

(** The application entrypoint template ([src/unnamed/part_000]). *)
Definition app_ts : tpl :=
  TText (lines
      [ "import express from " +:+ dq +:+ "express" +:+ dq +:+ ";";
        "import bodyParser from " +:+ dq +:+ "body-parser" +:+ dq +:+ ";";
        "" ]) $
  TIf (EVar "features" .> "cors")
    (TText (lines [""; "import cors from " +:+ dq +:+ "cors" +:+ dq +:+ ";"; ""]) $
      TEnd)
    (TEnd) $
  TText (lines [""; ""]) $
  TFor ["model"] (EVar "models")
    (TText (lines [""; "import "]) $
      TEmit (EFilter (EVar "model" .> "name") "lower" []) $
      TText ("Routes from " +:+ dq +:+ "./routes/") $
      TEmit (EFilter (EVar "model" .> "name") "lower" []) $
      TText (lines ["Routes" +:+ dq +:+ ";"; ""]) $
      TEnd) $
  TText (lines
      [ "";
        "import { errorHandler } from " +:+ dq +:+ "./utils/errorHandler" +:+ dq +:+ ";";
        "";
        "const app = express();";
        "";
        "" ]) $
  TIf (EVar "features" .> "cors")
    (TText (lines
          [ "";
            "// Enable CORS for all routes";
            "app.use(cors({";
            "  origin: process.env.CORS_ORIGIN || '*',";
            "  methods: ['GET', 'POST', 'PUT', 'DELETE', 'PATCH'],";
            "  allowedHeaders: ['Content-Type', 'Authorization']";
            "}));";
            "" ]) $
      TEnd)
    (TEnd) $
  TText (lines
      [ "";
        "";
        "// Middleware to parse incoming request bodies";
        "app.use(bodyParser.json());";
        "";
        "" ]) $
  TFor ["model"] (EVar "models")
    (TText (lines [""; "// Use "]) $
      TEmit (EFilter (EVar "model" .> "name") "lower" []) $
      TText " routes for handling requests to /api/" $
      TEmit (EFilter (EVar "model" .> "name") "lower" []) $
      TText (lines ["s"; "app.use(" +:+ dq +:+ "/api/"]) $
      TEmit (EFilter (EVar "model" .> "name") "lower" []) $
      TText ("s" +:+ dq +:+ ", ") $
      TEmit (EFilter (EVar "model" .> "name") "lower" []) $
      TText (lines ["Routes);"; ""]) $
      TEnd) $
  TText (lines
      [ "";
        "";
        "// Error handling middleware";
        "app.use(errorHandler);";
        "";
        "// Export the app for use in server.js";
        "export default app;";
        "" ]) $
  TEnd.

(** The first model template ([src/unnamed/part_001], lines 1-49). *)
Definition model_ts : tpl :=
  TText (lines
      [ "// templates/express/models/model.ts.jinja";
        "import mongoose, { Document, Model } from " +:+ dq +:+ "mongoose" +:+ dq +:+ ";";
        "" ]) $
  TIf (EVar "model" .> "features" .> "auth")
    (TText (lines
          [ "";
            "import bcrypt from " +:+ dq +:+ "bcrypt" +:+ dq +:+ ";";
            "" ]) $
      TEnd)
    (TEnd) $
  TText (lines [""; ""; "// Define the "]) $
  TEmit (EVar "model" .> "name") $
  TText (lines [" schema interface"; "interface I"]) $
  TEmit (EVar "model" .> "name") $
  TText (lines [" extends Document {"; "  "]) $
  TFor ["field"] (EVar "model" .> "fields")
    (TText (lines [""; "  "]) $
      TEmit (EVar "field" .> "name") $
      TText ": " $
      TEmit (EVar "field" .> "type") $
      TText (lines [";"; "  "]) $
      TEnd) $
  TText (lines [""; "  "]) $
  TFor ["method"] (EVar "model" .> "methods")
    (TText (lines [""; "  "]) $
      TEmit (EVar "method" .> "name") $
      TText "(" $
      TEmit (EFilter (EVar "method" .> "params") "join" [LStr ", "]) $
      TText "): Promise<" $
      TEmit (EVar "method" .> "returnType") $
      TText (lines [">;"; "  "]) $
      TEnd) $
  TText (lines [""; "}"; ""; "// Define the "]) $
  TEmit (EFilter (EVar "model" .> "name") "lower" []) $
  TText (lines [" schema"; "const "]) $
  TEmit (EFilter (EVar "model" .> "name") "lower" []) $
  TText "Schema = new mongoose.Schema<I" $
  TEmit (EVar "model" .> "name") $
  TText (lines [">({"; "  "]) $
  TFor ["field"] (EVar "model" .> "fields")
    (TText (lines [""; "  "]) $
      TEmit (EVar "field" .> "name") $
      TText (lines [": {"; "    type: "]) $
      TEmit (EVar "field" .> "schemaType") $
      TText (lines [","; "    "]) $
      TFor ["option"; "value"] (EItems (EVar "field" .> "options"))
        (TText (lines [""; "    "]) $
          TEmit (EVar "option") $
          TText ": " $
          TEmit (EVar "value") $
          TText (lines [","; "    "]) $
          TEnd) $
      TText (lines [""; "  },"; "  "]) $
      TEnd) $
  TText (lines [""; "});"; ""; ""]) $
  TFor ["hook"] (EVar "model" .> "hooks")
    (TText (lines [""; "// "]) $
      TEmit (EVar "hook" .> "description") $
      TText (lines [""; ""]) $
      TEmit (EFilter (EVar "model" .> "name") "lower" []) $
      TText "Schema.pre<I" $
      TEmit (EVar "model" .> "name") $
      TText (">(" +:+ dq) $
      TEmit (EVar "hook" .> "event") $
      TText (lines [dq +:+ ", async function (next) {"; "  "]) $
      TEmit (EFilter (EVar "hook" .> "implementation") "indent" [LNum 2]) $
      TText (lines [""; "  next();"; "});"; ""]) $
      TEnd) $
  TText (lines [""; ""; ""]) $
  TFor ["method"] (EVar "model" .> "methods")
    (TText (lines [""; "// "]) $
      TEmit (EVar "method" .> "description") $
      TText (lines [""; ""]) $
      TEmit (EFilter (EVar "model" .> "name") "lower" []) $
      TText "Schema.methods." $
      TEmit (EVar "method" .> "name") $
      TText (lines [" = async function ("; "  "]) $
      TEmit (EFilter (EVar "method" .> "params") "join" [LStr ", "]) $
      TText (lines [""; "): Promise<"]) $
      TEmit (EVar "method" .> "returnType") $
      TText (lines ["> {"; "  "]) $
      TEmit (EFilter (EVar "method" .> "implementation") "indent" [LNum 2]) $
      TText (lines [""; "};"; ""]) $
      TEnd) $
  TText (lines [""; ""; "// Create the "]) $
  TEmit (EFilter (EVar "model" .> "name") "lower" []) $
  TText (lines [" model"; "const "]) $
  TEmit (EVar "model" .> "name") $
  TText ": Model<I" $
  TEmit (EVar "model" .> "name") $
  TText "> = mongoose.model<I" $
  TEmit (EVar "model" .> "name") $
  TText (">(" +:+ dq) $
  TEmit (EVar "model" .> "name") $
  TText (dq +:+ ", ") $
  TEmit (EFilter (EVar "model" .> "name") "lower" []) $
  TText (lines ["Schema);"; ""; "export default "]) $
  TEmit (EVar "model" .> "name") $
  TText ";" $
  TEnd.

(** The example template of the README ([src/unnamed/part_001], lines 125-126). *)
Definition readme_example : tpl :=
  TText "Hello, " $
  TEmit (EVar "user" .> "name") $
  TText (lines ["!"; "Your account was created on "]) $
  TEmit (EFilter (EVar "user" .> "created_at") "date" []) $
  TText "." $
  TEnd.

(** The model template quoted in [docs/design.md], lines 204-247. *)
Definition design_model : tpl :=
  TText (lines
      [ "// templates/express/models/model.ts.jinja";
        "import mongoose, { Document, Model } from " +:+ dq +:+ "mongoose" +:+ dq +:+ ";";
        "" ]) $
  TIf (EVar "model" .> "features" .> "auth")
    (TText (lines
          [ "";
            "import bcrypt from " +:+ dq +:+ "bcrypt" +:+ dq +:+ ";";
            "" ]) $
      TEnd)
    (TEnd) $
  TText (lines [""; ""; "interface I"]) $
  TEmit (EVar "model" .> "name") $
  TText (lines [" extends Document {"; "  "]) $
  TFor ["field"] (EVar "model" .> "fields")
    (TText (lines [""; "  "]) $
      TEmit (EVar "field" .> "name") $
      TText ": " $
      TEmit (EVar "field" .> "type") $
      TText (lines [";"; "  "]) $
      TEnd) $
  TText (lines [""; "  "]) $
  TFor ["method"] (EVar "model" .> "methods")
    (TText (lines [""; "  "]) $
      TEmit (EVar "method" .> "name") $
      TText "(" $
      TEmit (EFilter (EVar "method" .> "params") "join" [LStr ", "]) $
      TText "): Promise<" $
      TEmit (EVar "method" .> "returnType") $
      TText (lines [">;"; "  "]) $
      TEnd) $
  TText (lines [""; "}"; ""; "const "]) $
  TEmit (EFilter (EVar "model" .> "name") "lower" []) $
  TText "Schema = new mongoose.Schema<I" $
  TEmit (EVar "model" .> "name") $
  TText (lines [">({"; "  "]) $
  TFor ["field"] (EVar "model" .> "fields")
    (TText (lines [""; "  "]) $
      TEmit (EVar "field" .> "name") $
      TText (lines [": {"; "    type: "]) $
      TEmit (EVar "field" .> "schemaType") $
      TText (lines [","; "    "]) $
      TFor ["option"; "value"] (EItems (EVar "field" .> "options"))
        (TText (lines [""; "    "]) $
          TEmit (EVar "option") $
          TText ": " $
          TEmit (EVar "value") $
          TText (lines [","; "    "]) $
          TEnd) $
      TText (lines [""; "  },"; "  "]) $
      TEnd) $
  TText (lines [""; "});"; ""; ""]) $
  TFor ["hook"] (EVar "model" .> "hooks")
    (TText (lines [""; ""]) $
      TEmit (EFilter (EVar "model" .> "name") "lower" []) $
      TText "Schema.pre<I" $
      TEmit (EVar "model" .> "name") $
      TText (">(" +:+ dq) $
      TEmit (EVar "hook" .> "event") $
      TText (lines [dq +:+ ", async function (next) {"; "  "]) $
      TEmit (EFilter (EVar "hook" .> "implementation") "indent" [LNum 2]) $
      TText (lines [""; "  next();"; "});"; ""]) $
      TEnd) $
  TText (lines [""; ""; ""]) $
  TFor ["method"] (EVar "model" .> "methods")
    (TText (lines [""; ""]) $
      TEmit (EFilter (EVar "model" .> "name") "lower" []) $
      TText "Schema.methods." $
      TEmit (EVar "method" .> "name") $
      TText (lines [" = async function ("; "  "]) $
      TEmit (EFilter (EVar "method" .> "params") "join" [LStr ", "]) $
      TText (lines [""; "): Promise<"]) $
      TEmit (EVar "method" .> "returnType") $
      TText (lines ["> {"; "  "]) $
      TEmit (EFilter (EVar "method" .> "implementation") "indent" [LNum 2]) $
      TText (lines [""; "};"; ""]) $
      TEnd) $
  TText (lines [""; ""; "const "]) $
  TEmit (EVar "model" .> "name") $
  TText ": Model<I" $
  TEmit (EVar "model" .> "name") $
  TText "> = mongoose.model<I" $
  TEmit (EVar "model" .> "name") $
  TText (">(" +:+ dq) $
  TEmit (EVar "model" .> "name") $
  TText (dq +:+ ", ") $
  TEmit (EFilter (EVar "model" .> "name") "lower" []) $
  TText (lines ["Schema);"; ""; "export default "]) $
  TEmit (EVar "model" .> "name") $
  TText ";" $
  TEnd.

(** The route template quoted in [docs/design.md], lines 253-271. *)
Definition design_route : tpl :=
  TText (lines
      [ "// templates/express/routes/route.ts.jinja";
        "import express from " +:+ dq +:+ "express" +:+ dq +:+ ";";
        "import * as " ]) $
  TEmit (EFilter (EVar "model" .> "name") "lower" []) $
  TText ("Controller from " +:+ dq +:+ "../controllers/") $
  TEmit (EFilter (EVar "model" .> "name") "lower" []) $
  TText (lines ["Controller" +:+ dq +:+ ";"; ""]) $
  TIf (EVar "model" .> "features" .> "auth")
    (TText (lines
          [ "";
            "import authMiddleware from " +:+ dq +:+ "../middleware/authMiddleware" +:+ dq +:+ ";";
            "" ]) $
      TEnd)
    (TEnd) $
  TText (lines [""; ""; "const router = express.Router();"; ""; ""]) $
  TFor ["route"] (EVar "model" .> "routes")
    (TText (lines [""; "// "]) $
      TEmit (EVar "route" .> "description") $
      TText (lines [""; "router."]) $
      TEmit (EVar "route" .> "method") $
      TText (lines ["("; "    " +:+ dq]) $
      TEmit (EVar "route" .> "path") $
      TText dq $
      TIf (EVar "route" .> "requiresAuth")
        (TText (lines [","; "    authMiddleware"]) $
          TEnd)
        (TEnd) $
      TText (lines [","; "    "]) $
      TEmit (EFilter (EVar "model" .> "name") "lower" []) $
      TText "Controller." $
      TEmit (EVar "route" .> "handler") $
      TText (lines [""; ");"; ""]) $
      TEnd) $
  TText (lines [""; ""; "export default router;"]) $
  TEnd.

(** The controller template quoted in [docs/design.md], lines 277-298. *)
Definition design_controller : tpl :=
  TText (lines
      [ "// templates/express/controllers/controller.ts.jinja";
        "import { Request, Response, NextFunction } from " +:+ dq +:+ "express" +:+ dq +:+ ";";
        "import " ]) $
  TEmit (EVar "model" .> "name") $
  TText (" from " +:+ dq +:+ "../models/") $
  TEmit (EFilter (EVar "model" .> "name") "lower" []) $
  TText (lines ["Model.js" +:+ dq +:+ ";"; ""]) $
  TIf (EVar "model" .> "features" .> "auth")
    (TText (lines
          [ "";
            "import jwt from " +:+ dq +:+ "jsonwebtoken" +:+ dq +:+ ";";
            "import config from " +:+ dq +:+ "../config/config.js" +:+ dq +:+ ";";
            "" ]) $
      TEnd)
    (TEnd) $
  TText (lines [""; ""; ""]) $
  TFor ["operation"] (EVar "model" .> "operations")
    (TText (lines [""; "// "]) $
      TEmit (EVar "operation" .> "description") $
      TText (lines [""; "export const "]) $
      TEmit (EVar "operation" .> "name") $
      TText (lines
          [ " = async (";
            "  req: Request,";
            "  res: Response,";
            "  next: NextFunction";
            "): Promise<void> => {";
            "  try {";
            "    " ]) $
      TEmit (EFilter (EVar "operation" .> "implementation") "indent" [LNum 4]) $
      TText (lines [""; "  } catch (err) {"; "    next(err);"; "  }"; "};"; ""]) $
      TEnd) $
  TEnd.


(** The templates shipped for generation. *)
Definition shipped : list (string * tpl) :=
  [("modelv3.ts.jinja", modelv3_ts); ("app.ts.jinja", app_ts);
   ("model.ts.jinja", model_ts)].

(** The templates quoted in the design notes. *)
Definition quoted : list (string * tpl) :=
  [("design/model.ts.jinja", design_model);
   ("design/route.ts.jinja", design_route);
   ("design/controller.ts.jinja", design_controller)].

End Templates.

(** ** The schema model and the contexts built from it

    Modelled from the spec: the data model of section 3.  The generator's
    own data structures are not among the repository's sources; the
    attributes of a model, field, method and hook are the paths the
    templates read ([model.name], [field.schemaType], [hook.event], ...). *)

Module Schema.
Import Jinja.

(** The semantic type of a field; an enum carries its declared values. *)
Inductive FieldKind : Type :=
| KString
| KNumber
| KBoolean
| KEnum (values : list string)
| KDecimal
| KDate
| KReference.

(** A field, with the attributes the templates read ([field.name],
    [field.type], [field.schemaType], [field.options]). *)
Record Field : Type := {
  field_name : string;
  field_kind : FieldKind;
  field_type : string;
  field_schemaType : string;
  field_options : list (string * string)
}.

(** A method; the implementation body is opaque text. *)
Record Method : Type := {
  method_name : string;
  method_params : list string;
  method_returnType : string;
  method_description : string;
  method_implementation : string
}.

Record Hook : Type := {
  hook_event : string;
  hook_description : string;
  hook_implementation : string
}.

Inductive Cardinality : Type :=
| One
| Many.

Record Relation : Type := {
  rel_target : string;
  rel_cardinality : Cardinality;
  rel_owning : bool
}.

(** Per-model feature flags. *)
Record Flags : Type := {
  auth : bool;
  audit : bool;
  search : bool
}.

Record Model : Type := {
  model_name : string;
  model_fields : list Field;
  model_methods : list Method;
  model_hooks : list Hook;
  model_relations : list Relation;
  model_flags : Flags
}.

(** Global configuration: storage backend, authentication mode,
    cross-origin policy. *)
Record Config : Type := {
  storage_backend : string;
  auth_mode : string;
  cors : bool
}.

Record Schema : Type := {
  models : list Model;
  config : Config
}.

(** *** Contexts *)

Definition options_value (os : list (string * string)) : value :=
  VMap (map (fun kv => (fst kv, VStr (snd kv))) os).

Definition field_value (f : Field) : value :=
  VMap [("name", VStr (field_name f));
        ("type", VStr (field_type f));
        ("schemaType", VStr (field_schemaType f));
        ("options", options_value (field_options f))].

Definition method_value (m : Method) : value :=
  VMap [("name", VStr (method_name m));
        ("params", VList (map VStr (method_params m)));
        ("returnType", VStr (method_returnType m));
        ("description", VStr (method_description m));
        ("implementation", VStr (method_implementation m))].

Definition hook_value (h : Hook) : value :=
  VMap [("event", VStr (hook_event h));
        ("description", VStr (hook_description h));
        ("implementation", VStr (hook_implementation h))].

Definition relation_value (r : Relation) : value :=
  VMap [("target", VStr (rel_target r));
        ("cardinality", VStr (match rel_cardinality r with
                              | One => "one"
                              | Many => "many"
                              end));
        ("owning", VBool (rel_owning r))].

(** [model.features]: the model's own flags and the storage backend the
    configuration selects. *)
Definition features_value (c : Config) (m : Model) : value :=
  VMap [("database", VStr (storage_backend c));
        ("auth", VBool (auth (model_flags m)));
        ("audit", VBool (audit (model_flags m)));
        ("search", VBool (search (model_flags m)))].

Definition model_value (c : Config) (m : Model) : value :=
  VMap [("name", VStr (model_name m));
        ("fields", VList (map field_value (model_fields m)));
        ("methods", VList (map method_value (model_methods m)));
        ("hooks", VList (map hook_value (model_hooks m)));
        ("relations", VList (map relation_value (model_relations m)));
        ("features", features_value c m)].

(** Modelled from the spec: the context of a per-model artifact is one
    model plus the configuration (section 4.3). *)
Definition model_ctx (c : Config) (m : Model) : scope :=
  [("model", model_value c m)].

(** Modelled from the spec: the context of a project-level artifact is the
    full schema (section 4.3).  [models] and [features.cors] are the paths
    the entrypoint template reads. *)
Definition schema_ctx (s : Schema) : scope :=
  [("models", VList (map (model_value (config s)) (models s)));
   ("features", VMap [("cors", VBool (cors (config s)));
                      ("database", VStr (storage_backend (config s)));
                      ("auth", VStr (auth_mode (config s)))])].

End Schema.


(** ** What the templates write

    The output of the two generation templates, as functions of the schema.
    [TemplateFacts.modelv3_renders] and [TemplateFacts.app_renders] prove
    that the evaluator produces exactly these chunk lists from the templates
    above. *)

Module Rendered.
Import Text Jinja Schema.

(** What [modelv3.ts.jinja] writes, block by block. *)
Definition mongoose_import : string :=
  lines [""; "import mongoose, { Document, Model } from " +:+ dq +:+ "mongoose" +:+ dq +:+ ";"; ""].
Definition firestore_import : string :=
  lines [""; "import { getFirestore } from 'firebase-admin/firestore';"; ""].
Definition bcrypt_import : string :=
  lines [""; "import bcrypt from " +:+ dq +:+ "bcrypt" +:+ dq +:+ ";"; ""].
Definition mongoose_schema_open : string := "Schema = new mongoose.Schema<I".
Definition firestore_open : string :=
  lines [""; "// Firebase implementation"; "const db = getFirestore();"; "const "].
Definition hook_open : string := "Schema.pre<I".

Definition is_mongo (c : Config) : bool := String.eqb (storage_backend c) "MONGO_DB".
Definition is_firebase (c : Config) : bool := String.eqb (storage_backend c) "FIREBASE".

Definition field_decl (f : Field) : list chunk :=
  [Lit (lines [""; "  "]); Sub (field_name f); Lit ": "; Sub (field_type f);
   Lit (lines [";"; "  "])].

Definition method_sig (d : Method) : list chunk :=
  [Lit (lines [""; "  "]); Sub (method_name d); Lit "(";
   Sub (join ", " (method_params d)); Lit "): Promise<";
   Sub (method_returnType d); Lit (lines [">;"; "  "])].

Definition option_entry (kv : string * string) : list chunk :=
  [Lit (lines [""; "    "]); Sub (fst kv); Lit ": "; Sub (snd kv);
   Lit (lines [","; "    "])].

Definition field_schema (f : Field) : list chunk :=
  Lit (lines [""; "  "]) :: Sub (field_name f) ::
  Lit (lines [": {"; "    type: "]) :: Sub (field_schemaType f) ::
  Lit (lines [","; "    "]) ::
  flat_map option_entry (field_options f) ++
  [Lit (lines [""; "  },"; "  "])].

Definition hook_block (m : Model) (h : Hook) : list chunk :=
  [Lit (lines [""; "// "]); Sub (hook_description h); Lit (lines [""; ""]);
   Sub (lower (model_name m)); Lit hook_open; Sub (model_name m);
   Lit (">(" +:+ dq); Sub (hook_event h);
   Lit (lines [dq +:+ ", async function (next) {"; "  "]);
   Sub (indent 2 (hook_implementation h));
   Lit (lines [""; "  next();"; "});"; ""])].

Definition method_impl (m : Model) (d : Method) : list chunk :=
  [Lit (lines [""; "// "]); Sub (method_description d); Lit (lines [""; ""]);
   Sub (lower (model_name m)); Lit "Schema.methods."; Sub (method_name d);
   Lit (lines [" = async function ("; "  "]);
   Sub (join ", " (method_params d)); Lit (lines [""; "): Promise<"]);
   Sub (method_returnType d); Lit (lines ["> {"; "  "]);
   Sub (indent 2 (method_implementation d)); Lit (lines [""; "};"; ""])].

Definition mongoose_definition (m : Model) : list chunk :=
  Lit (lines [""; "// Define the "]) :: Sub (lower (model_name m)) ::
  Lit (lines [" schema"; "const "]) :: Sub (lower (model_name m)) ::
  Lit mongoose_schema_open :: Sub (model_name m) ::
  Lit (lines [">({"; "  "]) ::
  flat_map field_schema (model_fields m) ++
  Lit (lines [""; "});"; ""; ""]) ::
  flat_map (hook_block m) (model_hooks m) ++
  Lit (lines [""; ""; ""]) ::
  flat_map (method_impl m) (model_methods m) ++
  [Lit (lines [""; ""; "// Create the "]); Sub (lower (model_name m));
   Lit (lines [" model"; "const "]); Sub (model_name m); Lit ": Model<I";
   Sub (model_name m); Lit "> = mongoose.model<I"; Sub (model_name m);
   Lit (">(" +:+ dq); Sub (model_name m); Lit (dq +:+ ", ");
   Sub (lower (model_name m)); Lit (lines ["Schema);"; ""])].

Definition field_assign (f : Field) : list chunk :=
  [Lit (lines [""; "    this."]); Sub (field_name f); Lit " = data.";
   Sub (field_name f); Lit (lines [";"; "    "])].

Definition class_method (d : Method) : list chunk :=
  [Lit (lines [""; "  // "]); Sub (method_description d);
   Lit (lines [""; "  async "]); Sub (method_name d); Lit "(";
   Sub (join ", " (method_params d)); Lit "): Promise<";
   Sub (method_returnType d); Lit (lines ["> {"; "    "]);
   Sub (indent 4 (method_implementation d)); Lit (lines [""; "  }"; "  "])].

Definition firestore_class (m : Model) : list chunk :=
  Lit firestore_open :: Sub (lower (model_name m)) ::
  Lit "Collection = db.collection('" :: Sub (lower (model_name m)) ::
  Lit (lines ["s');"; ""; "class "]) :: Sub (model_name m) ::
  Lit " implements I" :: Sub (model_name m) ::
  Lit (lines [" {"; "  id: string;"; "  "]) ::
  flat_map field_decl (model_fields m) ++
  Lit (lines [""; ""; "  constructor(data: Partial<I"]) :: Sub (model_name m) ::
  Lit (lines [">) {"; "    this.id = data.id || '';"; "    "]) ::
  flat_map field_assign (model_fields m) ++
  Lit (lines [""; "  }"; ""; "  "]) ::
  flat_map class_method (model_methods m) ++
  [Lit (lines [""; ""; "  // Static methods for Firebase operations";
               "  static async findById(id: string): Promise<"]);
   Sub (model_name m);
   Lit (lines [" | null> {"; "    const doc = await "]);
   Sub (lower (model_name m));
   Lit (lines ["Collection.doc(id).get();"; "    return doc.exists ? new "]);
   Sub (model_name m);
   Lit (lines ["({ id: doc.id, ...doc.data() }) : null;"; "  }"; "";
               "  static async create(data: Partial<I"]);
   Sub (model_name m); Lit ">): Promise<"; Sub (model_name m);
   Lit (lines ["> {"; "    const docRef = await "]);
   Sub (lower (model_name m));
   Lit (lines ["Collection.add(data);"; "    return new "]);
   Sub (model_name m);
   Lit (lines ["({ id: docRef.id, ...data });"; "  }"; "}"; ""])].

Definition modelv3_out (c : Config) (m : Model) : list chunk :=
  Lit (lines ["// templates/express/models/model.ts.jinja"; ""]) ::
  (if is_mongo c then [Lit mongoose_import]
   else if is_firebase c then [Lit firestore_import] else []) ++
  Lit (lines [""; ""]) ::
  (if auth (model_flags m) then [Lit bcrypt_import] else []) ++
  Lit (lines [""; ""; "// Define the "]) :: Sub (model_name m) ::
  Lit (lines [" interface"; ""]) ::
  (if is_mongo c
   then [Lit (lines [""; "interface I"]); Sub (model_name m);
         Lit (lines [" extends Document {"; ""])]
   else [Lit (lines [""; "interface I"]); Sub (model_name m);
         Lit (lines [" {"; "  id: string;"; ""])]) ++
  Lit (lines [""; "  "]) ::
  flat_map field_decl (model_fields m) ++
  Lit (lines [""; "  "]) ::
  flat_map method_sig (model_methods m) ++
  Lit (lines [""; "}"; ""; ""]) ::
  (if is_mongo c then mongoose_definition m else firestore_class m) ++
  [Lit (lines [""; ""; "export default "]); Sub (model_name m); Lit ";"].


(** What the application entrypoint template writes. *)
Definition cors_import : string :=
  lines [""; "import cors from " +:+ dq +:+ "cors" +:+ dq +:+ ";"; ""].
Definition cors_setup : string :=
  lines [""; "// Enable CORS for all routes"; "app.use(cors({";
         "  origin: process.env.CORS_ORIGIN || '*',";
         "  methods: ['GET', 'POST', 'PUT', 'DELETE', 'PATCH'],";
         "  allowedHeaders: ['Content-Type', 'Authorization']"; "}));"; ""].

Definition route_import (m : Model) : list chunk :=
  [Lit (lines [""; "import "]); Sub (lower (model_name m));
   Lit ("Routes from " +:+ dq +:+ "./routes/"); Sub (lower (model_name m));
   Lit (lines ["Routes" +:+ dq +:+ ";"; ""])].

Definition route_use (m : Model) : list chunk :=
  [Lit (lines [""; "// Use "]); Sub (lower (model_name m));
   Lit " routes for handling requests to /api/"; Sub (lower (model_name m));
   Lit (lines ["s"; "app.use(" +:+ dq +:+ "/api/"]); Sub (lower (model_name m));
   Lit ("s" +:+ dq +:+ ", "); Sub (lower (model_name m));
   Lit (lines ["Routes);"; ""])].

Definition app_out (s : Schema) : list chunk :=
  Lit (lines ["import express from " +:+ dq +:+ "express" +:+ dq +:+ ";";
              "import bodyParser from " +:+ dq +:+ "body-parser" +:+ dq +:+ ";";
              ""]) ::
  (if cors (config s) then [Lit cors_import] else []) ++
  Lit (lines [""; ""]) ::
  flat_map route_import (models s) ++
  Lit (lines [""; "import { errorHandler } from " +:+ dq +:+ "./utils/errorHandler" +:+ dq +:+ ";";
              ""; "const app = express();"; ""; ""]) ::
  (if cors (config s) then [Lit cors_setup] else []) ++
  Lit (lines [""; ""; "// Middleware to parse incoming request bodies";
              "app.use(bodyParser.json());"; ""; ""]) ::
  flat_map route_use (models s) ++
  [Lit (lines [""; ""; "// Error handling middleware"; "app.use(errorHandler);";
               ""; "// Export the app for use in server.js";
               "export default app;"; ""])].

(** [precedes x y l]: [x] stands before [y] in [l]. *)
Definition precedes {A : Type} (x y : A) (l : list A) : Prop :=
  exists a b d, l = a ++ x :: b ++ y :: d.

(** [occurs_before X Y out]: the block [X] is written before the block [Y]. *)
Definition occurs_before {A : Type} (X Y out : list A) : Prop :=
  exists a b d, out = a ++ X ++ b ++ Y ++ d.

(** [has_block B out]: the block [B] is written, contiguously, in [out]. *)
Definition has_block (B out : list chunk) : Prop :=
  exists pre post, out = pre ++ B ++ post.

End Rendered.

(** ** Schema validation

    Modelled from the spec: section 4.1.  No validator is among the
    repository's sources. *)

Module Validation.
Import Schema.

(** The closed vocabularies validation checks against.  Their members are
    not listed in the sources, so they are a parameter. *)
Record Vocabulary : Type := {
  lifecycle_events : list string;
  storage_backends : list string;
  auth_modes : list string
}.

(** Where a rule can fail: a model, a field of a model (its name or its
    enum value set), a relation, a hook, or one of the two configuration
    selections.  Models and their items are addressed by position. *)
Inductive Site : Type :=
| AtModel (i : nat)
| AtFieldName (i j : nat)
| AtFieldEnum (i j : nat)
| AtRelation (i k : nat)
| AtHook (i k : nat)
| AtBackend
| AtAuthMode.

(** A diagnostic names the offending model and item. *)
Record Diagnostic : Type := {
  diag_site : Site;
  diag_model : string;
  diag_item : string
}.

Inductive SchemaError : Type :=
| Structural
| Semantic (ds : list Diagnostic).

Inductive Validated : Type :=
| Valid (s : Schema)
| Invalid (e : SchemaError).

Definition mem (x : string) (l : list string) : bool :=
  existsb (String.eqb x) l.

Definition is_empty_enum (k : FieldKind) : bool :=
  match k with
  | KEnum [] => true
  | _ => false
  end.

(** Rules (b) and (c) at field [j] of model [i]. *)
Definition check_field (m : Model) (i j : nat) (f : Field) : list Diagnostic :=
  (if mem (field_name f) (map field_name (take j (model_fields m)))
   then [{| diag_site := AtFieldName i j; diag_model := model_name m;
            diag_item := field_name f |}]
   else []) ++
  (if is_empty_enum (field_kind f)
   then [{| diag_site := AtFieldEnum i j; diag_model := model_name m;
            diag_item := field_name f |}]
   else []).

(** Rule (d) at relation [k] of model [i]. *)
Definition check_relation (all : list Model) (m : Model) (i k : nat) (r : Relation)
  : list Diagnostic :=
  if mem (rel_target r) (map model_name all) then []
  else [{| diag_site := AtRelation i k; diag_model := model_name m;
           diag_item := rel_target r |}].

(** Rule (e) at hook [k] of model [i]. *)
Definition check_hook (V : Vocabulary) (m : Model) (i k : nat) (h : Hook)
  : list Diagnostic :=
  if mem (hook_event h) (lifecycle_events V) then []
  else [{| diag_site := AtHook i k; diag_model := model_name m;
           diag_item := hook_event h |}].

(** Rules (a) to (e) for model [i]. *)
Definition check_model (V : Vocabulary) (all : list Model) (i : nat) (m : Model)
  : list Diagnostic :=
  (match model_fields m with
   | [] => [{| diag_site := AtModel i; diag_model := model_name m;
               diag_item := "" |}]
   | _ :: _ => []
   end) ++
  concat (imap (check_field m i) (model_fields m)) ++
  concat (imap (check_relation all m i) (model_relations m)) ++
  concat (imap (check_hook V m i) (model_hooks m)).

(** Rule (f). *)
Definition check_config (V : Vocabulary) (c : Config) : list Diagnostic :=
  (if mem (storage_backend c) (storage_backends V) then []
   else [{| diag_site := AtBackend; diag_model := "";
            diag_item := storage_backend c |}]) ++
  (if mem (auth_mode c) (auth_modes V) then []
   else [{| diag_site := AtAuthMode; diag_model := "";
            diag_item := auth_mode c |}]).

Definition diagnostics (V : Vocabulary) (s : Schema) : list Diagnostic :=
  concat (imap (check_model V (models s)) (models s)) ++ check_config V (config s).

(** Modelled from the spec: the validator of section 4.1, which runs every
    rule on every model and on the configuration and reports all the
    diagnostics together.  Its source is not among the repository's files. *)
Definition validate (V : Vocabulary) (s : Schema) : Validated :=
  match diagnostics V s with
  | [] => Valid s
  | ds => Invalid (Semantic ds)
  end.

(** Modelled from the spec: decoding comes first; a malformed document is a
    single structural error and no rule runs.  The decoder itself is a
    parameter. *)
Definition parse_and_validate {Raw : Type} (decode : Raw -> option Schema)
    (V : Vocabulary) (raw : Raw) : Validated :=
  match decode raw with
  | None => Invalid Structural
  | Some s => validate V s
  end.

(** The rules of section 4.1, stated on their own: [Violates V s x] when
    the schema [s] breaks a rule at the site [x]. *)
Inductive Violates (V : Vocabulary) (s : Schema) : Site -> Prop :=
| V_no_fields i m :
    models s !! i = Some m ->
    model_fields m = [] ->
    Violates V s (AtModel i)
| V_duplicate_field i j j' m f f' :
    models s !! i = Some m ->
    model_fields m !! j = Some f ->
    model_fields m !! j' = Some f' ->
    j' < j ->
    field_name f' = field_name f ->
    Violates V s (AtFieldName i j)
| V_empty_enum i j m f :
    models s !! i = Some m ->
    model_fields m !! j = Some f ->
    field_kind f = KEnum [] ->
    Violates V s (AtFieldEnum i j)
| V_dangling_relation i k m r :
    models s !! i = Some m ->
    model_relations m !! k = Some r ->
    (forall m', In m' (models s) -> model_name m' <> rel_target r) ->
    Violates V s (AtRelation i k)
| V_unknown_event i k m h :
    models s !! i = Some m ->
    model_hooks m !! k = Some h ->
    ~ In (hook_event h) (lifecycle_events V) ->
    Violates V s (AtHook i k)
| V_backend :
    ~ In (storage_backend (config s)) (storage_backends V) ->
    Violates V s AtBackend
| V_auth_mode :
    ~ In (auth_mode (config s)) (auth_modes V) ->
    Violates V s AtAuthMode.

(** The model position and the item position a site names. *)
Definition site_model (x : Site) : nat :=
  match x with
  | AtModel i | AtFieldName i _ | AtFieldEnum i _ | AtRelation i _ | AtHook i _ => i
  | AtBackend | AtAuthMode => 0
  end.

Definition site_item (x : Site) : nat :=
  match x with
  | AtFieldName _ j | AtFieldEnum _ j | AtRelation _ j | AtHook _ j => j
  | AtModel _ | AtBackend | AtAuthMode => 0
  end.

Definition sites (V : Vocabulary) (s : Schema) : list Site :=
  map diag_site (diagnostics V s).

(** The rule family a site belongs to. *)
Definition site_kind (x : Site) : nat :=
  match x with
  | AtModel _ => 0
  | AtFieldName _ _ | AtFieldEnum _ _ => 1
  | AtRelation _ _ => 2
  | AtHook _ _ => 3
  | AtBackend | AtAuthMode => 4
  end.

End Validation.


(** ** The generated Express project *)

Module Express.
Import Text.

(** *** [outputs/express-01/src/middleware/authMiddleware.ts] *)

(** [s.replace(pat, rep)] with a string pattern: the first occurrence of
    [pat] is replaced, the rest of [s] is kept. *)
Fixpoint drop_chars (n : nat) (s : string) : string :=
  match n, s with
  | O, _ => s
  | S n', String _ s' => drop_chars n' s'
  | S _, EmptyString => EmptyString
  end.

Fixpoint replace_first (pat rep s : string) : string :=
  if prefixb pat s then rep +:+ drop_chars (String.length pat) s
  else match s with
       | EmptyString => EmptyString
       | String c s' => String c (replace_first pat rep s')
       end.

(** A statement either completes or throws. *)
Inductive completion (A : Type) : Type :=
| Normal (a : A)
| Thrown.
Arguments Normal {A} a.
Arguments Thrown {A}.

Section AuthMiddleware.

(** The user documents of the database, and the claims a token carries. *)
Variable user : Type.
Variable claims : Type.

(** [jwt.verify(token, secret)]: the decoded claims, or an exception. *)
Variable verify : string -> string -> completion claims.

(** [await User.findOne({ _id: decoded.id })]: a user, [null], or a
    rejected promise. *)
Variable findOne : claims -> completion (option user).

(** Whether the call of [next()] returns or throws. *)
Variable next_returns : bool.

(** [config.jwtSecret]. *)
Variable jwtSecret : string.

(** What the middleware does to the response, the request and the chain. *)
Inductive Effect : Type :=
| SetStatus (code : nat)          (* res.status(code) *)
| SendJson (error : string)       (* .json({ error }) *)
| AttachUser (u : user)           (* req.user = u *)
| CallNext.                       (* next() *)

(** Computations that log effects and may throw. *)
Definition Eff (A : Type) : Type := (list Effect * completion A)%type.

Definition ret {A : Type} (a : A) : Eff A := ([], Normal a).

Definition perform (e : Effect) : Eff unit := ([e], Normal tt).

Definition lift {A : Type} (c : completion A) : Eff A := ([], c).

Definition seq {A B : Type} (m : Eff A) (f : A -> Eff B) : Eff B :=
  match m with
  | (l, Normal a) => let (l', r) := f a in (l ++ l', r)
  | (l, Thrown) => (l, Thrown)
  end.

(** [try { body } catch (err) { handler }]. *)
Definition try_catch (body handler : Eff unit) : Eff unit :=
  match body with
  | (l, Normal a) => (l, Normal a)
  | (l, Thrown) => let (l', r) := handler in (l ++ l', r)
  end.

Notation "'do!' x ':=' m 'in' k" := (seq m (fun x => k))
  (at level 10, x name, m at level 100, k at level 200).
Notation "m '>>' k" := (seq m (fun _ => k))
  (at level 100, k at level 200, right associativity).

Record Request : Type := {
  authorization : option string     (* req.header("Authorization") *)
}.

(** [res.status(401).json({ error: msg })]. *)
Definition respond_401 (msg : string) : Eff unit :=
  perform (SetStatus 401) >> perform (SendJson msg).

Definition next : Eff unit :=
  perform CallNext >> lift (if next_returns then Normal tt else Thrown).

(** [!token] holds for [undefined] (no header) and for the empty string. *)
Definition authMiddleware (req : Request) : Eff unit :=
  try_catch
    (let token := option_map (replace_first "Bearer " "") (authorization req) in
     match token with
     | None => respond_401 "No token provided, authorization denied"
     | Some t =>
         if String.eqb t ""
         then respond_401 "No token provided, authorization denied"
         else
           do! decoded := lift (verify t jwtSecret) in
           do! found := lift (findOne decoded) in
           match found with
           | None => respond_401 "Unauthorized, user not found"
           | Some u => perform (AttachUser u) >> next
           end
     end)
    (respond_401 "Token is not valid").

(** The effects that answer the request. *)
Definition is_status (e : Effect) : bool :=
  match e with
  | SetStatus _ => true
  | _ => false
  end.

(** The effects of handling a request, in order. *)
Definition handled (req : Request) : list Effect := fst (authMiddleware req).

End AuthMiddleware.

Arguments SetStatus {user} code.
Arguments SendJson {user} error.
Arguments AttachUser {user} u.
Arguments CallNext {user}.
Arguments is_status {user} e.

(** *** [outputs/express-01/src/config/config.ts] *)

(** A JavaScript number, as far as the configuration module can tell
    numbers apart: not-a-number, an integer, or any other value (a
    fraction or an infinity), kept as the text it was read from. *)
Inductive JsNumber : Type :=
| NaN
| Int (z : Z)
| Other (text : string).

(** [n || d] tests whether [n] is falsy: NaN and zero are. *)
Definition falsy_number (n : JsNumber) : bool :=
  match n with
  | NaN => true
  | Int z => Z.eqb z 0
  | Other _ => false
  end.

(** [assert(v)] and [v || d] on a variable of [process.env]: an unset
    variable and the empty string are falsy. *)
Definition truthy_var (v : option string) : bool :=
  match v with
  | None => false
  | Some s => negb (String.eqb s "")
  end.

Record Config : Type := {
  port : JsNumber;
  mongodbUri : string;
  jwtSecret : string;
  domain : string
}.

Inductive Loaded : Type :=
| Exported (c : Config)
| AssertionError (message : string).

Section ConfigModule.

(** [Number(s)] on a string, and [dotenv.config()] on [process.env]: both
    belong to the platform. *)
Variable Number : string -> JsNumber.
Variable dotenv_config : gmap string string -> gmap string string.

(** [Number(process.env.X)]; [Number(undefined)] is NaN. *)
Definition NumberOf (v : option string) : JsNumber :=
  match v with
  | None => NaN
  | Some s => Number s
  end.

(** [a || b] on numbers. *)
Definition or_number (a b : JsNumber) : JsNumber :=
  if falsy_number a then b else a.

(** [process.env.X || d]. *)
Definition or_string (v : option string) (d : string) : string :=
  match v with
  | Some s => if String.eqb s "" then d else s
  | None => d
  end.

(** Loading the module: the three assertions in order, then the exported
    object. *)
Definition load (process_env : gmap string string) : Loaded :=
  let env := dotenv_config process_env in
  if negb (truthy_var (env !! "PORT"))
  then AssertionError "PORT environment variable is required"
  else if negb (truthy_var (env !! "MONGODB_URI"))
  then AssertionError "MONGODB_URI environment variable is required"
  else if negb (truthy_var (env !! "JWT_SECRET"))
  then AssertionError "JWT_SECRET environment variable is required"
  else Exported {|
    port := or_number (NumberOf (env !! "PORT")) (Int 3000);
    mongodbUri := or_string (env !! "MONGODB_URI") "mongodb://localhost:27017/myapp";
    jwtSecret := or_string (env !! "JWT_SECRET") "your_secret_key";
    domain := or_string (env !! "DOMAIN") "http://localhost:8080"
  |}.

End ConfigModule.

(** [Number] on the strings the examples use: the empty string is zero, a
    run of decimal digits with an optional sign is its value (kept as the
    text read when it is 2^53 or more, where the platform rounds), and any
    other string is taken as not a number.  The function of the platform
    also reads fractions, exponents, other radixes, [Infinity] and
    surrounding blanks; none of them occurs in the examples. *)
Fixpoint digits_value (acc : Z) (s : string) : option Z :=
  match s with
  | EmptyString => Some acc
  | String c s' =>
      let n := nat_of_ascii c in
      if (48 <=? n) && (n <=? 57)
      then digits_value (10 * acc + Z.of_nat (n - 48)) s'
      else None
  end.

Definition unsigned_value (s : string) : option Z :=
  match s with
  | EmptyString => None
  | _ => digits_value 0 s
  end.

Definition Number_of_digits (s : string) : JsNumber :=
  let signed :=
    match s with
    | EmptyString => Some 0%Z
    | String "-" s' => option_map Z.opp (unsigned_value s')
    | String "+" s' => unsigned_value s'
    | _ => unsigned_value s
    end in
  match signed with
  | Some z => if (Z.abs z <? 2 ^ 53)%Z then Int z else Other s
  | None => NaN
  end.

End Express.

(** ** The generated Express project: values, handlers and routes

    The controllers ([src/unnamed/part_004], lines 1-100), the error
    handlers (lines 192-240), the payment webhook (lines 140-191), the
    user model's hook and method
    ([outputs/express-01/src/middleware/authMiddleware.ts], lines 73-87),
    the routes ([outputs/express-01/src/routes/userRoutes.ts]), the
    application ([outputs/express-01/src/app.ts]) and the server
    ([src/unnamed/part_003]). *)

Module Js.

(** JavaScript values, as far as the handlers inspect them: the request
    body, thrown values and the results of library calls are untyped. *)
Inductive js : Type :=
| JUndefined
| JNull
| JBool (b : bool)
| JNum (n : Express.JsNumber)
| JStr (s : string)
| JObj (props : list (string * js)).

Definition num (n : Z) : js := JNum (Express.Int n).

(** [!!v]: [undefined], [null], [false], [NaN], [0] and [""] are falsy. *)
Definition truthy (v : js) : bool :=
  match v with
  | JUndefined => false
  | JNull => false
  | JBool b => b
  | JNum n => negb (Express.falsy_number n)
  | JStr s => negb (String.eqb s "")
  | JObj _ => true
  end.

(** [undefined] and [null]. *)
Definition nullish (v : js) : bool :=
  match v with
  | JUndefined => true
  | JNull => true
  | _ => false
  end.

(** [a || b]. *)
Definition or_else (a b : js) : js := if truthy a then a else b.

(** [v === "s"]. *)
Definition is_string (v : js) (s : string) : bool :=
  match v with
  | JStr t => String.eqb t s
  | _ => false
  end.

(** A statement returns, or throws a value. *)
Inductive outcome (A : Type) : Type :=
| Returned (a : A)
| Threw (err : js).
Arguments Returned {A} a.
Arguments Threw {A} err.

(** What a handler does that can be seen from outside. *)
Inductive Action : Type :=
| Call (fn : string) (args : list js)   (* a call into a library or the database *)
| Status (code : js)                    (* res.status(code) *)
| Json (body : js)                      (* .json(body) *)
| SendStatus (code : Z)                 (* res.sendStatus(code) *)
| Send                                  (* res.send() *)
| Next (err : option js)                (* next() and next(err) *)
| Log (stream : string) (args : list js).  (* console.log, console.error *)

(** Computations that log actions and may throw. *)
Definition Run (A : Type) : Type := (list Action * outcome A)%type.

Definition ret {A : Type} (a : A) : Run A := ([], Returned a).

Definition throw {A : Type} (err : js) : Run A := ([], Threw err).

Definition perform (a : Action) : Run unit := ([a], Returned tt).

Definition bind {A B : Type} (m : Run A) (f : A -> Run B) : Run B :=
  match m with
  | (l, Returned a) => let (l', r) := f a in (l ++ l', r)
  | (l, Threw err) => (l, Threw err)
  end.

(** [try { body } catch (err) { handler }]. *)
Definition try_catch {A : Type} (body : Run A) (handler : js -> Run A) : Run A :=
  match body with
  | (l, Returned a) => (l, Returned a)
  | (l, Threw err) => let (l', r) := handler err in (l ++ l', r)
  end.

Notation "'let*' x ':=' m 'in' k" := (bind m (fun x => k))
  (at level 10, x name, m at level 100, k at level 200).
Notation "m ';;' k" := (bind m (fun _ => k))
  (at level 100, k at level 200, right associativity).

(** The own properties of an object. *)
Definition prop (props : list (string * js)) (k : string) : js :=
  default JUndefined (Jinja.assoc k props).

(** The value of [v.k] when [v] is neither [undefined] nor [null], for
    the property names the project reads ([status], [message], [stack],
    [id], [_id], [password], [username], [email], [type], [data],
    [object]): no primitive value has one of them. *)
Definition field (v : js) (k : string) : js :=
  match v with
  | JObj props => prop props k
  | _ => JUndefined
  end.

(** [this.k = x] on a document: the property is replaced where it stands,
    or added. *)
Fixpoint assign (props : list (string * js)) (k : string) (x : js)
  : list (string * js) :=
  match props with
  | [] => [(k, x)]
  | (k', v) :: rest =>
      if String.eqb k k' then (k, x) :: rest else (k', v) :: assign rest k x
  end.

(** A request, as the handlers read it: the header fields (the platform
    keeps their names in lower case), the parsed body, and [req.user]. *)
Record Req : Type := {
  headers : list (string * string);
  body : js;
  user : js
}.

Definition with_user (u : js) (req : Req) : Req :=
  {| headers := headers req; body := body req; user := u |}.

(** [request.headers[name]]. *)
Definition header (req : Req) (name : string) : js :=
  match Jinja.assoc name (headers req) with
  | Some v => JStr v
  | None => JUndefined
  end.

(** The answers of a run: the statuses set and the bodies sent. *)
Definition is_status (a : Action) : bool :=
  match a with
  | Status _ => true
  | SendStatus _ => true
  | _ => false
  end.

Definition is_body (a : Action) : bool :=
  match a with
  | Json _ => true
  | SendStatus _ => true
  | Send => true
  | _ => false
  end.

Definition is_call (a : Action) : bool :=
  match a with
  | Call _ _ => true
  | _ => false
  end.

Definition statuses (t : list Action) : list Action := filter is_status t.
Definition bodies (t : list Action) : list Action := filter is_body t.
Definition calls (t : list Action) : list Action := filter is_call t.

(** What the client and the rest of the chain see of a run. *)
Definition visible (t : list Action) : list Action :=
  filter (fun a => negb (is_call a)) t.

Section Project.

(** The libraries and the database: what a call of a function that the
    project does not define returns or throws. *)
Variable extern : string -> list js -> outcome js.

(** The error the engine throws when a property of [undefined] or [null]
    is read. *)
Variable TypeError : js.

(** The text a template literal writes for a value. *)
Variable text : js -> string.

(** [config] of [config/config.ts]. *)
Variable config : Express.Config.

Definition call (fn : string) (args : list js) : Run js :=
  ([Call fn args], extern fn args).

(** [v.k]: reading a property of [undefined] or [null] throws. *)
Definition get (v : js) (k : string) : Run js :=
  if nullish v then throw TypeError else ret (field v k).

(** [v?.k]. *)
Definition get_opt (v : js) (k : string) : Run js :=
  if nullish v then ret JUndefined else get v k.

(** [res.status(code).json(body)]. *)
Definition respond (code : Z) (body : js) : Run unit :=
  perform (Status (num code)) ;; perform (Json body).

Definition message (s : string) : js := JObj [("message", JStr s)].

(** *** [utils/errorHandler] ([src/unnamed/part_004], lines 204-238) *)

Definition errorHandler (err : js) : Run unit :=
  let* stack := get err "stack" in
  perform (Log "error" [stack]) ;;
  let* status := get err "status" in
  let statusCode := or_else status (num 500) in
  perform (Status statusCode) ;;
  let* msg := get err "message" in
  perform (Json (JObj [("status", JStr "error");
                       ("statusCode", statusCode);
                       ("message", or_else msg (JStr "Internal Server Error"))])).

(** [createError] belongs to the http-errors library. *)
Definition notFoundHandler : Run unit :=
  let* err := call "createError" [num 404; JStr "Not Found"] in
  perform (Next (Some err)).

(** *** The user model ([authMiddleware.ts], lines 73-87) *)

(** The pre-save hook, run on the document [this]; it gives back the
    document as the hook leaves it.  [isModified] is the document's own
    method, of the database library. *)
Definition preSave (this : list (string * js)) : Run (list (string * js)) :=
  let* modified := call "this.isModified" [JObj this; JStr "password"] in
  let* this' :=
    (if truthy modified
     then let* hash := call "bcrypt.hash" [prop this "password"; num 10] in
          ret (assign this "password" hash)
     else ret this) in
  perform (Next None) ;;
  ret this'.

Definition comparePassword (this : js) (candidatePassword : js) : Run js :=
  let* password := get this "password" in
  call "bcrypt.compare" [candidatePassword; password].

(** *** The controllers ([src/unnamed/part_004], lines 1-100)

    A value [User.findOne] resolves to is [null] or a document of the user
    model, which has the method [comparePassword] above.  The chained
    query [User.findById(id).select("-password")] is one call. *)

Definition registerUser (req : Req) : Run unit :=
  try_catch
    (let* username := get (body req) "username" in
     let* email := get (body req) "email" in
     let* password := get (body req) "password" in
     let* user := call "new User" [JObj [("username", username);
                                         ("email", email);
                                         ("password", password)]] in
     let* _ := call "user.save" [user] in
     respond 201 (message "User registered successfully!"))
    (fun err => perform (Next (Some err))).

Definition loginUser (req : Req) : Run unit :=
  try_catch
    (let* email := get (body req) "email" in
     let* password := get (body req) "password" in
     let* user := call "User.findOne" [JObj [("email", email)]] in
     let* rejected :=
       (if negb (truthy user) then ret true
        else let* same := comparePassword user password in
             ret (negb (truthy same))) in
     if rejected
     then respond 401 (message "Invalid email or password")
     else
       let* id := get user "_id" in
       let* token := call "jwt.sign" [JObj [("id", id)];
                                      JStr (Express.jwtSecret config);
                                      JObj [("expiresIn", JStr "1h")]] in
       respond 200 (JObj [("message", JStr "Login successful");
                          ("token", token)]))
    (fun err => perform (Next (Some err))).

Definition getUserProfile (req : Req) : Run unit :=
  try_catch
    (let* userId := get_opt (user req) "id" in
     let* found := call "User.findById.select" [userId; JStr "-password"] in
     if negb (truthy found)
     then respond 404 (message "User not found")
     else respond 200 found)
    (fun err => perform (Next (Some err))).

Definition updateUserProfile (req : Req) : Run unit :=
  try_catch
    (let* userId := get_opt (user req) "id" in
     let* username := get (body req) "username" in
     let* email := get (body req) "email" in
     let* found := call "User.findByIdAndUpdate.select"
                     [userId;
                      JObj [("username", username); ("email", email)];
                      JObj [("new", JBool true)];
                      JStr "-password"] in
     if negb (truthy found)
     then respond 404 (message "User not found")
     else respond 200 (JObj [("message", JStr "Profile updated successfully");
                             ("user", found)]))
    (fun err => perform (Next (Some err))).

Definition deleteUser (req : Req) : Run unit :=
  try_catch
    (let* userId := get_opt (user req) "id" in
     let* _ := call "User.findByIdAndDelete" [userId] in
     respond 200 (message "User deleted successfully"))
    (fun err => perform (Next (Some err))).

(** The exports of the controller module. *)
Definition userController : list (Req -> Run unit) :=
  [registerUser; loginUser; getUserProfile; updateUserProfile; deleteUser].

(** *** The payment webhook ([src/unnamed/part_004], lines 140-191) *)

Definition endpointSecret : js := JStr "whsec_12345".

Definition subscription_events : list string :=
  ["customer.subscription.trial_will_end";
   "customer.subscription.deleted";
   "customer.subscription.created";
   "customer.subscription.updated"].

(** The [switch] on [event.type]. *)
Definition log_event (event : js) : Run unit :=
  let* type_ := get event "type" in
  if existsb (is_string type_) subscription_events
  then
    let* data := get event "data" in
    let* subscription := get data "object" in
    let* status := get subscription "status" in
    perform (Log "log" [JStr ("Subscription status is " +:+ text status +:+ ".")])
  else if is_string type_ "entitlements.active_entitlement_summary.updated"
  then
    let* data := get event "data" in
    let* subscription := get data "object" in
    perform (Log "log" [JStr ("Active entitlement summary updated for "
                              +:+ text subscription +:+ ".")])
  else
    perform (Log "log" [JStr ("Unhandled event type " +:+ text type_ +:+ ".")]).

(** [None] stands for the [return] inside the [catch]. *)
Definition handleWebhook (request : Req) : Run unit :=
  let* verified :=
    (if truthy endpointSecret
     then
       let signature := header request "stripe-signature" in
       try_catch
         (let* event := call "stripe.webhooks.constructEvent"
                          [body request; signature; endpointSecret] in
          ret (Some event))
         (fun err =>
            let* msg := get err "message" in
            perform (Log "log"
                       [JStr "⚠️  Webhook signature verification failed."; msg]) ;;
            perform (SendStatus 400) ;;
            ret None)
     else ret (Some (body request))) in
  match verified with
  | None => ret tt
  | Some event => log_event event ;; perform Send
  end.

(** *** The server ([src/unnamed/part_003], line 5) *)

(** [const PORT = config.port || 3000], the port [app.listen] is given. *)
Definition PORT : Express.JsNumber :=
  if Express.falsy_number (Express.port config) then Express.Int 3000
  else Express.port config.

(** *** Routes and application
    ([outputs/express-01/src/routes/userRoutes.ts],
    [outputs/express-01/src/app.ts]) *)

(** [jwt.verify] and [User.findOne] as the middleware calls them. *)
Variable verify : string -> string -> Express.completion js.
Variable findOne : js -> Express.completion (option js).

(** A handler of a route: what it does, and the request as it leaves it. *)
Definition Handler : Type := Req -> list Action * Req.

Definition controller (c : Req -> Run unit) : Handler :=
  fun req => (fst (c req), req).

(** The middleware of [authMiddleware.ts] as a handler.  The platform
    catches what a later handler throws, so [next()] returns. *)
Definition auth_action (e : Express.Effect js) : list Action :=
  match e with
  | Express.SetStatus code => [Status (num (Z.of_nat code))]
  | Express.SendJson error => [Json (JObj [("error", JStr error)])]
  | Express.AttachUser _ => []
  | Express.CallNext => [Next None]
  end.

Definition attached (req : Req) (e : Express.Effect js) : Req :=
  match e with
  | Express.AttachUser u => with_user u req
  | _ => req
  end.

Definition authMiddleware : Handler :=
  fun req =>
    let trace :=
      Express.handled js js verify findOne true (Express.jwtSecret config)
        {| Express.authorization := Jinja.assoc "authorization" (headers req) |} in
    (flat_map auth_action trace, fold_left attached trace req).

(** [next()] hands over to the next handler of the route; so does
    [next(err)] with a falsy [err], which is no error to the platform. *)
Definition hands_over (t : list Action) : bool :=
  existsb (fun a => match a with
                    | Next None => true
                    | Next (Some err) => negb (truthy err)
                    | _ => false
                    end) t.

(** The platform runs the handlers of a route in order, each one only if
    the one before called [next()]. *)
Fixpoint run_chain (hs : list Handler) (req : Req) : list Action :=
  match hs with
  | [] => []
  | h :: rest =>
      let (t, req') := h req in
      t ++ (if hands_over t then run_chain rest req' else [])
  end.

Record Route : Type := {
  verb : string;
  path : string;
  chain : list Handler
}.

Definition userRoutes : list Route :=
  [ {| verb := "post"; path := "/register"; chain := [controller registerUser] |};
    {| verb := "post"; path := "/login"; chain := [controller loginUser] |};
    {| verb := "get"; path := "/profile";
       chain := [authMiddleware; controller getUserProfile] |};
    {| verb := "put"; path := "/profile";
       chain := [authMiddleware; controller updateUserProfile] |};
    {| verb := "delete"; path := "/profile";
       chain := [authMiddleware; controller deleteUser] |} ].

(** [next('route')] and [next('router')] are signals to the platform: the
    rest of the route, or of the router, is skipped, and no error handler
    runs. *)
Definition is_signal (err : js) : bool :=
  match err with
  | JStr s => String.eqb s "route" || String.eqb s "router"
  | _ => false
  end.

(** What the platform takes for an error in [next(err)]: a truthy value
    that is no signal. *)
Definition is_error (err : js) : bool := truthy err && negb (is_signal err).

(** The error a handler forwarded with [next(err)]. *)
Fixpoint forwarded (t : list Action) : option js :=
  match t with
  | [] => None
  | Next (Some err) :: rest => if is_error err then Some err else forwarded rest
  | _ :: rest => forwarded rest
  end.

(** [app.use("/api/users", userRoutes); app.use(errorHandler)]: a request
    a route of [userRoutes] matches runs its chain, and a forwarded error
    reaches [errorHandler], the only error-handling middleware.  A request
    that leaves the route without an answer and without an error ([next()]
    of the last handler, or a signal) is left to the platform. *)
Definition app (r : Route) (req : Req) : list Action :=
  let t := run_chain (chain r) req in
  match forwarded t with
  | Some err => t ++ fst (errorHandler err)
  | None => t
  end.

End Project.

End Js.

(** ** What the other templates write

    The first model template ([src/unnamed/part_001], lines 1-49) and the
    route template quoted in [docs/design.md] (lines 253-271). *)

Module RenderedMore.
Import Text Jinja Schema Rendered.

Definition model_ts_header : string :=
  lines ["// templates/express/models/model.ts.jinja";
         "import mongoose, { Document, Model } from " +:+ dq +:+ "mongoose" +:+ dq +:+ ";";
         ""].

(** What the first model template writes. *)
Definition model_ts_out (m : Model) : list chunk :=
  Lit model_ts_header ::
  (if auth (model_flags m) then [Lit bcrypt_import] else []) ++
  Lit (lines [""; ""; "// Define the "]) :: Sub (model_name m) ::
  Lit (lines [" schema interface"; "interface I"]) :: Sub (model_name m) ::
  Lit (lines [" extends Document {"; "  "]) ::
  flat_map field_decl (model_fields m) ++
  Lit (lines [""; "  "]) ::
  flat_map method_sig (model_methods m) ++
  Lit (lines [""; "}"; ""; "// Define the "]) :: Sub (lower (model_name m)) ::
  Lit (lines [" schema"; "const "]) :: Sub (lower (model_name m)) ::
  Lit mongoose_schema_open :: Sub (model_name m) ::
  Lit (lines [">({"; "  "]) ::
  flat_map field_schema (model_fields m) ++
  Lit (lines [""; "});"; ""; ""]) ::
  flat_map (hook_block m) (model_hooks m) ++
  Lit (lines [""; ""; ""]) ::
  flat_map (method_impl m) (model_methods m) ++
  [Lit (lines [""; ""; "// Create the "]); Sub (lower (model_name m));
   Lit (lines [" model"; "const "]); Sub (model_name m); Lit ": Model<I";
   Sub (model_name m); Lit "> = mongoose.model<I"; Sub (model_name m);
   Lit (">(" +:+ dq); Sub (model_name m); Lit (dq +:+ ", ");
   Sub (lower (model_name m));
   Lit (lines ["Schema);"; ""; "export default "]); Sub (model_name m); Lit ";"].

(** The values substituted into an output, in order. *)
Definition subs (out : list chunk) : list string :=
  flat_map (fun c => match c with
                     | Sub s => [s]
                     | Lit _ => []
                     end) out.

(** A route of a model, with the attributes the route template reads
    ([route.description], [route.method], [route.path],
    [route.requiresAuth], [route.handler]). *)
Record RouteSpec : Type := {
  route_description : string;
  route_method : string;
  route_path : string;
  route_requiresAuth : bool;
  route_handler : string
}.

Definition route_value (r : RouteSpec) : value :=
  VMap [("description", VStr (route_description r));
        ("method", VStr (route_method r));
        ("path", VStr (route_path r));
        ("requiresAuth", VBool (route_requiresAuth r));
        ("handler", VStr (route_handler r))].

(** The paths the route template reads of a model: [model.name],
    [model.features.auth] and [model.routes]. *)
Definition route_ctx (m : Model) (routes : list RouteSpec) : scope :=
  [("model", VMap [("name", VStr (model_name m));
                   ("features", VMap [("auth", VBool (auth (model_flags m)))]);
                   ("routes", VList (map route_value routes))])].

Definition auth_import : string :=
  lines [""; "import authMiddleware from " +:+ dq +:+ "../middleware/authMiddleware" +:+ dq +:+ ";"; ""].

Definition auth_use : string := lines [","; "    authMiddleware"].

Definition route_block (m : Model) (r : RouteSpec) : list chunk :=
  Lit (lines [""; "// "]) :: Sub (route_description r) ::
  Lit (lines [""; "router."]) :: Sub (route_method r) ::
  Lit (lines ["("; "    " +:+ dq]) :: Sub (route_path r) :: Lit dq ::
  (if route_requiresAuth r then [Lit auth_use] else []) ++
  [Lit (lines [","; "    "]); Sub (lower (model_name m)); Lit "Controller.";
   Sub (route_handler r); Lit (lines [""; ");"; ""])].

Definition design_route_out (m : Model) (routes : list RouteSpec) : list chunk :=
  Lit (lines ["// templates/express/routes/route.ts.jinja";
              "import express from " +:+ dq +:+ "express" +:+ dq +:+ ";";
              "import * as "]) ::
  Sub (lower (model_name m)) ::
  Lit ("Controller from " +:+ dq +:+ "../controllers/") ::
  Sub (lower (model_name m)) ::
  Lit (lines ["Controller" +:+ dq +:+ ";"; ""]) ::
  (if auth (model_flags m) then [Lit auth_import] else []) ++
  Lit (lines [""; ""; "const router = express.Router();"; ""; ""]) ::
  flat_map (route_block m) routes ++
  [Lit (lines [""; ""; "export default router;"])].

End RenderedMore.

(** ** The generator of the design notes

    [ExpressGenerator] as [docs/design.md] gives it (lines 303-350).  Only
    [generate_project] and [generate_models] have a body there; the
    template engine, [write_file] and the other generation methods are
    parameters.  A [HashMap] is visited in an order of its own: [models]
    is the list of its entries in the order of the visit. *)

Module Generator.
Import Text.

(** The steps of [generate_project], in the order of its body. *)
Inductive Step : Type :=
| CreateDirectoryStructure
| GeneratePackageJson
| GenerateModels
| GenerateRoutes
| GenerateMiddleware
| GenerateApp.


Section ExpressGenerator.

Variable Error : Type.
Variable Model : Type.

Inductive Result (A : Type) : Type :=
| Success (a : A)
| Failure (e : Error).
Arguments Success {A} a.
Arguments Failure {A} e.

(** [self.template_engine.render(name, &model)] and
    [self.write_file(path, &content)]. *)
Variable render : string -> Model -> Result string.
Variable write_file : string -> string -> Result unit.

(** [self.output_dir]. *)
Variable output_dir : string.

(** [str::to_lowercase], of the standard library. *)
Variable to_lowercase : string -> string.

(** [Path::is_absolute] and [PathBuf::join] on Unix paths: joining an
    absolute path replaces the base; otherwise the path is appended, after
    a separator unless the base is empty or ends with one. *)
Definition is_absolute (p : string) : bool := prefixb "/" p.

Fixpoint ends_with_separator (p : string) : bool :=
  match p with
  | EmptyString => false
  | String c EmptyString => Ascii.eqb c "/"
  | String _ rest => ends_with_separator rest
  end.

Definition join (base p : string) : string :=
  if is_absolute p then p
  else if String.eqb base "" then p
  else if ends_with_separator base then base +:+ p
  else base +:+ "/" +:+ p.

(** [self.output_dir.join("src/models").join(format!("{}.ts", name.to_lowercase()))]. *)
Definition model_path (name : string) : string :=
  join (join output_dir "src/models") (to_lowercase name +:+ ".ts").

(** The calls of [write_file] made, in order, and the result. *)
Fixpoint generate_models (models : list (string * Model))
  : list (string * string) * Result unit :=
  match models with
  | [] => ([], Success tt)
  | (name, model) :: rest =>
      match render "model.ts.jinja" model with
      | Failure e => ([], Failure e)
      | Success content =>
          match write_file (model_path name) content with
          | Failure e => ([(model_path name, content)], Failure e)
          | Success _ =>
              let (written, result) := generate_models rest in
              ((model_path name, content) :: written, result)
          end
      end
  end.

(** The file a visited entry gives, when both calls succeed. *)
Definition generated (entry : string * Model) : option (string * string) :=
  match render "model.ts.jinja" (snd entry) with
  | Failure _ => None
  | Success content =>
      match write_file (model_path (fst entry)) content with
      | Failure _ => None
      | Success _ => Some (model_path (fst entry), content)
      end
  end.

(** [schema.config] and [schema.models]. *)
Variable Config : Type.

Record Schema : Type := {
  config : Config;
  models : list (string * Model)
}.

(** The methods the notes leave out ("Other generation methods..."): the
    calls of [write_file] each one makes, and its result. *)
Variable create_directory_structure : list (string * string) * Result unit.
Variable generate_package_json : Config -> list (string * string) * Result unit.
Variable generate_routes : list (string * Model) -> list (string * string) * Result unit.
Variable generate_middleware : Config -> list (string * string) * Result unit.
Variable generate_app : Schema -> list (string * string) * Result unit.

(** [step()?; rest]: the first error ends the run.  The log holds the steps
    that ran, each with the calls of [write_file] it made. *)
Definition step (name : Step) (run : list (string * string) * Result unit)
    (rest : list (Step * list (string * string)) * Result unit)
  : list (Step * list (string * string)) * Result unit :=
  match run with
  | (written, Failure e) => ([(name, written)], Failure e)
  | (written, Success _) =>
      let (log, result) := rest in ((name, written) :: log, result)
  end.

Definition generate_project (schema : Schema)
  : list (Step * list (string * string)) * Result unit :=
  step CreateDirectoryStructure create_directory_structure $
  step GeneratePackageJson (generate_package_json (config schema)) $
  step GenerateModels (generate_models (models schema)) $
  step GenerateRoutes (generate_routes (models schema)) $
  step GenerateMiddleware (generate_middleware (config schema)) $
  step GenerateApp (generate_app schema) $
  ([], Success tt).

End ExpressGenerator.

Arguments Success {Error A} a.
Arguments Failure {Error A} e.
Arguments generate_models {Error Model} render write_file output_dir to_lowercase models.
Arguments generated {Error Model} render write_file output_dir to_lowercase entry.
Arguments config {Model Config} s.
Arguments models {Model Config} s.
Arguments step {Error} name run rest.
Arguments generate_project {Error Model} render write_file output_dir to_lowercase
  {Config} create_directory_structure generate_package_json generate_routes
  generate_middleware generate_app schema.

End Generator.

(** ** Example data: the scenarios of section 8 *)

Module Examples.
Import Text Jinja Schema Validation.

Definition no_flags : Flags := {| auth := false; audit := false; search := false |}.

Definition text_field (name : string) : Field :=
  {| field_name := name; field_kind := KString; field_type := "string";
     field_schemaType := "String"; field_options := [("required", "true")] |}.

(** Scenario A: model "Item" with fields name:string and price:decimal. *)
Definition item : Model :=
  {| model_name := "Item";
     model_fields :=
       [text_field "name";
        {| field_name := "price"; field_kind := KDecimal; field_type := "number";
           field_schemaType := "Number"; field_options := [] |}];
     model_methods := [];
     model_hooks := [];
     model_relations := [];
     model_flags := no_flags |}.

(** Scenario B: model "User" with fields email and password and the
    authentication flag set. *)
Definition user : Model :=
  {| model_name := "User";
     model_fields := [text_field "email"; text_field "password"];
     model_methods := [];
     model_hooks := [];
     model_relations := [];
     model_flags := {| auth := true; audit := false; search := false |} |}.

Definition mongo : Config :=
  {| storage_backend := "MONGO_DB"; auth_mode := "jwt"; cors := false |}.

Definition scenario_b : Schema := {| models := [item; user]; config := mongo |}.

Definition vocabulary : Vocabulary :=
  {| lifecycle_events := ["save"; "validate"; "remove"];
     storage_backends := ["MONGO_DB"; "FIREBASE"];
     auth_modes := ["jwt"; "none"] |}.

(** Scenario C with two more violations: "Order" relates to the missing
    model "Shipment", declares an enum without values, and the
    configuration selects an unknown storage backend. *)
Definition order_model : Model :=
  {| model_name := "Order";
     model_fields :=
       [{| field_name := "status"; field_kind := KEnum []; field_type := "string";
           field_schemaType := "String"; field_options := [] |}];
     model_methods := [];
     model_hooks := [];
     model_relations :=
       [{| rel_target := "Shipment"; rel_cardinality := One; rel_owning := true |}];
     model_flags := no_flags |}.

Definition scenario_c : Schema :=
  {| models := [order_model];
     config := {| storage_backend := "ORACLE"; auth_mode := "jwt"; cors := false |} |}.

(** The backends the model template tells apart, and one it does not
    know. *)
Definition firebase : Config :=
  {| storage_backend := "FIREBASE"; auth_mode := "jwt"; cors := false |}.

Definition other_backend : Config :=
  {| storage_backend := "POSTGRES"; auth_mode := "jwt"; cors := false |}.

(** A model with other hooks. *)
Definition with_hooks (hooks : list Hook) (m : Model) : Model :=
  {| model_name := model_name m;
     model_fields := model_fields m;
     model_methods := model_methods m;
     model_hooks := hooks;
     model_relations := model_relations m;
     model_flags := model_flags m |}.

(** The password-hashing hook of the generated user model
    ([authMiddleware.ts], lines 73-79). *)
Definition hashing : Hook :=
  {| hook_event := "save";
     hook_description := "Hash the user's password before saving to the database";
     hook_implementation :=
       lines ["if (this.isModified(" +:+ dq +:+ "password" +:+ dq +:+ ")) {";
              "  this.password = await bcrypt.hash(this.password, 10);";
              "}"] |}.

Definition hashed_user : Model := with_hooks [hashing] user.

(** A route of "Item" that requires authentication. *)
Definition guarded_route : RenderedMore.RouteSpec :=
  {| RenderedMore.route_description := "List the items";
     RenderedMore.route_method := "get";
     RenderedMore.route_path := "/";
     RenderedMore.route_requiresAuth := true;
     RenderedMore.route_handler := "list" |}.

(** An example generator: a model is the text its file should hold,
    rendering fails on the empty text, and every write succeeds. *)
Definition render_nonempty (template : string) (model : string)
  : Generator.Result string string :=
  if String.eqb model "" then Generator.Failure "undefined path"
  else Generator.Success model.

Definition write_ok (path content : string) : Generator.Result string unit :=
  Generator.Success tt.

End Examples.

(** * Properties *)

(** ** The evaluator and its derivation system agree *)

Module JinjaFacts.
Import Text Jinja.

Lemma bind_Ok {A B : Type} (m : result A) (f : A -> result B) (b : B) :
  bind m f = Ok b <-> exists a, m = Ok a /\ f a = Ok b.
Proof.
  destruct m as [a|e]; simpl; split.
  - intros H. exists a. auto.
  - intros (a' & [= <-] & H). exact H.
  - discriminate.
  - intros (a' & [=] & _).
Qed.

Lemma Renders_sound env t out :
  Renders env t out -> render_chunks t env = Ok out.
Proof.
  revert env t out.
  apply (Renders_mut
    (fun env t out _ => render_chunks t env = Ok out)
    (fun env xs body vs out _ =>
       each (fun x => let! env' := bind_targets xs x env in
                      render_chunks body env') vs = Ok out));
    intros; simpl;
    repeat match goal with
           | H : _ = Ok _ |- _ => rewrite H; clear H; simpl
           | H : _ = true |- _ => rewrite H; clear H; simpl
           | H : _ = false |- _ => rewrite H; clear H; simpl
           end;
    reflexivity.
Qed.

Lemma each_RendersEach env xs body :
  (forall env' out, render_chunks body env' = Ok out -> Renders env' body out) ->
  forall vs out,
    each (fun x => let! env' := bind_targets xs x env in
                   render_chunks body env') vs = Ok out ->
    RendersEach env xs body vs out.
Proof.
  intros Hbody vs. induction vs as [|v vs IH]; simpl; intros out H.
  - injection H as <-. constructor.
  - apply bind_Ok in H as (r & Hr & H).
    apply bind_Ok in H as (rs & Hrs & [= <-]).
    apply bind_Ok in Hr as (env' & Hb & Hr).
    econstructor; eauto.
Qed.

Lemma Renders_complete t : forall env out,
  render_chunks t env = Ok out -> Renders env t out.
Proof.
  induction t as [|s k IHk|e k IHk|c th IHth el IHel k IHk|xs e body IHbody k IHk];
    simpl; intros env out H.
  - injection H as <-. constructor.
  - apply bind_Ok in H as (r & Hr & [= <-]). constructor. auto.
  - apply bind_Ok in H as (v & Hv & H).
    apply bind_Ok in H as (s & Hs & H).
    apply bind_Ok in H as (r & Hr & [= <-]).
    econstructor; eauto.
  - apply bind_Ok in H as (v & Hv & H).
    apply bind_Ok in H as (r1 & Hr1 & H).
    apply bind_Ok in H as (r2 & Hr2 & [= <-]).
    destruct (truthy v) eqn:Htv.
    + eapply R_if_true; eauto.
    + eapply R_if_false; eauto.
  - apply bind_Ok in H as (v & Hv & H).
    apply bind_Ok in H as (vs & Hvs & H).
    apply bind_Ok in H as (r1 & Hr1 & H).
    apply bind_Ok in H as (r2 & Hr2 & [= <-]).
    eapply R_for; eauto using each_RendersEach.
Qed.

(** A loop over [map g l] writes one block per element of [l], in order. *)
Lemma RendersEach_map {A : Type} (g : A -> value) (h : A -> list chunk)
    env xs body (l : list A) :
  (forall a, In a l ->
     exists env', bind_targets xs (g a) env = Ok env' /\ Renders env' body (h a)) ->
  RendersEach env xs body (map g l) (flat_map h l).
Proof.
  induction l as [|a l IH]; simpl; intros H.
  - constructor.
  - destruct (H a) as (env' & Hb & Hr); [auto|].
    econstructor; eauto.
Qed.

(** Splitting the visited sequence splits the output at the same place. *)
Lemma RendersEach_app env xs body l1 l2 out :
  RendersEach env xs body (l1 ++ l2) out <->
  exists o1 o2, out = o1 ++ o2 /\
    RendersEach env xs body l1 o1 /\ RendersEach env xs body l2 o2.
Proof.
  revert out. induction l1 as [|x l1 IH]; simpl; intros out; split.
  - intros H. exists [], out. repeat split; [constructor | exact H].
  - intros (o1 & o2 & -> & H1 & H2). inversion H1; subst. exact H2.
  - intros H. inversion H as [|? ? ? ? env' ? r rs Hb Hr Hrest]; subst.
    apply IH in Hrest as (o1 & o2 & -> & H1 & H2).
    exists (r ++ o1), o2. rewrite <- app_assoc.
    repeat split; [econstructor; eauto | exact H2].
  - intros (o1 & o2 & -> & H1 & H2).
    inversion H1 as [|? ? ? ? env' ? r rs Hb Hr Hrest]; subst.
    rewrite <- app_assoc. econstructor; eauto.
    apply IH. eauto.
Qed.

Lemma texts_map_VStr e (l : list string) : texts e (map VStr l) = Ok l.
Proof.
  induction l as [|s l IH]; simpl; [reflexivity|]. rewrite IH. reflexivity.
Qed.

(** A piece of text that occurs in a chunk occurs in the rendered text. *)
Lemma prefixb_app p s t : prefixb p s = true -> prefixb p (s +:+ t) = true.
Proof.
  revert s. induction p as [|a p IH]; intros [|b s]; try (simpl; congruence).
  change (String b s +:+ t) with (String b (s +:+ t)). simpl.
  rewrite !andb_true_iff. intros [-> H]. auto.
Qed.

Lemma containsb_app_l p s t :
  containsb p s = true -> containsb p (s +:+ t) = true.
Proof.
  induction s as [|b s IH].
  - simpl. rewrite orb_false_r. destruct p; [|discriminate].
    intros _. destruct t; reflexivity.
  - change (String b s +:+ t) with (String b (s +:+ t)).
    cbn [containsb]. rewrite !orb_true_iff. intros [H|H].
    + left. apply (prefixb_app p (String b s) t H).
    + right. apply IH, H.
Qed.

Lemma containsb_app_r p s t :
  containsb p t = true -> containsb p (s +:+ t) = true.
Proof.
  intros H. induction s as [|b s IH]; [exact H|].
  change (String b s +:+ t) with (String b (s +:+ t)).
  cbn [containsb]. rewrite IH. apply orb_true_r.
Qed.

Lemma containsb_text_of p c cs :
  In c cs -> containsb p (chunk_text c) = true ->
  containsb p (text_of cs) = true.
Proof.
  unfold text_of. induction cs as [|c0 cs IH]; simpl; [tauto|].
  intros [->|Hin] Hc.
  - destruct (map chunk_text cs); [exact Hc|].
    apply containsb_app_l. exact Hc.
  - specialize (IH Hin Hc). destruct (map chunk_text cs) as [|x xs] eqn:E.
    + destruct cs; [destruct Hin | discriminate E].
    + apply containsb_app_r. exact IH.
Qed.

Lemma render_text t env out :
  render_chunks t env = Ok out -> render t env = Ok (text_of out).
Proof. unfold render. intros ->. reflexivity. Qed.

Lemma Renders_eq env t out out' :
  Renders env t out' -> out' = out -> Renders env t out.
Proof. intros H <-. exact H. Qed.

End JinjaFacts.

(** ** The templates write what [Rendered] says *)

Module TemplateFacts.
Import Text Jinja Templates Schema Rendered JinjaFacts.

#[local] Arguments lines : simpl never.
#[local] Arguments String.append : simpl never.
#[local] Arguments lower : simpl never.

Ltac eval_now := cbn; rewrite ?texts_map_VStr; cbn; reflexivity.

(** One rule of the derivation system, chosen by the template's head. *)
Ltac render_step :=
  lazymatch goal with
  | |- Renders _ TEnd _ => apply R_end
  | |- Renders _ (TText _ _) _ => eapply R_text
  | |- Renders _ (TEmit _ _) _ => eapply R_emit; [eval_now | eval_now | ]
  | |- Renders _ (TIf _ _ _ _) _ =>
      first [ eapply R_if_true;
              [eval_now | cbn; first [reflexivity | eassumption] | | ]
            | eapply R_if_false;
              [eval_now | cbn; first [reflexivity | eassumption] | | ] ]
  | |- Renders _ (TFor _ _ _ _) _ =>
      eapply R_for;
      [ eval_now
      | cbn; rewrite ?map_map; reflexivity
      | eapply RendersEach_map; intros ? _; eexists; split; [cbn; reflexivity|]
      | ]
  end.

Lemma has_block_here B post : has_block B (B ++ post).
Proof. exists [], post. reflexivity. Qed.

Lemma has_block_cons B x l : has_block B l -> has_block B (x :: l).
Proof. intros (pre & post & ->). exists (x :: pre), post. reflexivity. Qed.

Lemma has_block_app_r B p l : has_block B l -> has_block B (p ++ l).
Proof.
  intros (pre & post & ->). exists (p ++ pre), post.
  rewrite <- app_assoc. reflexivity.
Qed.

Lemma has_block_app_l B l q : has_block B l -> has_block B (l ++ q).
Proof.
  intros (pre & post & ->). exists pre, (post ++ q).
  rewrite <- !app_assoc. reflexivity.
Qed.

Lemma occurs_before_cons {A : Type} (X Y : list A) x l :
  occurs_before X Y l -> occurs_before X Y (x :: l).
Proof. intros (a & b & d & ->). exists (x :: a), b, d. reflexivity. Qed.

Lemma occurs_before_app_r {A : Type} (X Y : list A) p l :
  occurs_before X Y l -> occurs_before X Y (p ++ l).
Proof.
  intros (a & b & d & ->). exists (p ++ a), b, d.
  rewrite <- app_assoc. reflexivity.
Qed.

Lemma occurs_before_app_l {A : Type} (X Y : list A) l q :
  occurs_before X Y l -> occurs_before X Y (l ++ q).
Proof.
  intros (a & b & d & ->). exists a, b, (d ++ q).
  rewrite <- !app_assoc. reflexivity.
Qed.

(** Blocks written by a loop keep the order of the visited sequence. *)
Lemma occurs_before_flat_map {A B : Type} (h : A -> list B) x y l :
  precedes x y l -> occurs_before (h x) (h y) (flat_map h l).
Proof.
  intros (a & b & d & ->).
  exists (flat_map h a), (flat_map h b), (flat_map h d).
  rewrite flat_map_app. simpl. rewrite flat_map_app. simpl.
  reflexivity.
Qed.

Lemma has_block_flat_map {A B : Type} (h : A -> list B) x l :
  In x l -> exists pre post, flat_map h l = pre ++ h x ++ post.
Proof.
  intros Hin. apply in_split in Hin as (l1 & l2 & ->).
  exists (flat_map h l1), (flat_map h l2).
  rewrite flat_map_app. reflexivity.
Qed.

Lemma modelv3_Renders c m :
  Renders (model_ctx c m) modelv3_ts (modelv3_out c m).
Proof.
  unfold modelv3_ts, model_ctx, modelv3_out, is_mongo, is_firebase.
  destruct (String.eqb (storage_backend c) "MONGO_DB") eqn:Em;
    destruct (String.eqb (storage_backend c) "FIREBASE") eqn:Ef;
    destruct (auth (model_flags m)) eqn:Ea;
    (eapply Renders_eq; [repeat render_step | reflexivity]).
Qed.

Lemma modelv3_renders c m :
  render_chunks modelv3_ts (model_ctx c m) = Ok (modelv3_out c m).
Proof. apply Renders_sound, modelv3_Renders. Qed.

Lemma app_Renders s :
  Renders (schema_ctx s) app_ts (app_out s).
Proof.
  unfold app_ts, schema_ctx, app_out.
  destruct (cors (config s)) eqn:Ec;
    (eapply Renders_eq; [repeat render_step | reflexivity]).
Qed.

Lemma app_renders s :
  render_chunks app_ts (schema_ctx s) = Ok (app_out s).
Proof. apply Renders_sound, app_Renders. Qed.

(** The entrypoint imports and registers the routes of every model. *)
Lemma app_mentions_every_model s m :
  In m (models s) ->
  has_block (route_import m) (app_out s) /\ has_block (route_use m) (app_out s).
Proof.
  intros Hm. unfold app_out. split.
  - apply has_block_cons, has_block_app_r, has_block_cons, has_block_app_l.
    apply (has_block_flat_map route_import). exact Hm.
  - apply has_block_cons, has_block_app_r, has_block_cons, has_block_app_r,
      has_block_cons, has_block_app_r, has_block_cons, has_block_app_l.
    apply (has_block_flat_map route_use). exact Hm.
Qed.

End TemplateFacts.

(** ** Claims about the templates *)

Module TemplateClaims.
Import Text Jinja Templates Schema Rendered JinjaFacts TemplateFacts.


(** Case analysis on a membership [H : In x out] of an output built from
    conses, appends, loops and conditionals. *)
Ltac chunk_cases H :=
  repeat lazymatch type of H with
  | In _ (_ ++ _) => apply in_app_or in H; destruct H as [H|H]
  | In _ (flat_map _ _) => apply in_flat_map in H; destruct H as (? & ? & H)
  | In _ (_ :: _) => destruct H as [H|H]
  | In _ [] => destruct H
  | In ?x ?l => let l' := eval hnf in l in progress (change (In x l') in H)
  | Lit _ = Lit _ => first [discriminate H | vm_compute in H; discriminate H]
  | Sub _ = Lit _ => discriminate H
  end.

(** Find a literal chunk in an output whose conditionals are decided. *)
Ltac find_lit :=
  lazymatch goal with
  | |- In _ (_ :: _) => first [left; reflexivity | right; find_lit]
  | |- In _ (_ ++ _) => apply in_or_app; first [left; find_lit | right; find_lit]
  | |- In _ (flat_map _ (_ :: _)) => simpl flat_map; find_lit
  | |- In _ (flat_map _ _) => fail
  | |- In _ [] => fail
  | |- In ?x ?l => let l' := eval hnf in l in progress (change (In x l')); find_lit
  end.

Ltac find_block :=
  lazymatch goal with
  | |- has_block ?B (?B ++ _) => apply has_block_here
  | |- has_block _ (_ :: _) => apply has_block_cons; find_block
  | |- has_block _ (_ ++ _) =>
      first [apply has_block_app_l; find_block | apply has_block_app_r; find_block]
  end.

Ltac find_order :=
  lazymatch goal with
  | |- occurs_before (?h _) (?h _) (flat_map ?h _) =>
      apply occurs_before_flat_map; assumption
  | |- occurs_before _ _ (flat_map _ _) => fail
  | |- occurs_before _ _ (_ :: _) => apply occurs_before_cons; find_order
  | |- occurs_before _ _ (_ ++ _) =>
      first [ apply occurs_before_app_l; find_order
            | apply occurs_before_app_r; find_order ]
  | |- occurs_before ?X ?Y ?l =>
      let l' := eval hnf in l in
      progress (change (occurs_before X Y l')); find_order
  end.

(** Case analysis on the template text of an output: [H : In (Lit s) out]
    leaves one goal per literal chunk, with [s] replaced by that chunk. *)
Ltac lit_cases H :=
  chunk_cases H;
  try lazymatch type of H with
      | Lit _ = Lit _ => injection H as H; subst
      end.

(** Decide a goal about one literal chunk from a fact [Hc] computed on it. *)
Ltac lit_decide Hc :=
  vm_compute in Hc;
  first [ discriminate Hc
        | left; reflexivity
        | right; split; [assumption | reflexivity]
        | reflexivity
        | split; [assumption | reflexivity] ].

(** C8: in [modelv3.ts.jinja] the Mongoose definition (and its import) is
    written exactly when [model.features.database] is ['MONGO_DB'], the
    Firestore class for every other value, and the [firebase-admin/firestore]
    import only for ['FIREBASE']; so for any other value the artifact calls
    [getFirestore] without importing it.  The output is [modelv3_out]: of the
    template's text in it, only the opening of the Firestore class and the
    Firestore import mention [getFirestore], only that import mentions
    [firebase-admin], and for a value other than ['MONGO_DB'] and
    ['FIREBASE'] the one chunk with an [import] is that of bcrypt, written
    for a model with the authentication flag.  For "Item" under such a
    backend the text calls [getFirestore] and holds no [import] at all. *)
Theorem modelv3_database_branches (c : Config) (m : Model) :
  exists out,
    render_chunks modelv3_ts (model_ctx c m) = Ok out /\
    render modelv3_ts (model_ctx c m) = Ok (text_of out) /\
    (storage_backend c <> "MONGO_DB" ->
     containsb "const db = getFirestore();" (text_of out) = true) /\
    (In (Lit mongoose_schema_open) out <-> storage_backend c = "MONGO_DB") /\
    (In (Lit mongoose_import) out <-> storage_backend c = "MONGO_DB") /\
    (storage_backend c = "MONGO_DB" -> has_block (mongoose_definition m) out) /\
    (In (Lit firestore_open) out <-> storage_backend c <> "MONGO_DB") /\
    (storage_backend c <> "MONGO_DB" -> has_block (firestore_class m) out) /\
    (In (Lit firestore_import) out <-> storage_backend c = "FIREBASE") /\
    (storage_backend c <> "MONGO_DB" -> storage_backend c <> "FIREBASE" ->
     In (Lit firestore_open) out /\ ~ In (Lit firestore_import) out) /\
    out = modelv3_out c m /\
    (forall s, In (Lit s) out -> containsb "getFirestore" s = true ->
       s = firestore_open \/
       (storage_backend c = "FIREBASE" /\ s = firestore_import)) /\
    (forall s, In (Lit s) out -> containsb "firebase-admin" s = true ->
       storage_backend c = "FIREBASE" /\ s = firestore_import) /\
    (storage_backend c <> "MONGO_DB" -> storage_backend c <> "FIREBASE" ->
     forall s, In (Lit s) out -> containsb "import" s = true ->
       auth (model_flags m) = true /\ s = bcrypt_import) /\
    (exists text,
       render modelv3_ts (model_ctx Examples.other_backend Examples.item) = Ok text /\
       containsb "const db = getFirestore();" text = true /\
       containsb "import" text = false).
Proof.
  exists (modelv3_out c m). split; [apply modelv3_renders|].
  split; [apply render_text, modelv3_renders|].
  split.
  { intros Em. apply (containsb_text_of _ (Lit firestore_open)); [|reflexivity].
    unfold modelv3_out, is_mongo.
    destruct (String.eqb_spec (storage_backend c) "MONGO_DB") as [E|_];
      [contradiction|].
    destruct (is_firebase c), (auth (model_flags m)); find_lit. }
  assert (Hconcrete : exists text,
       render modelv3_ts (model_ctx Examples.other_backend Examples.item) = Ok text /\
       containsb "const db = getFirestore();" text = true /\
       containsb "import" text = false).
  { eexists. split; [vm_compute; reflexivity|]. vm_compute. split; reflexivity. }
  unfold modelv3_out, is_mongo, is_firebase.
  destruct (String.eqb_spec (storage_backend c) "MONGO_DB") as [Em|Em];
    destruct (String.eqb_spec (storage_backend c) "FIREBASE") as [Ef|Ef];
    try (rewrite Em in Ef; discriminate Ef);
    destruct (auth (model_flags m)) eqn:Ea;
    repeat lazymatch goal with
           | |- _ /\ _ => split
           | |- _ <-> _ => split
           end;
    try exact Hconcrete;
    try reflexivity;
    try (intros; exfalso; congruence);
    try (intros; first [assumption | discriminate | find_lit | find_block]; fail);
    try (let H := fresh "Hin" in intros H; exfalso; chunk_cases H; fail);
    try (intros _ _; split;
         [find_lit | let H := fresh "Hin" in intros H; exfalso; chunk_cases H]; fail);
    try (let H := fresh "Hin" in let Hc := fresh "Hc" in
         intros s H Hc; lit_cases H; lit_decide Hc; fail);
    try (let H := fresh "Hin" in let Hc := fresh "Hc" in
         intros _ _ s H Hc; lit_cases H; lit_decide Hc; fail).
Qed.

(** C4, on the code: under a backend other than ['MONGO_DB'] the template
    writes the bcrypt import of a model with the authentication flag, but
    no hook: the loop over [model.hooks] stands in the ['MONGO_DB'] branch
    only.  For the "User" model with its password-hashing hook the Firebase
    artifact imports bcrypt and holds neither the hook nor a call of
    [bcrypt.hash], where the Mongo artifact holds both; and under every such
    backend the hooks of a model leave its artifact unchanged, while the
    flag alone brings the import. *)
Theorem firebase_auth_model_gets_no_hashing_hook :
  (exists text,
     render modelv3_ts (model_ctx Examples.firebase Examples.hashed_user) = Ok text /\
     containsb ("import bcrypt from " +:+ dq +:+ "bcrypt" +:+ dq +:+ ";") text = true /\
     containsb "bcrypt.hash" text = false /\
     containsb ".pre<" text = false /\
     containsb "this.isModified" text = false) /\
  (exists text,
     render modelv3_ts (model_ctx Examples.mongo Examples.hashed_user) = Ok text /\
     containsb ("import bcrypt from " +:+ dq +:+ "bcrypt" +:+ dq +:+ ";") text = true /\
     containsb ("userSchema.pre<IUser>(" +:+ dq +:+ "save" +:+ dq +:+ ", async function (next) {")
       text = true /\
     containsb "this.password = await bcrypt.hash(this.password, 10);" text = true) /\
  (forall (c : Config) (m : Model) (hooks : list Hook),
     storage_backend c <> "MONGO_DB" ->
     render modelv3_ts (model_ctx c (Examples.with_hooks hooks m)) =
     render modelv3_ts (model_ctx c m)) /\
  (forall (c : Config) (m : Model),
     auth (model_flags m) = true ->
     exists out,
       render_chunks modelv3_ts (model_ctx c m) = Ok out /\
       containsb ("import bcrypt from " +:+ dq +:+ "bcrypt" +:+ dq +:+ ";")
         (text_of out) = true).
Proof.
  split; [eexists; split; [vm_compute; reflexivity|]; vm_compute; repeat split|].
  split; [eexists; split; [vm_compute; reflexivity|]; vm_compute; repeat split|].
  split.
  - intros c m hooks Em.
    rewrite (render_text _ _ _ (modelv3_renders c (Examples.with_hooks hooks m))),
            (render_text _ _ _ (modelv3_renders c m)).
    unfold modelv3_out, is_mongo.
    destruct (String.eqb_spec (storage_backend c) "MONGO_DB") as [E|_];
      [contradiction|].
    reflexivity.
  - intros c m Ea. exists (modelv3_out c m). split; [apply modelv3_renders|].
    apply (containsb_text_of _ (Lit bcrypt_import)); [|reflexivity].
    unfold modelv3_out. rewrite Ea.
    destruct (is_mongo c), (is_firebase c); find_lit.
Qed.

(** C6: a loop writes one block per element of the sequence it visits, in
    the order of the sequence; so in the data-model artifact the field,
    method and hook blocks, and in the application entrypoint the per-model
    import and registration lines, stand in declaration order. *)
Theorem loops_follow_declaration_order :
  (forall env xs e body k v vs out,
     eval env e = Ok v -> as_seq e v = Ok vs ->
     render_chunks (TFor xs e body k) env = Ok out ->
     exists blocks rest,
       out = concat blocks ++ rest /\
       Forall2 (fun x b => exists env', bind_targets xs x env = Ok env' /\
                                        render_chunks body env' = Ok b)
               vs blocks /\
       render_chunks k env = Ok rest) /\
  (forall (c : Config) (m : Model), exists out,
     render_chunks modelv3_ts (model_ctx c m) = Ok out /\
     (forall f1 f2, precedes f1 f2 (model_fields m) ->
        occurs_before (field_decl f1) (field_decl f2) out) /\
     (forall d1 d2, precedes d1 d2 (model_methods m) ->
        occurs_before (method_sig d1) (method_sig d2) out) /\
     (storage_backend c = "MONGO_DB" ->
        (forall f1 f2, precedes f1 f2 (model_fields m) ->
           occurs_before (field_schema f1) (field_schema f2) out) /\
        (forall h1 h2, precedes h1 h2 (model_hooks m) ->
           occurs_before (hook_block m h1) (hook_block m h2) out) /\
        (forall d1 d2, precedes d1 d2 (model_methods m) ->
           occurs_before (method_impl m d1) (method_impl m d2) out)) /\
     (storage_backend c <> "MONGO_DB" ->
        (forall f1 f2, precedes f1 f2 (model_fields m) ->
           occurs_before (field_assign f1) (field_assign f2) out) /\
        (forall d1 d2, precedes d1 d2 (model_methods m) ->
           occurs_before (class_method d1) (class_method d2) out))) /\
  (forall (s : Schema), exists out,
     render_chunks app_ts (schema_ctx s) = Ok out /\
     (forall m1 m2, precedes m1 m2 (models s) ->
        occurs_before (route_import m1) (route_import m2) out /\
        occurs_before (route_use m1) (route_use m2) out)).
Proof.
  split; [|split].
  - intros env xs e body k v vs out Hv Hvs H. simpl in H.
    rewrite Hv in H. simpl in H. rewrite Hvs in H. simpl in H.
    apply bind_Ok in H as (r1 & Hr1 & H).
    apply bind_Ok in H as (rest & Hrest & [= <-]).
    enough (exists blocks, r1 = concat blocks /\
              Forall2 (fun x b => exists env', bind_targets xs x env = Ok env' /\
                                               render_chunks body env' = Ok b)
                      vs blocks) as (blocks & -> & HF)
      by (exists blocks, rest; auto).
    clear Hvs Hv. revert r1 Hr1.
    induction vs as [|x vs IH]; simpl; intros r1 Hr1.
    + injection Hr1 as <-. exists []. split; [reflexivity | constructor].
    + apply bind_Ok in Hr1 as (b & Hb & Hr1).
      apply bind_Ok in Hr1 as (bs & Hbs & [= <-]).
      apply bind_Ok in Hb as (env' & Hbind & Hb).
      destruct (IH _ Hbs) as (blocks & -> & HF).
      exists (b :: blocks). split; [reflexivity|].
      constructor; eauto.
  - intros c m. exists (modelv3_out c m). split; [apply modelv3_renders|].
    unfold modelv3_out, is_mongo.
    destruct (String.eqb_spec (storage_backend c) "MONGO_DB") as [Em|Em];
      repeat split; intros; try contradiction; find_order.
  - intros s. exists (app_out s). split; [apply app_renders|].
    unfold app_out. intros m1 m2 H. split; find_order.
Qed.

(** C5, the counterexample: the example template of the README applies a
    [date] filter, which is none of the three kinds. *)
Lemma readme_example_applies_date :
  filters readme_example = ["date"] /\
  filter_kind_of "date" = None /\
  render readme_example
    [("user", VMap [("name", VStr "Alice"); ("created_at", VStr "2024-01-01")])]
  = Err (UnknownFilter "date").
Proof. repeat split. Qed.

(** C5, as amended: every filter applied by the generation templates (and by
    the templates quoted in the design notes) is [lower], [join] or [indent],
    that is a case transformation, a list join or an indentation, and each of
    the three is applied; the README's example template is the one place
    where another filter, [date], is applied. *)
Theorem generation_templates_use_three_filters :
  (forall name t, In (name, t) (shipped ++ quoted) ->
     forall f, In f (filters t) ->
       (f = "lower" /\ filter_kind_of f = Some CaseTransformation) \/
       (f = "join" /\ filter_kind_of f = Some ListJoining) \/
       (f = "indent" /\ filter_kind_of f = Some Indentation)) /\
  (In "lower" (filters modelv3_ts) /\ In "join" (filters modelv3_ts) /\
   In "indent" (filters modelv3_ts)) /\
  filters readme_example = ["date"].
Proof.
  split; [|split; [|reflexivity]].
  - intros name t Ht f Hf.
    assert (Hall : Forall (fun nt =>
              Forall (fun f => f = "lower" \/ f = "join" \/ f = "indent")
                     (filters (snd nt))) (shipped ++ quoted)).
    { vm_compute.
      repeat first [ apply List.Forall_nil | apply List.Forall_cons
                   | left; reflexivity | right; left; reflexivity
                   | right; right; reflexivity ]. }
    rewrite List.Forall_forall in Hall. specialize (Hall _ Ht). simpl in Hall.
    rewrite List.Forall_forall in Hall. destruct (Hall _ Hf) as [-> | [-> | ->]]; auto.
  - vm_compute. intuition.
Qed.

End TemplateClaims.

(** ** Validation *)

Module ValidationFacts.
Import Schema Validation.

Lemma in_concat_imap {A B : Type} (f : nat -> A -> list B) (l : list A) (y : B) :
  In y (concat (imap f l)) <-> exists i x, l !! i = Some x /\ In y (f i x).
Proof.
  rewrite in_concat. split.
  - intros (ys & Hys & Hy). apply list_elem_of_In in Hys.
    apply elem_of_lookup_imap in Hys as (i & x & -> & Hx). eauto.
  - intros (i & x & Hx & Hy). exists (f i x). split; [|exact Hy].
    apply list_elem_of_In. apply elem_of_lookup_imap. eauto.
Qed.

(** Blocks produced at distinct positions hold distinct keys. *)
Lemma NoDup_concat_imap {A B C : Type} (g : B -> C) (l : list A) :
  forall (f : nat -> A -> list B) (idx : C -> nat),
  (forall i x y, l !! i = Some x -> In y (f i x) -> idx (g y) = i) ->
  (forall i x, l !! i = Some x -> NoDup (map g (f i x))) ->
  NoDup (map g (concat (imap f l))).
Proof.
  induction l as [|a l IH]; intros f idx Hidx Hnd; simpl; [constructor|].
  rewrite map_app. apply NoDup_app. split; [|split].
  - apply (Hnd 0 a). reflexivity.
  - intros c Hc1 Hc2. apply list_elem_of_In in Hc1, Hc2.
    apply in_map_iff in Hc1 as (y1 & <- & Hy1).
    apply in_map_iff in Hc2 as (y2 & E & Hy2).
    apply in_concat_imap in Hy2 as (i & x & Hx & Hy2).
    pose proof (Hidx 0 a y1 eq_refl Hy1) as H1.
    pose proof (Hidx (S i) x y2 Hx Hy2) as H2.
    rewrite E in H2. congruence.
  - apply (IH (f ∘ S) (Nat.pred ∘ idx)).
    + intros i x y Hx Hy. simpl.
      rewrite (Hidx (S i) x y Hx Hy). reflexivity.
    + intros i x Hx. apply (Hnd (S i) x Hx).
Qed.


Lemma mem_In x l : mem x l = true <-> In x l.
Proof.
  unfold mem. rewrite existsb_exists. split.
  - intros (y & Hy & E). apply String.eqb_eq in E. subst. exact Hy.
  - intros H. exists x. split; [exact H | apply String.eqb_refl].
Qed.

Lemma mem_false x l : mem x l = false <-> ~ In x l.
Proof. rewrite <- mem_In. destruct (mem x l); split; congruence. Qed.

Lemma is_empty_enum_true k : is_empty_enum k = true <-> k = KEnum [].
Proof.
  destruct k as [| | |[|v vs]| | |]; simpl; split; congruence.
Qed.

Lemma duplicate_name_iff (m : Model) (j : nat) (f : Field) :
  mem (field_name f) (map field_name (take j (model_fields m))) = true <->
  exists j' f', model_fields m !! j' = Some f' /\ j' < j /\
                field_name f' = field_name f.
Proof.
  rewrite mem_In, in_map_iff. split.
  - intros (f' & E & Hin). apply list_elem_of_In, elem_of_take in Hin as (j' & ? & ?).
    eauto.
  - intros (j' & f' & Hf' & Hlt & E). exists f'. split; [exact E|].
    apply list_elem_of_In, elem_of_take. eauto.
Qed.

Lemma target_missing_iff (all : list Model) (t : string) :
  mem t (map model_name all) = false <->
  forall m', In m' all -> model_name m' <> t.
Proof.
  rewrite mem_false, in_map_iff. split.
  - intros H m' Hin E. apply H. eauto.
  - intros H (m' & E & Hin). exact (H m' Hin E).
Qed.

(** The validator reports a site exactly when a rule is broken there. *)
Lemma sites_Violates (V : Vocabulary) (s : Schema) (x : Site) :
  In x (sites V s) <-> Violates V s x.
Proof.
  unfold sites, diagnostics. rewrite in_map_iff. split.
  - intros (d & <- & Hd). apply in_app_or in Hd as [Hd|Hd].
    + apply in_concat_imap in Hd as (i & m & Hm & Hd).
      unfold check_model in Hd.
      apply in_app_or in Hd as [Hd|Hd]; [|apply in_app_or in Hd as [Hd|Hd];
        [|apply in_app_or in Hd as [Hd|Hd]]].
      * destruct (model_fields m) eqn:Ef; [|destruct Hd].
        destruct Hd as [<-|[]]. simpl. eapply V_no_fields; eauto.
      * apply in_concat_imap in Hd as (j & f & Hf & Hd).
        unfold check_field in Hd. apply in_app_or in Hd as [Hd|Hd].
        -- destruct (mem _ _) eqn:Edup; [|destruct Hd].
           destruct Hd as [<-|[]]. simpl.
           apply duplicate_name_iff in Edup as (j' & f' & ? & ? & ?).
           eapply V_duplicate_field; eauto.
        -- destruct (is_empty_enum _) eqn:Ee; [|destruct Hd].
           destruct Hd as [<-|[]]. simpl.
           apply is_empty_enum_true in Ee. eapply V_empty_enum; eauto.
      * apply in_concat_imap in Hd as (k & r & Hr & Hd).
        unfold check_relation in Hd.
        destruct (mem _ _) eqn:Et; [destruct Hd|].
        destruct Hd as [<-|[]]. simpl.
        eapply V_dangling_relation; eauto. apply target_missing_iff. exact Et.
      * apply in_concat_imap in Hd as (k & h & Hh & Hd).
        unfold check_hook in Hd.
        destruct (mem _ _) eqn:Et; [destruct Hd|].
        destruct Hd as [<-|[]]. simpl.
        eapply V_unknown_event; eauto. apply mem_false. exact Et.
    + unfold check_config in Hd. apply in_app_or in Hd as [Hd|Hd].
      * destruct (mem _ _) eqn:Et; [destruct Hd|].
        destruct Hd as [<-|[]]. simpl. apply V_backend. apply mem_false. exact Et.
      * destruct (mem _ _) eqn:Et; [destruct Hd|].
        destruct Hd as [<-|[]]. simpl. apply V_auth_mode. apply mem_false. exact Et.
  - intros Hv. destruct Hv as [i m Hm Hf| i j j' m f f' Hm Hf Hf' Hlt E
                              | i j m f Hm Hf Hk | i k m r Hm Hr Ht
                              | i k m h Hm Hh He | Hb | Ha].
    + eexists. split; [|apply in_or_app; left; apply in_concat_imap;
        exists i, m; split; [exact Hm|]; unfold check_model;
        apply in_or_app; left; rewrite Hf; left; reflexivity].
      reflexivity.
    + eexists. split; [|apply in_or_app; left; apply in_concat_imap;
        exists i, m; split; [exact Hm|]; unfold check_model;
        apply in_or_app; right; apply in_or_app; left; apply in_concat_imap;
        exists j, f; split; [exact Hf|]; unfold check_field;
        apply in_or_app; left;
        rewrite (proj2 (duplicate_name_iff m j f)) by eauto; left; reflexivity].
      reflexivity.
    + eexists. split; [|apply in_or_app; left; apply in_concat_imap;
        exists i, m; split; [exact Hm|]; unfold check_model;
        apply in_or_app; right; apply in_or_app; left; apply in_concat_imap;
        exists j, f; split; [exact Hf|]; unfold check_field;
        apply in_or_app; right; rewrite Hk; left; reflexivity].
      reflexivity.
    + eexists. split; [|apply in_or_app; left; apply in_concat_imap;
        exists i, m; split; [exact Hm|]; unfold check_model;
        apply in_or_app; right; apply in_or_app; right; apply in_or_app; left;
        apply in_concat_imap; exists k, r; split; [exact Hr|];
        unfold check_relation;
        rewrite (proj2 (target_missing_iff (models s) (rel_target r)) Ht);
        left; reflexivity].
      reflexivity.
    + eexists. split; [|apply in_or_app; left; apply in_concat_imap;
        exists i, m; split; [exact Hm|]; unfold check_model;
        apply in_or_app; right; apply in_or_app; right; apply in_or_app; right;
        apply in_concat_imap; exists k, h; split; [exact Hh|];
        unfold check_hook; rewrite (proj2 (mem_false _ _) He); left; reflexivity].
      reflexivity.
    + eexists. split; [|apply in_or_app; right; unfold check_config;
        apply in_or_app; left; rewrite (proj2 (mem_false _ _) Hb);
        left; reflexivity].
      reflexivity.
    + eexists. split; [|apply in_or_app; right; unfold check_config;
        apply in_or_app; right; rewrite (proj2 (mem_false _ _) Ha);
        left; reflexivity].
      reflexivity.
Qed.

(** *** No site is reported twice *)


Lemma NoDup_app_kind {C : Type} (kind : C -> nat) (n : nat) (l1 l2 : list C) :
  (forall x, In x l1 -> kind x < n) ->
  (forall x, In x l2 -> n <= kind x) ->
  NoDup l1 -> NoDup l2 -> NoDup (l1 ++ l2).
Proof.
  intros H1 H2 N1 N2. apply NoDup_app. split; [exact N1|split; [|exact N2]].
  intros x Hx1 Hx2. apply list_elem_of_In in Hx1, Hx2.
  specialize (H1 x Hx1). specialize (H2 x Hx2). lia.
Qed.

Lemma check_field_sites m i j f d :
  In d (check_field m i j f) ->
  diag_site d = AtFieldName i j \/ diag_site d = AtFieldEnum i j.
Proof.
  unfold check_field. intros H. apply in_app_or in H as [H|H].
  - destruct (mem _ _); [|destruct H]. destruct H as [<-|[]]. auto.
  - destruct (is_empty_enum _); [|destruct H]. destruct H as [<-|[]]. auto.
Qed.

Lemma check_relation_sites all m i k r d :
  In d (check_relation all m i k r) -> diag_site d = AtRelation i k.
Proof.
  unfold check_relation. destruct (mem _ _); intros H; [destruct H|].
  destruct H as [<-|[]]. reflexivity.
Qed.

Lemma check_hook_sites V m i k h d :
  In d (check_hook V m i k h) -> diag_site d = AtHook i k.
Proof.
  unfold check_hook. destruct (mem _ _); intros H; [destruct H|].
  destruct H as [<-|[]]. reflexivity.
Qed.

Lemma check_field_NoDup m i j f : NoDup (map diag_site (check_field m i j f)).
Proof.
  unfold check_field.
  destruct (mem _ _), (is_empty_enum _); simpl;
    repeat (apply NoDup_cons; split; [rewrite list_elem_of_In; simpl; intuition congruence|]);
    constructor.
Qed.

Lemma check_relation_NoDup all m i k r :
  NoDup (map diag_site (check_relation all m i k r)).
Proof.
  unfold check_relation. destruct (mem _ _); simpl; [constructor|].
  apply NoDup_cons. split; [rewrite list_elem_of_In; simpl; tauto | constructor].
Qed.

Lemma check_hook_NoDup V m i k h : NoDup (map diag_site (check_hook V m i k h)).
Proof.
  unfold check_hook. destruct (mem _ _); simpl; [constructor|].
  apply NoDup_cons. split; [rewrite list_elem_of_In; simpl; tauto | constructor].
Qed.

(** The sites reported for model [i], by part. *)
Lemma check_model_parts V all i m x :
  In x (map diag_site (check_model V all i m)) ->
  site_model x = i.
Proof.
  unfold check_model. rewrite !map_app, !in_app_iff, !in_map_iff.
  intros [(d & <- & H)|[(d & <- & H)|[(d & <- & H)|(d & <- & H)]]].
  - destruct (model_fields m); [|destruct H]. destruct H as [<-|[]]. reflexivity.
  - apply in_concat_imap in H as (j & f & _ & H).
    apply check_field_sites in H as [-> | ->]; reflexivity.
  - apply in_concat_imap in H as (k & r & _ & H).
    apply check_relation_sites in H as ->. reflexivity.
  - apply in_concat_imap in H as (k & h & _ & H).
    apply check_hook_sites in H as ->. reflexivity.
Qed.

Lemma check_model_kind V all i m x :
  In x (map diag_site (check_model V all i m)) -> site_kind x < 4.
Proof.
  unfold check_model. rewrite !map_app, !in_app_iff, !in_map_iff.
  intros [(d & <- & H)|[(d & <- & H)|[(d & <- & H)|(d & <- & H)]]].
  - destruct (model_fields m); [|destruct H]. destruct H as [<-|[]]. simpl. lia.
  - apply in_concat_imap in H as (j & f & _ & H).
    apply check_field_sites in H as [-> | ->]; simpl; lia.
  - apply in_concat_imap in H as (k & r & _ & H).
    apply check_relation_sites in H as ->. simpl. lia.
  - apply in_concat_imap in H as (k & h & _ & H).
    apply check_hook_sites in H as ->. simpl. lia.
Qed.

Lemma check_model_NoDup V all i m :
  NoDup (map diag_site (check_model V all i m)).
Proof.
  unfold check_model. rewrite !map_app.
  apply (NoDup_app_kind site_kind 1); [| | |apply (NoDup_app_kind site_kind 2);
    [| | |apply (NoDup_app_kind site_kind 3)]].
  - intros x Hx. destruct (model_fields m); [|destruct Hx].
    destruct Hx as [<-|[]]. simpl. lia.
  - intros x Hx. rewrite !in_app_iff, !in_map_iff in Hx.
    destruct Hx as [(d & <- & H)|[(d & <- & H)|(d & <- & H)]].
    + apply in_concat_imap in H as (j & f & _ & H).
      apply check_field_sites in H as [-> | ->]; simpl; lia.
    + apply in_concat_imap in H as (k & r & _ & H).
      apply check_relation_sites in H as ->. simpl. lia.
    + apply in_concat_imap in H as (k & h & _ & H).
      apply check_hook_sites in H as ->. simpl. lia.
  - destruct (model_fields m); simpl; [|constructor].
    apply NoDup_cons. split; [rewrite list_elem_of_In; simpl; tauto | constructor].
  - intros x Hx. rewrite in_map_iff in Hx. destruct Hx as (d & <- & H).
    apply in_concat_imap in H as (j & f & _ & H).
    apply check_field_sites in H as [-> | ->]; simpl; lia.
  - intros x Hx. rewrite !in_app_iff, !in_map_iff in Hx.
    destruct Hx as [(d & <- & H)|(d & <- & H)].
    + apply in_concat_imap in H as (k & r & _ & H).
      apply check_relation_sites in H as ->. simpl. lia.
    + apply in_concat_imap in H as (k & h & _ & H).
      apply check_hook_sites in H as ->. simpl. lia.
  - apply (NoDup_concat_imap diag_site (model_fields m) _ site_item).
    + intros j f d _ H. apply check_field_sites in H as [-> | ->]; reflexivity.
    + intros j f _. apply check_field_NoDup.
  - intros x Hx. rewrite in_map_iff in Hx. destruct Hx as (d & <- & H).
    apply in_concat_imap in H as (k & r & _ & H).
    apply check_relation_sites in H as ->. simpl. lia.
  - intros x Hx. rewrite in_map_iff in Hx. destruct Hx as (d & <- & H).
    apply in_concat_imap in H as (k & h & _ & H).
    apply check_hook_sites in H as ->. simpl. lia.
  - apply (NoDup_concat_imap diag_site (model_relations m) _ site_item).
    + intros k r d _ H. apply check_relation_sites in H as ->. reflexivity.
    + intros k r _. apply check_relation_NoDup.
  - apply (NoDup_concat_imap diag_site (model_hooks m) _ site_item).
    + intros k h d _ H. apply check_hook_sites in H as ->. reflexivity.
    + intros k h _. apply check_hook_NoDup.
Qed.

Lemma sites_NoDup (V : Vocabulary) (s : Schema) : NoDup (sites V s).
Proof.
  unfold sites, diagnostics. rewrite map_app.
  apply (NoDup_app_kind site_kind 4).
  - intros x Hx. apply in_map_iff in Hx as (d & <- & H).
    apply in_concat_imap in H as (i & m & _ & H).
    apply (check_model_kind V (models s) i m). apply in_map. exact H.
  - intros x Hx. unfold check_config in Hx.
    destruct (mem _ _), (mem _ _); simpl in Hx;
      repeat (destruct Hx as [<-|Hx]; [simpl; lia|]); destruct Hx.
  - apply (NoDup_concat_imap diag_site (models s) _ site_model).
    + intros i m d _ H. apply (check_model_parts V (models s) i m).
      apply in_map. exact H.
    + intros i m _. apply check_model_NoDup.
  - unfold check_config. destruct (mem _ _), (mem _ _); simpl;
      repeat (apply NoDup_cons; split;
              [rewrite list_elem_of_In; simpl; intuition congruence|]);
      constructor.
Qed.

End ValidationFacts.

(** ** Claim about validation *)

Module ValidationClaims.
Import Schema Validation ValidationFacts.

(** C2: validation aggregates.  When decoding succeeds and the schema
    breaks the rules at N sites (a duplicate-free list of all the violated
    sites), validation passes if N is zero and otherwise fails with one
    schema error that carries exactly N diagnostics, one for each violated
    site. *)
Theorem validation_reports_every_violation {Raw : Type}
    (decode : Raw -> option Schema) (raw : Raw)
    (V : Vocabulary) (s : Schema) (violated : list Site) :
  decode raw = Some s ->
  NoDup violated ->
  (forall x, In x violated <-> Violates V s x) ->
  match violated with
  | [] => parse_and_validate decode V raw = Valid s
  | _ :: _ =>
      exists ds,
        parse_and_validate decode V raw = Invalid (Semantic ds) /\
        length ds = length violated /\
        Permutation (map diag_site ds) violated
  end.
Proof.
  intros Hdec Hnd Hall. unfold parse_and_validate. rewrite Hdec.
  assert (Hp : Permutation (map diag_site (diagnostics V s)) violated).
  { apply NoDup_Permutation; [apply sites_NoDup | exact Hnd |].
    intros x. rewrite !list_elem_of_In, Hall. apply sites_Violates. }
  unfold validate.
  destruct violated as [|x violated].
  - symmetry in Hp. apply Permutation_nil in Hp.
    destruct (diagnostics V s); [reflexivity | discriminate Hp].
  - destruct (diagnostics V s) as [|d ds] eqn:Ed.
    + apply Permutation_nil in Hp. discriminate Hp.
    + exists (d :: ds). split; [reflexivity|]. split; [|exact Hp].
      apply Permutation_length in Hp. rewrite length_map in Hp. exact Hp.
Qed.

Lemma validation_reports_every_violation_witness :
  exists ds,
    parse_and_validate (fun raw : Schema => Some raw) Examples.vocabulary
      Examples.scenario_c = Invalid (Semantic ds) /\
    length ds = 3 /\
    Permutation (map diag_site ds) [AtFieldEnum 0 0; AtRelation 0 0; AtBackend].
Proof.
  apply (validation_reports_every_violation
           (fun raw : Schema => Some raw) Examples.scenario_c
           Examples.vocabulary Examples.scenario_c
           [AtFieldEnum 0 0; AtRelation 0 0; AtBackend]).
  - reflexivity.
  - repeat (apply NoDup_cons; split;
            [rewrite list_elem_of_In; simpl; intuition congruence|]).
    constructor.
  - intros x. rewrite <- sites_Violates. reflexivity.
Defined.

End ValidationClaims.

(** ** The generator *)

Module GeneratorFacts.
Import Text Generator.

Section Runs.
Variable Error : Type.
Variable Model : Type.
Variable render : string -> Model -> Result Error string.
Variable write_file : string -> string -> Result Error unit.
Variable output_dir : string.
Variable to_lowercase : string -> string.

Lemma generated_path entry file :
  generated render write_file output_dir to_lowercase entry = Some file ->
  file.1 = model_path output_dir to_lowercase entry.1 /\
  render "model.ts.jinja" entry.2 = Success file.2.
Proof.
  unfold generated.
  destruct (render "model.ts.jinja" entry.2) as [content|e]; [|discriminate].
  destruct (write_file _ content) as [[]|e]; [|discriminate].
  intros [= <-]. split; reflexivity.
Qed.

Lemma generate_models_success models :
  Forall (fun entry =>
            generated render write_file output_dir to_lowercase entry <> None) models ->
  generate_models render write_file output_dir to_lowercase models =
  (omap (generated render write_file output_dir to_lowercase) models, Success tt).
Proof.
  induction 1 as [|[name model] rest Hx _ IH]; [reflexivity|].
  cbn [generate_models omap list_omap]. unfold generated in Hx |- *.
  cbn [fst snd] in *.
  destruct (render "model.ts.jinja" model) as [content|e]; [|congruence].
  destruct (write_file _ content) as [[]|e]; [|congruence].
  rewrite IH. reflexivity.
Qed.

Lemma generate_models_succeeded models :
  snd (generate_models render write_file output_dir to_lowercase models) = Success tt ->
  Forall (fun entry =>
            generated render write_file output_dir to_lowercase entry <> None) models.
Proof.
  induction models as [|[name model] rest IH]; [constructor|].
  cbn [generate_models]. intros H.
  destruct (render "model.ts.jinja" model) as [content|e] eqn:Er; [|discriminate H].
  destruct (write_file (model_path output_dir to_lowercase name) content)
    as [[]|e] eqn:Ew; [|discriminate H].
  destruct (generate_models _ _ _ _ rest) as [written result]. cbn [snd] in *.
  constructor; [|apply IH, H].
  unfold generated. cbn [fst snd]. rewrite Er, Ew. discriminate.
Qed.


Lemma written_paths models :
  Forall (fun entry =>
            generated render write_file output_dir to_lowercase entry <> None) models ->
  map fst (omap (generated render write_file output_dir to_lowercase) models) =
  map (fun entry => model_path output_dir to_lowercase entry.1) models.
Proof.
  induction 1 as [|entry rest Hx _ IH]; [reflexivity|].
  cbn [omap list_omap map].
  destruct (generated _ _ _ _ entry) as [file|] eqn:E; [|congruence].
  cbn. rewrite IH. f_equal. apply (generated_path _ _ E).
Qed.

End Runs.







End GeneratorFacts.

(** ** Claims about the generator *)

Module GeneratorClaims.
Import Text Generator GeneratorFacts.








(** C7, as amended: [generate_project] runs [generate_app] at most once,
    as its last step, on the whole schema, and exactly when the five steps
    before it (the per-model ones among them) have succeeded; the result of
    the run is then that of [generate_app].  The files of the models are
    written in the order in which the map is visited.  The entrypoint
    template, rendered on the whole schema, imports and registers the
    routes of every model, in the order of the schema. *)
Theorem generate_app_runs_once_and_last {Error Model Config : Type}
    (render : string -> Model -> Result Error string)
    (write_file : string -> string -> Result Error unit)
    (output_dir : string) (to_lowercase : string -> string)
    (create_directory_structure : list (string * string) * Result Error unit)
    (generate_package_json : Config -> list (string * string) * Result Error unit)
    (generate_routes : list (string * Model) -> list (string * string) * Result Error unit)
    (generate_middleware : Config -> list (string * string) * Result Error unit)
    (generate_app : Schema Model Config -> list (string * string) * Result Error unit)
    (schema : Schema Model Config) :
  let per_model := generate_models render write_file output_dir to_lowercase
                     (models schema) in
  let earlier :=
    [ (CreateDirectoryStructure, create_directory_structure);
      (GeneratePackageJson, generate_package_json (config schema));
      (GenerateModels, per_model);
      (GenerateRoutes, generate_routes (models schema));
      (GenerateMiddleware, generate_middleware (config schema)) ] in
  let run := generate_project render write_file output_dir to_lowercase
               create_directory_structure generate_package_json generate_routes
               generate_middleware generate_app schema in
  (Forall (fun s => snd (snd s) = Success tt) earlier ->
   fst run = map (fun s => (fst s, fst (snd s))) earlier ++
             [(GenerateApp, fst (generate_app schema))] /\
   snd run = snd (generate_app schema)) /\
  (forall pre written post,
     fst run = pre ++ (GenerateApp, written) :: post ->
     post = [] /\
     written = fst (generate_app schema) /\
     Forall (fun s => snd (snd s) = Success tt) earlier /\
     pre = map (fun s => (fst s, fst (snd s))) earlier) /\
  (snd per_model = Success tt ->
   map fst (fst per_model) =
   map (fun entry => model_path output_dir to_lowercase entry.1) (models schema)) /\
  (forall s : Schema.Schema,
     Jinja.render Templates.app_ts (Schema.schema_ctx s) =
       Jinja.Ok (Jinja.text_of (Rendered.app_out s)) /\
     (forall m, In m (Schema.models s) ->
        Rendered.has_block (Rendered.route_import m) (Rendered.app_out s) /\
        Rendered.has_block (Rendered.route_use m) (Rendered.app_out s)) /\
     (forall m1 m2, Rendered.precedes m1 m2 (Schema.models s) ->
        Rendered.occurs_before (Rendered.route_import m1) (Rendered.route_import m2)
          (Rendered.app_out s) /\
        Rendered.occurs_before (Rendered.route_use m1) (Rendered.route_use m2)
          (Rendered.app_out s))).
Proof.
  cbv zeta.
  assert (Hpaths :
    snd (generate_models render write_file output_dir to_lowercase (models schema))
      = Success tt ->
    map fst (fst (generate_models render write_file output_dir to_lowercase
                    (models schema))) =
    map (fun entry => model_path output_dir to_lowercase entry.1) (models schema)).
  { intros Hok. apply generate_models_succeeded in Hok.
    rewrite (generate_models_success _ _ _ _ _ _ _ Hok). apply written_paths, Hok. }
  assert (Happ : forall s : Schema.Schema,
     Jinja.render Templates.app_ts (Schema.schema_ctx s) =
       Jinja.Ok (Jinja.text_of (Rendered.app_out s)) /\
     (forall m, In m (Schema.models s) ->
        Rendered.has_block (Rendered.route_import m) (Rendered.app_out s) /\
        Rendered.has_block (Rendered.route_use m) (Rendered.app_out s)) /\
     (forall m1 m2, Rendered.precedes m1 m2 (Schema.models s) ->
        Rendered.occurs_before (Rendered.route_import m1) (Rendered.route_import m2)
          (Rendered.app_out s) /\
        Rendered.occurs_before (Rendered.route_use m1) (Rendered.route_use m2)
          (Rendered.app_out s))).
  { intros s. split; [apply JinjaFacts.render_text, TemplateFacts.app_renders|].
    split; [intros m Hm; apply TemplateFacts.app_mentions_every_model, Hm|].
    intros m1 m2 Hp. unfold Rendered.app_out.
    split; TemplateClaims.find_order. }
  split; [|split; [|split; [exact Hpaths | exact Happ]]]; clear Hpaths Happ;
    unfold generate_project, step;
    destruct create_directory_structure as [w1 [[]|e1]];
    destruct (generate_package_json (config schema)) as [w2 [[]|e2]];
    destruct (generate_models render write_file output_dir to_lowercase (models schema))
      as [w3 [[]|e3]];
    destruct (generate_routes (models schema)) as [w4 [[]|e4]];
    destruct (generate_middleware (config schema)) as [w5 [[]|e5]];
    destruct (generate_app schema) as [w6 [[]|e6]];
    cbn [fst snd map app].
  all: try (intros H;
            first [ split; reflexivity
                  | exfalso; repeat (apply List.Forall_cons_iff in H as [? H]);
                    cbn in *; congruence ]).
  all: intros pre written post H;
    repeat (destruct pre as [|? pre]; cbn in H; try discriminate H);
    injection H as ? ?; subst;
    try discriminate;
    repeat split; repeat constructor.
Qed.

(** C7, the counterexample: the files of "Zeta" and "Alpha" are written in
    the order of the visit, [zeta.ts] before [alpha.ts] in one of the two
    orders, which is not the order of the paths. *)
Lemma files_are_written_in_visit_order :
  let zeta := ("Zeta", "interface IZeta {}") in
  let alpha := ("Alpha", "interface IAlpha {}") in
  let run := generate_models Examples.render_nonempty Examples.write_ok "out" lower in
  Permutation [zeta; alpha] [alpha; zeta] /\
  snd (run [zeta; alpha]) = Success tt /\
  map fst (fst (run [zeta; alpha])) =
    ["out/src/models/zeta.ts"; "out/src/models/alpha.ts"] /\
  map fst (fst (run [alpha; zeta])) =
    ["out/src/models/alpha.ts"; "out/src/models/zeta.ts"] /\
  String.ltb "out/src/models/alpha.ts" "out/src/models/zeta.ts" = true.
Proof.
  cbv zeta. split; [apply perm_swap|]. vm_compute. repeat split.
Qed.

End GeneratorClaims.


(** ** Claims about the generated Express project *)

Module ExpressClaims.
Import Text Express.

(** C9: the authentication middleware calls [next()] only for a request
    whose Authorization header, with its first ["Bearer "] removed, is a
    non-empty token that verifies against the configured secret and whose
    claims resolve to an existing user; that user, and no other, is
    attached to the request before [next()] is called, and [next()] is
    called once.  For every other request the middleware answers 401 and
    does not call [next()].  A user is attached only to such a request. *)
Theorem authMiddleware_guards_next {user claims : Type}
    (verify : string -> string -> completion claims)
    (findOne : claims -> completion (option user))
    (next_returns : bool) (secret : string) (req : Request) :
  let trace := handled user claims verify findOne next_returns secret req in
  (In CallNext trace <->
   exists header decoded u,
     authorization req = Some header /\
     replace_first "Bearer " "" header <> "" /\
     verify (replace_first "Bearer " "" header) secret = Normal decoded /\
     findOne decoded = Normal (Some u)) /\
  (In CallNext trace ->
   exists u rest,
     trace = AttachUser u :: CallNext :: rest /\
     ~ In CallNext rest /\
     (next_returns = true -> rest = [])) /\
  (~ In CallNext trace ->
   exists msg, trace = [SetStatus 401; SendJson msg]) /\
  (forall header decoded u,
     authorization req = Some header ->
     replace_first "Bearer " "" header <> "" ->
     verify (replace_first "Bearer " "" header) secret = Normal decoded ->
     findOne decoded = Normal (Some u) ->
     exists rest,
       trace = AttachUser u :: CallNext :: rest /\
       ~ In CallNext rest /\
       (forall other, ~ In (AttachUser other) rest) /\
       (next_returns = true -> rest = [])) /\
  (forall attached,
     In (AttachUser attached) trace ->
     exists header decoded,
       authorization req = Some header /\
       replace_first "Bearer " "" header <> "" /\
       verify (replace_first "Bearer " "" header) secret = Normal decoded /\
       findOne decoded = Normal (Some attached)).
Proof.
  unfold handled, authMiddleware, try_catch, respond_401, next, seq, perform, lift.
  destruct (authorization req) as [header|] eqn:Eh; simpl.
  2: { repeat apply conj.
       - intros [?|[?|[]]]; discriminate.
       - intros (? & ? & ? & [=] & _).
       - intros [?|[?|[]]]; discriminate.
       - eauto.
       - intros ? ? ? [=].
       - intros ? [?|[?|[]]]; discriminate. }
  destruct (String.eqb_spec (replace_first "Bearer " "" header) "") as [Et|Et]; simpl.
  { repeat apply conj.
    - intros [?|[?|[]]]; discriminate.
    - intros (? & ? & ? & [= <-] & Hne & _). contradiction.
    - intros [?|[?|[]]]; discriminate.
    - eauto.
    - intros ? ? ? [= <-] Hne. contradiction.
    - intros ? [?|[?|[]]]; discriminate. }
  destruct (verify (replace_first "Bearer " "" header) secret) as [decoded|] eqn:Ev;
    simpl.
  2: { repeat apply conj.
       - intros [?|[?|[]]]; discriminate.
       - intros (? & ? & ? & [= <-] & _ & Hv & _). congruence.
       - intros [?|[?|[]]]; discriminate.
       - eauto.
       - intros ? ? ? [= <-] _ Hv. congruence.
       - intros ? [?|[?|[]]]; discriminate. }
  destruct (findOne decoded) as [[u|]|] eqn:Ef; simpl.
  - destruct next_returns; simpl in *; repeat apply conj.
    + intros _. exists header, decoded, u. auto.
    + intros _. right. left. reflexivity.
    + intros _. exists u, []. repeat split; auto.
    + intros H. exfalso. apply H. right. left. reflexivity.
    + intros h d v [= <-] _ Hv Hf. rewrite Ev in Hv. injection Hv as <-.
      rewrite Ef in Hf. injection Hf as <-.
      exists []. repeat split; auto.
    + intros a [[= <-]|[?|[]]]; [|discriminate]. exists header, decoded. auto.
    + intros _. exists header, decoded, u. auto.
    + intros _. right. left. reflexivity.
    + intros _. exists u, [SetStatus 401; SendJson "Token is not valid"].
      repeat split; [intros [?|[?|[]]]; discriminate | discriminate].
    + intros H. exfalso. apply H. right. left. reflexivity.
    + intros h d v [= <-] _ Hv Hf. rewrite Ev in Hv. injection Hv as <-.
      rewrite Ef in Hf. injection Hf as <-.
      exists [SetStatus 401; SendJson "Token is not valid"].
      repeat split;
        [intros [?|[?|[]]]; discriminate | intros ? [?|[?|[]]]; discriminate
        | discriminate].
    + intros a [[= <-]|[?|[?|[?|[]]]]]; try discriminate.
      exists header, decoded. auto.
  - repeat apply conj.
    + intros [?|[?|[]]]; discriminate.
    + intros (? & ? & ? & [= <-] & _ & Hv & Hf). congruence.
    + intros [?|[?|[]]]; discriminate.
    + eauto.
    + intros ? ? ? [= <-] _ Hv Hf. congruence.
    + intros ? [?|[?|[]]]; discriminate.
  - repeat apply conj.
    + intros [?|[?|[]]]; discriminate.
    + intros (? & ? & ? & [= <-] & _ & Hv & Hf). congruence.
    + intros [?|[?|[]]]; discriminate.
    + eauto.
    + intros ? ? ? [= <-] _ Hv Hf. congruence.
    + intros ? [?|[?|[]]]; discriminate.
Qed.

(** C10: the configuration module loads only when PORT, MONGODB_URI and
    JWT_SECRET are set and non-empty; the exported URI and secret are then
    the environment's, but the exported port is 3000 whenever
    [Number(process.env.PORT)] is NaN or zero, so a PORT that passes the
    assertion need not be the port that is exported. *)
Theorem port_falls_back_to_3000 (Number : string -> JsNumber)
    (dotenv_config : gmap string string -> gmap string string)
    (process_env : gmap string string) :
  let env := dotenv_config process_env in
  (forall c, load Number dotenv_config process_env = Exported c ->
     truthy_var (env !! "PORT") = true /\
     truthy_var (env !! "MONGODB_URI") = true /\
     truthy_var (env !! "JWT_SECRET") = true /\
     env !! "MONGODB_URI" = Some (mongodbUri c) /\
     env !! "JWT_SECRET" = Some (jwtSecret c) /\
     (falsy_number (NumberOf Number (env !! "PORT")) = true ->
      port c = Int 3000) /\
     (falsy_number (NumberOf Number (env !! "PORT")) = false ->
      port c = NumberOf Number (env !! "PORT"))) /\
  (forall p uri secret,
     env !! "PORT" = Some p -> p <> "" ->
     env !! "MONGODB_URI" = Some uri -> uri <> "" ->
     env !! "JWT_SECRET" = Some secret -> secret <> "" ->
     exists c,
       load Number dotenv_config process_env = Exported c /\
       (Number p = NaN \/ Number p = Int 0 ->
        port c = Int 3000 /\ port c <> Number p)).
Proof.
  cbv zeta. split.
  - intros c. unfold load.
    destruct (truthy_var (dotenv_config process_env !! "PORT")) eqn:Ep;
      simpl; [|discriminate].
    destruct (truthy_var (dotenv_config process_env !! "MONGODB_URI")) eqn:Eu;
      simpl; [|discriminate].
    destruct (truthy_var (dotenv_config process_env !! "JWT_SECRET")) eqn:Ej;
      simpl; [|discriminate].
    intros [= <-]. simpl. repeat split.
    + unfold truthy_var, or_string in *.
      destruct (dotenv_config process_env !! "MONGODB_URI") as [u|]; [|discriminate].
      destruct (String.eqb u ""); [discriminate | reflexivity].
    + unfold truthy_var, or_string in *.
      destruct (dotenv_config process_env !! "JWT_SECRET") as [u|]; [|discriminate].
      destruct (String.eqb u ""); [discriminate | reflexivity].
    + unfold or_number. intros ->. reflexivity.
    + unfold or_number. intros ->. reflexivity.
  - intros p uri secret Hp Hpne Hu Hune Hj Hjne. unfold load.
    rewrite Hp, Hu, Hj. simpl.
    rewrite (proj2 (String.eqb_neq p "") Hpne).
    rewrite (proj2 (String.eqb_neq uri "") Hune).
    rewrite (proj2 (String.eqb_neq secret "") Hjne). simpl.
    eexists. split; [reflexivity|]. simpl. unfold or_number.
    intros [-> | ->]; simpl; split; congruence.
Qed.

Lemma port_falls_back_to_3000_witness :
  exists c,
    load Number_of_digits (fun env => env)
      {[ "PORT" := "abc"; "MONGODB_URI" := "mongodb://db/app";
         "JWT_SECRET" := "s3cret" ]} = Exported c /\
    port c = Int 3000.
Proof.
  destruct (proj2 (port_falls_back_to_3000 Number_of_digits (fun env => env)
                     {[ "PORT" := "abc"; "MONGODB_URI" := "mongodb://db/app";
                        "JWT_SECRET" := "s3cret" ]})
                  "abc" "mongodb://db/app" "s3cret")
    as (c & Hload & Hport);
    try reflexivity; try discriminate.
  exists c. split; [exact Hload|]. apply Hport. left. reflexivity.
Defined.

End ExpressClaims.

(** ** Further properties of the templates and of the generated project *)

Module MoreProperties.
Import Text Jinja Templates Schema Rendered JinjaFacts TemplateFacts TemplateClaims.
Import Express.

(** X2: the entrypoint template renders for every schema; it imports and
    sets up CORS exactly when [features.cors] holds, and it imports and
    registers the routes of every model of the schema. *)
Theorem app_entrypoint_wiring (s : Schema) :
  render app_ts (schema_ctx s) = Ok (text_of (app_out s)) /\
  (In (Lit cors_import) (app_out s) <-> cors (config s) = true) /\
  (In (Lit cors_setup) (app_out s) <-> cors (config s) = true) /\
  (forall m, In m (models s) ->
     has_block (route_import m) (app_out s) /\
     has_block (route_use m) (app_out s)).
Proof.
  split; [apply render_text, app_renders|].
  split; [|split; [|apply app_mentions_every_model]].
  - unfold app_out. destruct (cors (config s)); split; intros H;
      first [reflexivity | find_lit | discriminate H | exfalso; chunk_cases H].
  - unfold app_out. destruct (cors (config s)); split; intros H;
      first [reflexivity | find_lit | discriminate H | exfalso; chunk_cases H].
Qed.

Lemma replace_first_absent (h : string) :
  containsb "Bearer " h = false -> replace_first "Bearer " "" h = h.
Proof.
  induction h as [|c h IH]; [reflexivity|].
  intros H. cbn [containsb] in H. apply orb_false_iff in H as [Hp Hc].
  cbn [replace_first]. rewrite Hp. rewrite (IH Hc). reflexivity.
Qed.

(** X3: the scheme of the [Authorization] header is not required.  A
    header in which ["Bearer "] does not occur is handled exactly as the
    same text behind ["Bearer "]: the whole header is verified as the
    token, and when it verifies and its user exists the request is let
    through, with that user attached. *)
Theorem bearer_scheme_is_optional {user claims : Type}
    (verify : string -> string -> completion claims)
    (findOne : claims -> completion (option user))
    (next_returns : bool) (secret : string) (h : string) :
  containsb "Bearer " h = false ->
  authMiddleware user claims verify findOne next_returns secret
    {| authorization := Some h |} =
  authMiddleware user claims verify findOne next_returns secret
    {| authorization := Some ("Bearer " +:+ h) |} /\
  (h <> "" ->
   forall decoded u,
     verify h secret = Normal decoded ->
     findOne decoded = Normal (Some u) ->
     exists rest,
       handled user claims verify findOne next_returns secret
         {| authorization := Some h |} = AttachUser u :: CallNext :: rest).
Proof.
  intros Habsent. split.
  - unfold authMiddleware. cbn [authorization option_map].
    rewrite (replace_first_absent h Habsent). reflexivity.
  - intros Hne decoded u Hv Hf.
    unfold handled, authMiddleware, try_catch, respond_401, next, seq, perform, lift.
    cbn [authorization option_map].
    rewrite (replace_first_absent h Habsent).
    destruct (String.eqb_spec h "") as [E|_]; [contradiction|].
    rewrite Hv. simpl. rewrite Hf.
    destruct next_returns; simpl; eauto.
Qed.

Lemma bearer_scheme_is_optional_witness :
  containsb "Bearer " "abc" = false /\
  authMiddleware nat string (fun t _ => Normal t) (fun _ => Normal (Some 7)) true "s"
    {| authorization := Some "abc" |} =
  authMiddleware nat string (fun t _ => Normal t) (fun _ => Normal (Some 7)) true "s"
    {| authorization := Some "Bearer abc" |} /\
  handled nat string (fun t _ => Normal t) (fun _ => Normal (Some 7)) true "s"
    {| authorization := Some "abc" |} = [AttachUser 7; CallNext].
Proof.
  split; [reflexivity|].
  split.
  - apply (bearer_scheme_is_optional (fun t _ => Normal t) (fun _ => Normal (Some 7))
             true "s" "abc"). reflexivity.
  - reflexivity.
Defined.

(** X4: every response of the middleware has status 401, at most one
    response is sent, and when [next()] returns normally the middleware
    either calls [next()] or answers, never both. *)
Theorem authMiddleware_answers_only_401 {user claims : Type}
    (verify : string -> string -> completion claims)
    (findOne : claims -> completion (option user))
    (next_returns : bool) (secret : string) (req : Request) :
  let trace := handled user claims verify findOne next_returns secret req in
  (forall code, In (SetStatus code) trace -> code = 401) /\
  length (filter is_status trace) <= 1 /\
  (next_returns = true ->
   (In CallNext trace /\ filter is_status trace = []) \/
   (~ In CallNext trace /\ length (filter is_status trace) = 1)).
Proof.
  unfold handled, authMiddleware, try_catch, respond_401, next, seq, perform, lift.
  destruct (authorization req) as [header|]; simpl.
  2: { repeat split; [intros code [[= <-]|[?|[]]]; [reflexivity | discriminate]
                     | lia | intros _; right; split; [|reflexivity];
                       intros [?|[?|[]]]; discriminate]. }
  destruct (String.eqb (replace_first "Bearer " "" header) ""); simpl.
  { repeat split; [intros code [[= <-]|[?|[]]]; [reflexivity | discriminate]
                  | lia | intros _; right; split; [|reflexivity];
                    intros [?|[?|[]]]; discriminate]. }
  destruct (verify (replace_first "Bearer " "" header) secret) as [decoded|]; simpl.
  2: { repeat split; [intros code [[= <-]|[?|[]]]; [reflexivity | discriminate]
                     | lia | intros _; right; split; [|reflexivity];
                       intros [?|[?|[]]]; discriminate]. }
  destruct (findOne decoded) as [[u|]|]; simpl.
  - destruct next_returns; simpl; repeat split.
    + intros code [?|[?|[]]]; discriminate.
    + lia.
    + intros _. left. split; [right; left; reflexivity | reflexivity].
    + intros code [?|[?|[[= <-]|[?|[]]]]]; try discriminate. reflexivity.
    + lia.
    + discriminate.
  - repeat split; [intros code [[= <-]|[?|[]]]; [reflexivity | discriminate]
                  | lia | intros _; right; split; [|reflexivity];
                    intros [?|[?|[]]]; discriminate].
  - repeat split; [intros code [[= <-]|[?|[]]]; [reflexivity | discriminate]
                  | lia | intros _; right; split; [|reflexivity];
                    intros [?|[?|[]]]; discriminate].
Qed.

(** X5: the configuration module checks PORT, then MONGODB_URI, then
    JWT_SECRET, and fails on the first that is unset or empty with the
    message of that assertion; DOMAIN is not required and defaults to
    ["http://localhost:8080"]. *)
Theorem config_assertions_in_order (Number : string -> JsNumber)
    (dotenv_config : gmap string string -> gmap string string)
    (process_env : gmap string string) :
  let env := dotenv_config process_env in
  (truthy_var (env !! "PORT") = false ->
   load Number dotenv_config process_env =
   AssertionError "PORT environment variable is required") /\
  (truthy_var (env !! "PORT") = true ->
   truthy_var (env !! "MONGODB_URI") = false ->
   load Number dotenv_config process_env =
   AssertionError "MONGODB_URI environment variable is required") /\
  (truthy_var (env !! "PORT") = true ->
   truthy_var (env !! "MONGODB_URI") = true ->
   truthy_var (env !! "JWT_SECRET") = false ->
   load Number dotenv_config process_env =
   AssertionError "JWT_SECRET environment variable is required") /\
  (forall c, load Number dotenv_config process_env = Exported c ->
     (env !! "DOMAIN" = None -> domain c = "http://localhost:8080") /\
     (forall d, env !! "DOMAIN" = Some d -> d <> "" -> domain c = d)).
Proof.
  cbv zeta. unfold load. repeat split.
  - intros ->. reflexivity.
  - intros -> ->. reflexivity.
  - intros -> -> ->. reflexivity.
  - destruct (truthy_var (_ !! "PORT")); [|discriminate H].
    destruct (truthy_var (_ !! "MONGODB_URI")); [|discriminate H].
    destruct (truthy_var (_ !! "JWT_SECRET")); [|discriminate H].
    simpl in H. injection H as <-. simpl. intros ->. reflexivity.
  - destruct (truthy_var (_ !! "PORT")); [|discriminate H].
    destruct (truthy_var (_ !! "MONGODB_URI")); [|discriminate H].
    destruct (truthy_var (_ !! "JWT_SECRET")); [|discriminate H].
    simpl in H. injection H as <-. simpl. intros d -> Hd. simpl.
    rewrite (proj2 (String.eqb_neq d "") Hd). reflexivity.
Qed.

End MoreProperties.

(** ** The generated project: controllers, routes, error handling *)

Module JsFacts.
Import Js.

Lemma prop_assign_same props k x : prop (assign props k x) k = x.
Proof.
  unfold prop. induction props as [|[k' v] rest IH]; simpl.
  - rewrite String.eqb_refl. reflexivity.
  - destruct (String.eqb k k') eqn:E; simpl.
    + rewrite String.eqb_refl. reflexivity.
    + rewrite E. exact IH.
Qed.

Lemma prop_assign_other props k x k' :
  k' <> k -> prop (assign props k x) k' = prop props k'.
Proof.
  intros Hne. unfold prop. induction props as [|[k0 v] rest IH]; simpl.
  - rewrite (proj2 (String.eqb_neq k' k) Hne). reflexivity.
  - destruct (String.eqb k k0) eqn:E; simpl.
    + apply String.eqb_eq in E. subst k0.
      rewrite (proj2 (String.eqb_neq k' k) Hne). reflexivity.
    + destruct (String.eqb k' k0); [reflexivity | exact IH].
Qed.

Lemma truthy_not_nullish v : truthy v = true -> nullish v = false.
Proof. destruct v; simpl; congruence. Qed.

Lemma field_nullish v k : nullish v = true -> field v k = JUndefined.
Proof. destruct v; simpl; congruence. Qed.

Lemma truthy_or_else a b : truthy b = true -> truthy (or_else a b) = true.
Proof. unfold or_else. destruct (truthy a) eqn:E; auto. Qed.

End JsFacts.

Module HandlerProperties.
Import Js JsFacts.

Section WithProject.
Variable extern : string -> list js -> outcome js.
Variable TypeError : js.
Variable text : js -> string.
Variable config : Express.Config.

Ltac unfold_run :=
  unfold registerUser, loginUser, getUserProfile, updateUserProfile, deleteUser,
    comparePassword, errorHandler, notFoundHandler, preSave, respond,
    handleWebhook, log_event,
    try_catch, bind, call, get_opt, get, perform, ret, throw.

Ltac crunch :=
  repeat (simpl;
          match goal with
          | |- context [extern ?f ?a] => destruct (extern f a) eqn:?
          | H : truthy ?v = true |- context [nullish ?v] =>
              rewrite (truthy_not_nullish v H)
          | |- context [nullish ?v] => destruct (nullish v) eqn:?
          | |- context [if negb ?b then _ else _] => destruct b eqn:?
          | |- context [if ?b then _ else _] => destruct b eqn:?
          end);
  simpl.

(** X6: [errorHandler] answers every error value once and never calls
    [next]: the status it sets is [err.status] when that is truthy and 500
    otherwise (so never a falsy status), the message is [err.message] or
    "Internal Server Error", and the body repeats the status.  On
    [undefined] or [null] it throws before it answers. *)
Theorem errorHandler_answers_with_truthy_status (err : js) :
  match err with
  | JUndefined => errorHandler TypeError err = ([], Threw TypeError)
  | JNull => errorHandler TypeError err = ([], Threw TypeError)
  | _ =>
      let code := or_else (field err "status") (num 500) in
      let msg := or_else (field err "message") (JStr "Internal Server Error") in
      errorHandler TypeError err =
        ([Log "error" [field err "stack"];
          Status code;
          Json (JObj [("status", JStr "error"); ("statusCode", code);
                      ("message", msg)])],
         Returned tt) /\
      truthy code = true /\ truthy msg = true /\
      (truthy (field err "status") = false -> code = num 500) /\
      (truthy (field err "message") = false -> msg = JStr "Internal Server Error")
  end.
Proof.
  destruct err; try reflexivity; cbv zeta;
    (split; [reflexivity|]);
    (split; [apply truthy_or_else; reflexivity|]);
    (split; [apply truthy_or_else; reflexivity|]);
    unfold or_else; split; intros ->; reflexivity.
Qed.



(** X7: each of the five controllers returns normally, whatever the
    database and the libraries do.  After its calls it either answers once
    (a status among 200, 201, 401 and 404, then a JSON body) or forwards
    one error with [next(err)], never both; the error forwarded is the one
    that was thrown. *)
Theorem controllers_answer_or_forward (req : Req) :
  Forall (fun c : Req -> Run unit =>
    let t := fst (c req) in
    snd (c req) = Returned tt /\
    ((exists code body,
        t = calls t ++ [Status (num code); Json body] /\
        In code [200; 201; 401; 404]%Z) \/
     (exists err,
        t = calls t ++ [Next (Some err)] /\
        (err = TypeError \/
         exists fn args, In (Call fn args) t /\ extern fn args = Threw err))))
    (userController extern TypeError config).
Proof.
  unfold userController.
  repeat (apply List.Forall_cons || apply List.Forall_nil); cbv zeta;
    unfold_run; crunch;
    (split; [reflexivity|]);
    first [ left; do 2 eexists; split; [reflexivity | simpl; tauto]
          | right; eexists; split; [reflexivity|];
            first [ left; reflexivity
                  | right; do 2 eexists; split; [|eassumption]; simpl; tauto ] ].
Qed.

Ltac tidy :=
  repeat match goal with
         | H : Returned _ = Returned _ |- _ => injection H as ?; subst
         | H : Threw _ = Threw _ |- _ => injection H as ?; subst
         | H : Returned _ = Threw _ |- _ => discriminate H
         | H : Threw _ = Returned _ |- _ => discriminate H
         | H1 : extern ?f ?a = _, H2 : extern ?f ?a = _ |- _ => rewrite H1 in H2
         | H1 : ?b = true, H2 : ?b = false |- _ => rewrite H1 in H2; discriminate H2
         end.

Ltac in_cases H :=
  simpl in H;
  repeat match type of H with
         | _ \/ _ => destruct H as [H|H]
         | False => destruct H
         | _ = _ => first [discriminate H | injection H as ?; subst]
         end;
  tidy.

(** X8: of the request body only the named properties reach the database.
    [registerUser] builds the document from [username], [email] and
    [password] and saves that document; [updateUserProfile] updates
    [username] and [email] only (with [new: true] and the password left out
    of the result), for the id of [req.user], so neither the password nor
    any other property of the body can be changed through it. *)
Theorem only_named_body_fields_reach_the_database (req : Req) :
  let username := field (body req) "username" in
  let email := field (body req) "email" in
  let password := field (body req) "password" in
  (forall fn args,
     In (Call fn args) (fst (registerUser extern TypeError req)) ->
     (fn = "new User" /\
      args = [JObj [("username", username); ("email", email);
                    ("password", password)]]) \/
     (fn = "user.save" /\
      extern "new User" [JObj [("username", username); ("email", email);
                               ("password", password)]] =
      Returned (hd JUndefined args))) /\
  (forall fn args,
     In (Call fn args) (fst (updateUserProfile extern TypeError req)) ->
     fn = "User.findByIdAndUpdate.select" /\
     args = [field (user req) "id";
             JObj [("username", username); ("email", email)];
             JObj [("new", JBool true)];
             JStr "-password"]).
Proof.
  cbv zeta. split; intros fn args; unfold_run;
    destruct (nullish (user req)) eqn:En;
    rewrite ?(field_nullish _ "id" En);
    crunch; intros H; in_cases H; auto.
Qed.

(** X9: [loginUser] signs a token only after [User.findOne] gave a user
    and [bcrypt.compare] accepted the candidate against that user's stored
    password; the token carries the user's [_id], is signed with
    [config.jwtSecret] and expires in one hour.  [bcrypt.compare] is not
    called without a user, and an unknown email and a wrong password get
    the same answer, 401 "Invalid email or password". *)
Theorem loginUser_signs_only_after_password_match (req : Req) :
  let t := fst (loginUser extern TypeError config req) in
  let email := field (body req) "email" in
  let password := field (body req) "password" in
  let lookup := extern "User.findOne" [JObj [("email", email)]] in
  let refusal :=
    [Status (num 401); Json (JObj [("message", JStr "Invalid email or password")])] in
  (forall args, In (Call "jwt.sign" args) t ->
     exists u same,
       lookup = Returned u /\ truthy u = true /\
       extern "bcrypt.compare" [password; field u "password"] = Returned same /\
       truthy same = true /\
       args = [JObj [("id", field u "_id")];
               JStr (Express.jwtSecret config);
               JObj [("expiresIn", JStr "1h")]]) /\
  (forall args, In (Call "bcrypt.compare" args) t ->
     exists u, lookup = Returned u /\ truthy u = true) /\
  (forall answer, In (Json answer) t ->
     (visible t = refusal) \/
     (exists args token,
        In (Call "jwt.sign" args) t /\ extern "jwt.sign" args = Returned token /\
        visible t = [Status (num 200);
                     Json (JObj [("message", JStr "Login successful");
                                 ("token", token)])])) /\
  (nullish (body req) = false ->
   forall u, lookup = Returned u ->
     match extern "bcrypt.compare" [password; field u "password"] with
     | Returned same =>
         truthy u && truthy same = false -> visible t = refusal
     | Threw _ => truthy u = false -> visible t = refusal
     end).
Proof.
  cbv zeta. repeat split.
  - intros args. unfold_run. crunch; intros H; in_cases H;
      do 2 eexists; repeat split; eauto.
  - intros args. unfold_run. crunch; intros H; in_cases H; eauto.
  - intros answer. unfold_run. crunch; intros H; in_cases H;
      first [ left; reflexivity
            | right; do 2 eexists; split; [|split]; [| eassumption |];
              [simpl; auto | reflexivity] ].
  - intros Hb u Hu. unfold_run. rewrite Hb, Hu. simpl.
    destruct (truthy u) eqn:Etu; simpl.
    + rewrite (truthy_not_nullish u Etu). simpl.
      destruct (extern "bcrypt.compare" _) as [same|e]; [|discriminate].
      intros ->. reflexivity.
    + destruct (extern "bcrypt.compare" _); intros _; reflexivity.
Qed.

(** X10: [getUserProfile] and [updateUserProfile] answer with what the
    query returned, the password excluded by the projection: 200 with the
    document when it is truthy, 404 "User not found" otherwise.  The id
    they look up is [req.user?.id], [undefined] when no user is attached. *)
Theorem profile_answers_come_from_the_projected_query (req : Req) :
  let userId := field (user req) "id" in
  (forall answer,
     In (Json answer) (fst (getUserProfile extern TypeError req)) ->
     exists found,
       extern "User.findById.select" [userId; JStr "-password"] = Returned found /\
       if truthy found
       then visible (fst (getUserProfile extern TypeError req)) =
              [Status (num 200); Json found]
       else visible (fst (getUserProfile extern TypeError req)) =
              [Status (num 404); Json (JObj [("message", JStr "User not found")])]) /\
  (forall answer,
     In (Json answer) (fst (updateUserProfile extern TypeError req)) ->
     exists found,
       extern "User.findByIdAndUpdate.select"
         [userId;
          JObj [("username", field (body req) "username");
                ("email", field (body req) "email")];
          JObj [("new", JBool true)];
          JStr "-password"] = Returned found /\
       if truthy found
       then visible (fst (updateUserProfile extern TypeError req)) =
              [Status (num 200);
               Json (JObj [("message", JStr "Profile updated successfully");
                           ("user", found)])]
       else visible (fst (updateUserProfile extern TypeError req)) =
              [Status (num 404); Json (JObj [("message", JStr "User not found")])]).
Proof.
  cbv zeta. split; intros answer; unfold_run;
    destruct (nullish (user req)) eqn:En;
    rewrite ?(field_nullish _ "id" En);
    crunch; intros H; in_cases H;
    eexists; (split; [first [eassumption | reflexivity]|]);
    match goal with
    | E : truthy _ = _ |- _ => rewrite E
    end; reflexivity.
Qed.

(** X11: [deleteUser] answers 200 "User deleted successfully" whenever
    [User.findByIdAndDelete] returns, whatever it returns (also [null],
    when no document matched) and also when no user is attached to the
    request (the id is then [undefined]); only an exception is forwarded. *)
Theorem deleteUser_confirms_whatever_was_deleted (req : Req) :
  let deletion := Call "User.findByIdAndDelete" [field (user req) "id"] in
  match extern "User.findByIdAndDelete" [field (user req) "id"] with
  | Returned _ =>
      fst (deleteUser extern TypeError req) =
      [deletion; Status (num 200);
       Json (JObj [("message", JStr "User deleted successfully")])]
  | Threw err =>
      fst (deleteUser extern TypeError req) = [deletion; Next (Some err)]
  end.
Proof.
  cbv zeta. unfold_run.
  destruct (nullish (user req)) eqn:En; simpl.
  - rewrite (field_nullish _ "id" En).
    destruct (extern _ _); reflexivity.
  - destruct (extern _ _); reflexivity.
Qed.

(** X12: the pre-save hook of the user model replaces the password by
    [bcrypt.hash(password, 10)] exactly when [isModified("password")] is
    truthy and changes no other property; it calls [next()] once, except
    when a call throws: then it throws without calling [next()]. *)
Theorem preSave_hashes_a_modified_password (this : list (string * js)) :
  let asked := Call "this.isModified" [JObj this; JStr "password"] in
  let hashing := Call "bcrypt.hash" [prop this "password"; num 10] in
  match extern "this.isModified" [JObj this; JStr "password"] with
  | Threw err => preSave extern this = ([asked], Threw err)
  | Returned modified =>
      if truthy modified
      then
        match extern "bcrypt.hash" [prop this "password"; num 10] with
        | Returned hash =>
            exists this',
              preSave extern this = ([asked; hashing; Next None], Returned this') /\
              prop this' "password" = hash /\
              (forall k, k <> "password" -> prop this' k = prop this k)
        | Threw err => preSave extern this = ([asked; hashing], Threw err)
        end
      else preSave extern this = ([asked; Next None], Returned this)
  end.
Proof.
  cbv zeta. unfold_run.
  destruct (extern "this.isModified" _) as [modified|err]; simpl; [|reflexivity].
  destruct (truthy modified); simpl; [|reflexivity].
  destruct (extern "bcrypt.hash" _) as [hash|err]; simpl; [|reflexivity].
  eexists. split; [reflexivity|]. split.
  - apply prop_assign_same.
  - intros k Hk. apply prop_assign_other. exact Hk.
Qed.

(** X13: after the pre-save hook ran on a document with a modified
    password, [comparePassword] on the saved document checks the candidate
    against the hash [bcrypt.hash] returned, never against the plain
    password: its only call is [bcrypt.compare(candidate, hash)] and its
    result is that call's. *)
Theorem saved_password_is_checked_against_its_hash
    (this : list (string * js)) (modified hash : js) :
  extern "this.isModified" [JObj this; JStr "password"] = Returned modified ->
  truthy modified = true ->
  extern "bcrypt.hash" [prop this "password"; num 10] = Returned hash ->
  exists saved,
    snd (preSave extern this) = Returned saved /\
    forall candidate,
      comparePassword extern TypeError (JObj saved) candidate =
      ([Call "bcrypt.compare" [candidate; hash]],
       extern "bcrypt.compare" [candidate; hash]).
Proof.
  intros Hm Ht Hh. unfold_run. rewrite Hm. simpl. rewrite Ht, Hh. simpl.
  eexists. split; [reflexivity|].
  intros candidate. simpl. unfold field. rewrite prop_assign_same. reflexivity.
Qed.


(** X14: [notFoundHandler] answers nothing itself: it forwards the error
    [createError(404, "Not Found")]; given the status and message that
    error carries, [errorHandler] answers it with status 404 and message
    "Not Found". *)
Theorem notFound_is_answered_with_404 (err : list (string * js)) :
  extern "createError" [num 404; JStr "Not Found"] = Returned (JObj err) ->
  prop err "status" = num 404 ->
  prop err "message" = JStr "Not Found" ->
  exists forwarded,
    notFoundHandler extern =
      ([Call "createError" [num 404; JStr "Not Found"]; Next (Some forwarded)],
       Returned tt) /\
    visible (fst (errorHandler TypeError forwarded)) =
      [Log "error" [prop err "stack"];
       Status (num 404);
       Json (JObj [("status", JStr "error"); ("statusCode", num 404);
                   ("message", JStr "Not Found")])].
Proof.
  intros He Hs Hm. exists (JObj err). unfold_run. rewrite He. simpl.
  rewrite Hs, Hm. split; reflexivity.
Qed.

Lemma log_event_cases (event : js) :
  log_event TypeError text event =
  if nullish event then ([], Threw TypeError)
  else if existsb (is_string (field event "type")) subscription_events
  then
    if nullish (field event "data") then ([], Threw TypeError)
    else if nullish (field (field event "data") "object") then ([], Threw TypeError)
    else ([Log "log" [JStr ("Subscription status is " +:+
             text (field (field (field event "data") "object") "status") +:+ ".")]],
          Returned tt)
  else if is_string (field event "type")
            "entitlements.active_entitlement_summary.updated"
  then
    if nullish (field event "data") then ([], Threw TypeError)
    else ([Log "log" [JStr ("Active entitlement summary updated for " +:+
             text (field (field event "data") "object") +:+ ".")]],
          Returned tt)
  else ([Log "log" [JStr ("Unhandled event type " +:+
           text (field event "type") +:+ ".")]],
        Returned tt).
Proof.
  unfold log_event, get, bind, perform, ret, throw.
  destruct (nullish event); [reflexivity|]. cbv beta iota.
  destruct (existsb (is_string (field event "type")) subscription_events).
  - destruct (nullish (field event "data")); [reflexivity|]. cbv beta iota.
    destruct (nullish (field (field event "data") "object")); reflexivity.
  - destruct (is_string (field event "type") _); [|reflexivity].
    destruct (nullish (field event "data")); reflexivity.
Qed.

(** X15: [handleWebhook] first verifies the signature, with the raw body,
    the [stripe-signature] header and the fixed secret, and makes no other
    call.  When verification throws an error it logs and answers 400 and
    does not look at the event; otherwise it handles the verified event
    (not the request body), logs one line and then sends the default
    answer; an event type outside the five known ones is logged as
    unhandled. *)
Theorem handleWebhook_verifies_before_it_answers (request : Req) :
  let verification :=
    Call "stripe.webhooks.constructEvent"
      [body request; header request "stripe-signature"; JStr "whsec_12345"] in
  let t := fst (handleWebhook extern TypeError text request) in
  (exists rest, t = verification :: rest /\ calls rest = [] /\ length (bodies rest) <= 1) /\
  match extern "stripe.webhooks.constructEvent"
          [body request; header request "stripe-signature"; JStr "whsec_12345"] with
  | Threw err =>
      if nullish err
      then handleWebhook extern TypeError text request = ([verification], Threw TypeError)
      else handleWebhook extern TypeError text request =
             ([verification;
               Log "log" [JStr "⚠️  Webhook signature verification failed.";
                          field err "message"];
               SendStatus 400],
              Returned tt)
  | Returned event =>
      handleWebhook extern TypeError text request =
        (let (l, r) := log_event TypeError text event in
         (verification :: l ++ match r with Returned _ => [Send] | Threw _ => [] end,
          r)) /\
      (snd (handleWebhook extern TypeError text request) = Returned tt ->
       exists line, t = [verification; Log "log" [JStr line]; Send]) /\
      (nullish event = false ->
       existsb (is_string (field event "type"))
         ("entitlements.active_entitlement_summary.updated" :: subscription_events)
       = false ->
       t = [verification;
            Log "log" [JStr ("Unhandled event type " +:+ text (field event "type") +:+ ".")];
            Send])
  end.
Proof.
  cbv zeta. unfold handleWebhook, endpointSecret. simpl truthy. cbv iota.
  unfold try_catch, call.
  destruct (extern "stripe.webhooks.constructEvent" _) as [event|err].
  - cbn -[log_event existsb].
    change (existsb (is_string (field event "type"))
              ("entitlements.active_entitlement_summary.updated" :: subscription_events))
      with (is_string (field event "type")
              "entitlements.active_entitlement_summary.updated"
            || existsb (is_string (field event "type")) subscription_events).
    rewrite !log_event_cases.
    destruct (nullish event),
      (existsb (is_string (field event "type")) subscription_events),
      (is_string (field event "type")
         "entitlements.active_entitlement_summary.updated"),
      (nullish (field event "data")),
      (nullish (field (field event "data") "object"));
      simpl;
      (split; [eexists; repeat split; first [reflexivity | simpl; lia]|]);
      (split; [reflexivity|]);
      (split; [first [discriminate | intros _; eexists; reflexivity]|]);
      intros; first [discriminate | reflexivity].
  - unfold get, bind, perform, ret, throw.
    destruct (nullish err); simpl;
      (split; [eexists; repeat split; first [reflexivity | simpl; lia] | reflexivity]).
Qed.


Variable verify : string -> string -> Express.completion js.
Variable findOne : js -> Express.completion (option js).

Ltac unfold_auth :=
  unfold run_chain, chain, controller, authMiddleware, Express.handled,
    Express.authMiddleware, Express.try_catch, Express.respond_401,
    Express.next, Express.seq, Express.perform, Express.lift.

Ltac auth_cases req :=
  destruct (Jinja.assoc "authorization" (headers req)) as [header|]; simpl;
  [ destruct (String.eqb (Express.replace_first "Bearer " "" header) ""); simpl;
    [ | destruct (verify (Express.replace_first "Bearer " "" header)
                    (Express.jwtSecret config)) as [decoded|]; simpl;
        [ destruct (findOne decoded) as [[u|]|]; simpl | ] ]
  | ].

(** X16: on the three [/profile] routes the controller runs only after
    [authMiddleware] attached a user and called [next()], and it then sees
    that user as [req.user]; otherwise the answer is the middleware's 401
    and no controller action happens.  [/register] and [/login] run their
    controller without the middleware. *)
Theorem profile_routes_require_authentication (req : Req) :
  let auth :=
    Express.handled js js verify findOne true (Express.jwtSecret config)
      {| Express.authorization := Jinja.assoc "authorization" (headers req) |} in
  Forall (fun r =>
    let t := run_chain (chain r) req in
    if String.eqb (path r) "/profile"
    then
      (In Express.CallNext auth ->
       exists u c,
         auth = [Express.AttachUser u; Express.CallNext] /\
         In c [getUserProfile extern TypeError;
               updateUserProfile extern TypeError;
               deleteUser extern TypeError] /\
         t = Next None :: fst (c (with_user u req))) /\
      (~ In Express.CallNext auth ->
       exists msg, t = [Status (num 401); Json (JObj [("error", JStr msg)])])
    else
      exists c, chain r = [controller c] /\ t = fst (c req))
    (userRoutes extern TypeError config verify findOne).
Proof.
  cbv zeta. unfold userRoutes.
  repeat (apply List.Forall_cons || apply List.Forall_nil); cbn [path String.eqb Ascii.eqb Bool.eqb].
  - eexists. split; [reflexivity|]. unfold run_chain, chain, controller.
    destruct (hands_over _); rewrite ?app_nil_r; reflexivity.
  - eexists. split; [reflexivity|]. unfold run_chain, chain, controller.
    destruct (hands_over _); rewrite ?app_nil_r; reflexivity.
  - unfold_auth. auth_cases req; split;
      try (intros [H|[H|[]]]; discriminate H);
      try (intros _; eexists; reflexivity);
      try (intros H; exfalso; apply H; simpl; tauto).
    intros _. exists u. eexists. split; [reflexivity|]. split; [left; reflexivity|].
    destruct (hands_over _); rewrite ?app_nil_r; reflexivity.
  - unfold_auth. auth_cases req; split;
      try (intros [H|[H|[]]]; discriminate H);
      try (intros _; eexists; reflexivity);
      try (intros H; exfalso; apply H; simpl; tauto).
    intros _. exists u. eexists. split; [reflexivity|].
    split; [right; left; reflexivity|].
    destruct (hands_over _); rewrite ?app_nil_r; reflexivity.
  - unfold_auth. auth_cases req; split;
      try (intros [H|[H|[]]]; discriminate H);
      try (intros _; eexists; reflexivity);
      try (intros H; exfalso; apply H; simpl; tauto).
    intros _. exists u. eexists. split; [reflexivity|].
    split; [right; right; left; reflexivity|].
    destruct (hands_over _); rewrite ?app_nil_r; reflexivity.
Qed.


(** X17: when thrown values are errors to the platform (truthy, as error
    objects are, and not one of the signals ['route'] and ['router']), the
    application sends exactly one JSON answer with a truthy status for a
    request on any of the five user routes: the controller's, the
    middleware's 401, or [errorHandler]'s for a forwarded error. *)
Theorem app_answers_every_user_request (req : Req) :
  is_error TypeError = true ->
  (forall fn args err, extern fn args = Threw err -> is_error err = true) ->
  Forall (fun r =>
    let t := app TypeError r req in
    exists code body,
      statuses t = [Status code] /\ bodies t = [Json body] /\
      truthy code = true)
    (userRoutes extern TypeError config verify findOne).
Proof.
  intros Herror Hthrown. unfold userRoutes.
  pose proof (proj1 (andb_prop _ _ Herror)) as Htype.
  assert (Hthrow : forall fn args err, extern fn args = Threw err -> truthy err = true)
    by (intros fn args err H; exact (proj1 (andb_prop _ _ (Hthrown fn args err H)))).
  assert (Hnull : nullish TypeError = false) by (apply truthy_not_nullish, Htype).
  repeat (apply List.Forall_cons || apply List.Forall_nil); cbv zeta;
    unfold app; unfold_auth; unfold_run;
    try (auth_cases req);
    repeat (simpl;
            match goal with
            | |- context [is_error TypeError] => rewrite Herror
            | H : extern ?f ?a = Threw ?e |- context [is_error ?e] =>
                rewrite (Hthrown f a e H)
            | |- context [truthy TypeError] => rewrite Htype
            | |- context [nullish TypeError] => rewrite Hnull
            | H : extern ?f ?a = Threw ?e |- context [truthy ?e] =>
                rewrite (Hthrow f a e H)
            | H : extern ?f ?a = Threw ?e |- context [nullish ?e] =>
                rewrite (truthy_not_nullish e (Hthrow f a e H))
            | |- context [extern ?f ?a] => destruct (extern f a) eqn:?
            | H : truthy ?v = true |- context [nullish ?v] =>
                rewrite (truthy_not_nullish v H)
            | |- context [nullish ?v] => destruct (nullish v) eqn:?
            | |- context [if negb ?b then _ else _] => destruct b eqn:?
            | |- context [if ?b then _ else _] => destruct b eqn:?
            end);
    simpl;
    do 2 eexists; (split; [reflexivity|]); (split; [reflexivity|]);
    first [reflexivity | apply truthy_or_else; reflexivity].
Qed.

(** X18: once the configuration module has loaded, the server's
    [config.port || 3000] is [config.port]: the exported port is never
    falsy, so the second fallback never applies, and the port listened on
    differs from [Number(process.env.PORT)] only by being 3000. *)
Theorem server_listens_on_config_port (Number : string -> Express.JsNumber)
    (dotenv_config : gmap string string -> gmap string string)
    (process_env : gmap string string) (c : Express.Config) :
  Express.load Number dotenv_config process_env = Express.Exported c ->
  PORT c = Express.port c /\
  Express.falsy_number (PORT c) = false /\
  (PORT c <> Express.NumberOf Number (dotenv_config process_env !! "PORT") ->
   PORT c = Express.Int 3000).
Proof.
  unfold Express.load, PORT.
  destruct (Express.truthy_var (_ !! "PORT")); [|discriminate].
  destruct (Express.truthy_var (_ !! "MONGODB_URI")); [|discriminate].
  destruct (Express.truthy_var (_ !! "JWT_SECRET")); [|discriminate].
  simpl. intros [= <-]. simpl. unfold Express.or_number.
  destruct (Express.falsy_number (Express.NumberOf Number _)) eqn:E; simpl.
  - split; [reflexivity|]. split; [reflexivity|]. intros _. reflexivity.
  - rewrite E. split; [reflexivity|]. split; [exact E|]. congruence.
Qed.

End WithProject.

Lemma saved_password_is_checked_against_its_hash_witness :
  let extern := fun (fn : string) (args : list js) =>
    if String.eqb fn "bcrypt.hash" then Returned (JStr "$2b$10$hash")
    else Returned (JBool true) in
  exists saved,
    snd (preSave extern [("email", JStr "a@b.c"); ("password", JStr "secret")]) =
      Returned saved /\
    forall candidate,
      comparePassword extern JNull (JObj saved) candidate =
      ([Call "bcrypt.compare" [candidate; JStr "$2b$10$hash"]],
       extern "bcrypt.compare" [candidate; JStr "$2b$10$hash"]).
Proof.
  cbv zeta.
  apply (saved_password_is_checked_against_its_hash
           (fun fn args =>
              if String.eqb fn "bcrypt.hash" then Returned (JStr "$2b$10$hash")
              else Returned (JBool true))
           JNull
           [("email", JStr "a@b.c"); ("password", JStr "secret")]
           (JBool true) (JStr "$2b$10$hash"));
    reflexivity.
Defined.

Lemma notFound_is_answered_with_404_witness :
  let err := [("status", num 404); ("message", JStr "Not Found");
              ("stack", JStr "NotFoundError: Not Found")] in
  exists forwarded,
    notFoundHandler (fun _ _ => Returned (JObj err)) =
      ([Call "createError" [num 404; JStr "Not Found"]; Next (Some forwarded)],
       Returned tt) /\
    visible (fst (errorHandler JNull forwarded)) =
      [Log "error" [JStr "NotFoundError: Not Found"];
       Status (num 404);
       Json (JObj [("status", JStr "error"); ("statusCode", num 404);
                   ("message", JStr "Not Found")])].
Proof.
  cbv zeta.
  apply (notFound_is_answered_with_404 (fun _ _ => Returned (JObj _)) JNull
           [("status", num 404); ("message", JStr "Not Found");
            ("stack", JStr "NotFoundError: Not Found")]);
    reflexivity.
Defined.

Lemma app_answers_every_user_request_witness :
  let extern := fun (fn : string) (args : list js) =>
    if String.eqb fn "User.findOne"
    then Threw (JObj [("message", JStr "connection lost")])
    else Returned JNull in
  let TypeError := JObj [("message", JStr "Cannot read properties of undefined")] in
  let config := {| Express.port := Express.Int 3000;
                   Express.mongodbUri := "mongodb://db/app";
                   Express.jwtSecret := "s3cret";
                   Express.domain := "http://localhost:8080" |} in
  let req := {| headers := []; body := JUndefined; user := JUndefined |} in
  Forall (fun r =>
    let t := app TypeError r req in
    exists code body,
      statuses t = [Status code] /\ bodies t = [Json body] /\
      truthy code = true)
    (userRoutes extern TypeError config
       (fun _ _ => Express.Thrown) (fun _ => Express.Normal None)).
Proof.
  cbv zeta.
  apply (app_answers_every_user_request
           (fun fn _ =>
              if String.eqb fn "User.findOne"
              then Threw (JObj [("message", JStr "connection lost")])
              else Returned JNull)
           (JObj [("message", JStr "Cannot read properties of undefined")])).
  - reflexivity.
  - intros fn args err H. cbv beta in H.
    destruct (String.eqb fn "User.findOne"); [|discriminate H].
    injection H as H. subst err. reflexivity.
Defined.

Lemma server_listens_on_config_port_witness :
  exists c,
    Express.load Express.Number_of_digits (fun env => env)
      {[ "PORT" := "0"; "MONGODB_URI" := "mongodb://db/app";
         "JWT_SECRET" := "s3cret" ]} = Express.Exported c /\
    PORT c = Express.Int 3000.
Proof.
  eexists. split; [vm_compute; reflexivity|].
  apply (server_listens_on_config_port Express.Number_of_digits (fun env => env)
           {[ "PORT" := "0"; "MONGODB_URI" := "mongodb://db/app";
              "JWT_SECRET" := "s3cret" ]}).
  - vm_compute. reflexivity.
  - vm_compute. discriminate.
Defined.

End HandlerProperties.

(** ** The other templates *)

Module MoreTemplateProperties.
Import Text Jinja Templates Schema Rendered RenderedMore JinjaFacts TemplateFacts TemplateClaims.

#[local] Arguments lines : simpl never.
#[local] Arguments String.append : simpl never.
#[local] Arguments lower : simpl never.

Lemma model_ts_Renders c m :
  Renders (model_ctx c m) model_ts (model_ts_out m).
Proof.
  unfold model_ts, model_ctx, model_ts_out, model_ts_header.
  destruct (auth (model_flags m)) eqn:Ea;
    (eapply Renders_eq; [repeat render_step | reflexivity]).
Qed.

Lemma design_route_Renders m routes :
  Renders (route_ctx m routes) design_route (design_route_out m routes).
Proof.
  unfold design_route, route_ctx, design_route_out.
  destruct (auth (model_flags m)) eqn:Ea;
    (eapply Renders_eq;
     [ repeat lazymatch goal with
              | |- Renders _ (TFor _ _ _ _) _ => fail
              | _ => render_step
              end;
       eapply R_for;
       [ eval_now
       | cbn; rewrite ?map_map; reflexivity
       | eapply (RendersEach_map _ (route_block m)); intros r _; eexists;
         split; [cbn; reflexivity|];
         unfold route_block;
         destruct (route_requiresAuth r) eqn:Er;
         (eapply Renders_eq; [repeat render_step | reflexivity])
       | repeat render_step ]
     | reflexivity ]).
Qed.


Lemma subs_app a b : subs (a ++ b) = subs a ++ subs b.
Proof. unfold subs. apply flat_map_app. Qed.

Lemma subs_Lit s l : subs (Lit s :: l) = subs l.
Proof. reflexivity. Qed.

Lemma subs_Sub s l : subs (Sub s :: l) = s :: subs l.
Proof. reflexivity. Qed.

(** X19: the first model template renders for every model and writes the
    same text whatever the storage backend: always the mongoose import and
    schema, never the Firestore import or class; the bcrypt import exactly
    when [model.features.auth] holds. *)
Theorem first_model_template_is_mongoose_only (c : Config) (m : Model) :
  exists out,
    render_chunks model_ts (model_ctx c m) = Ok out /\
    render model_ts (model_ctx c m) = Ok (text_of out) /\
    (forall c', render model_ts (model_ctx c' m) = Ok (text_of out)) /\
    In (Lit model_ts_header) out /\
    containsb "import mongoose, { Document, Model } from" (text_of out) = true /\
    In (Lit mongoose_schema_open) out /\
    ~ In (Lit firestore_open) out /\
    ~ In (Lit firestore_import) out /\
    (In (Lit bcrypt_import) out <-> auth (model_flags m) = true).
Proof.
  exists (model_ts_out m).
  split; [apply Renders_sound, model_ts_Renders|].
  split; [apply render_text, Renders_sound, model_ts_Renders|].
  split; [intros c'; apply render_text, Renders_sound, model_ts_Renders|].
  split; [left; reflexivity|].
  split; [apply (containsb_text_of _ (Lit model_ts_header)); [left|]; reflexivity|].
  unfold model_ts_out.
  destruct (auth (model_flags m));
    repeat split;
    try (intros; first [assumption | discriminate | find_lit]);
    try (let H := fresh "Hin" in intros H; exfalso; chunk_cases H).
Qed.

(** X20: under the ['MONGO_DB'] backend, [modelv3.ts.jinja] substitutes
    the same values in the same order as the first model template, and
    both write the same blocks for the fields, the method signatures, the
    schema entries, the hooks and the method bodies: the two outputs differ
    in template text only. *)
Theorem modelv3_mongo_substitutes_like_model_ts (c : Config) (m : Model) :
  storage_backend c = "MONGO_DB" ->
  exists out1 out3,
    render_chunks model_ts (model_ctx c m) = Ok out1 /\
    render_chunks modelv3_ts (model_ctx c m) = Ok out3 /\
    subs out3 = subs out1 /\
    Forall (fun B => has_block B out1 /\ has_block B out3)
      [flat_map field_decl (model_fields m);
       flat_map method_sig (model_methods m);
       flat_map field_schema (model_fields m);
       flat_map (hook_block m) (model_hooks m);
       flat_map (method_impl m) (model_methods m)].
Proof.
  intros Em. exists (model_ts_out m), (modelv3_out c m).
  split; [apply Renders_sound, model_ts_Renders|].
  split; [apply modelv3_renders|].
  unfold modelv3_out, model_ts_out, mongoose_definition, is_mongo.
  rewrite Em. cbn [String.eqb Ascii.eqb Bool.eqb andb].
  split.
  - destruct (auth (model_flags m));
      repeat (rewrite ?subs_app, ?subs_Lit, ?subs_Sub; cbn [app]);
      rewrite <- ?app_assoc; reflexivity.
  - destruct (auth (model_flags m));
      repeat (apply List.Forall_cons || apply List.Forall_nil);
      split; find_block.
Qed.

Lemma modelv3_mongo_substitutes_like_model_ts_witness :
  exists out1 out3,
    render_chunks model_ts (model_ctx Examples.mongo Examples.user) = Ok out1 /\
    render_chunks modelv3_ts (model_ctx Examples.mongo Examples.user) = Ok out3 /\
    subs out3 = subs out1.
Proof.
  destruct (modelv3_mongo_substitutes_like_model_ts Examples.mongo Examples.user
              eq_refl) as (out1 & out3 & H1 & H3 & Hs & _).
  exists out1, out3. auto.
Defined.

(** X21: the route template puts [authMiddleware] into a route's handler
    list exactly when that route's [requiresAuth] holds, but imports it
    only when [model.features.auth] holds; so for a model without the flag
    and a route that requires authentication the output refers to
    [authMiddleware] and does not import it.  The output is
    [design_route_out]: of the template's text in it, only the first chunk
    and the import of the middleware hold an [import], and only that import
    and the handler entry mention [authMiddleware].  For "Item" and a route
    that requires authentication the text lists [authMiddleware] among the
    handlers and holds no import of it. *)
Theorem route_template_guards_each_route_by_its_own_flag
    (m : Model) (routes : list RouteSpec) :
  exists out,
    render_chunks design_route (route_ctx m routes) = Ok out /\
    render design_route (route_ctx m routes) = Ok (text_of out) /\
    out = design_route_out m routes /\
    (In (Lit auth_import) out <-> auth (model_flags m) = true) /\
    (In (Lit auth_use) out <->
       exists r, In r routes /\ route_requiresAuth r = true) /\
    (forall r, In r routes -> has_block (route_block m r) out) /\
    (forall s, In (Lit s) out -> containsb "import" s = true ->
       s = lines ["// templates/express/routes/route.ts.jinja";
                  "import express from " +:+ dq +:+ "express" +:+ dq +:+ ";";
                  "import * as "] \/
       (auth (model_flags m) = true /\ s = auth_import)) /\
    (forall s, In (Lit s) out -> containsb "authMiddleware" s = true ->
       (auth (model_flags m) = true /\ s = auth_import) \/
       (s = auth_use /\ exists r, In r routes /\ route_requiresAuth r = true)) /\
    (auth (model_flags m) = false ->
     (exists r, In r routes /\ route_requiresAuth r = true) ->
     ~ In (Lit auth_import) out /\
     containsb "    authMiddleware" (text_of out) = true) /\
    exists text,
      render design_route (route_ctx Examples.item [Examples.guarded_route]) = Ok text /\
      containsb (lines ["router.get("; "    " +:+ dq +:+ "/" +:+ dq +:+ ",";
                        "    authMiddleware,"; "    itemController.list"])
        text = true /\
      containsb "import authMiddleware" text = false /\
      containsb "middleware/authMiddleware" text = false.
Proof.
  exists (design_route_out m routes).
  split; [apply Renders_sound, design_route_Renders|].
  split; [apply render_text, Renders_sound, design_route_Renders|].
  split; [reflexivity|].
  assert (Huse : In (Lit auth_use) (design_route_out m routes) <->
                 exists r, In r routes /\ route_requiresAuth r = true).
  { unfold design_route_out. split.
    - intros H. destruct (auth (model_flags m)); chunk_cases H.
      all: match goal with
           | Hr : In ?r _, Hb : In _ (if route_requiresAuth ?r then _ else _) |- _ =>
               exists r; split; [exact Hr|];
               destruct (route_requiresAuth r); [reflexivity|];
               exfalso; chunk_cases Hb
           end.
    - intros (r & Hr & Hreq).
      do 5 right. apply in_or_app. right. right. apply in_or_app. left.
      apply in_flat_map. exists r. split; [exact Hr|].
      unfold route_block. rewrite Hreq. find_lit. }
  assert (Himp : In (Lit auth_import) (design_route_out m routes) <->
                 auth (model_flags m) = true).
  { unfold design_route_out. destruct (auth (model_flags m)); split; intros H;
      first [reflexivity | find_lit | discriminate H | exfalso ].
    chunk_cases H.
    match goal with
    | Hb : In _ (if route_requiresAuth ?r then _ else _) |- _ =>
        destruct (route_requiresAuth r); chunk_cases Hb
    end. }
  split; [exact Himp|]. split; [exact Huse|]. split.
  { intros r Hr. unfold design_route_out.
    do 5 apply has_block_cons. apply has_block_app_r, has_block_cons, has_block_app_l.
    apply (has_block_flat_map (route_block m)). exact Hr. }
  split.
  { intros s H Hc. unfold design_route_out in H.
    destruct (auth (model_flags m)) eqn:Ea; lit_cases H;
      try (match goal with
           | Hb : In _ (if route_requiresAuth ?r then _ else _) |- _ =>
               destruct (route_requiresAuth r); lit_cases Hb
           end);
      first [ left; reflexivity
            | right; split; reflexivity
            | vm_compute in Hc; discriminate Hc ]. }
  split.
  { intros s H Hc. unfold design_route_out in H.
    destruct (auth (model_flags m)) eqn:Ea; lit_cases H;
      try (match goal with
           | Hr : In ?r _, Hb : In _ (if route_requiresAuth ?r then _ else _) |- _ =>
               destruct (route_requiresAuth r) eqn:Er; lit_cases Hb
           end);
      first [ left; split; reflexivity
            | right; split; [reflexivity | eexists; split; eassumption]
            | vm_compute in Hc; discriminate Hc ]. }
  split.
  { intros Ea Hex. split.
    + rewrite Himp, Ea. discriminate.
    + apply (containsb_text_of _ (Lit auth_use)); [|reflexivity].
      apply Huse. exact Hex. }
  eexists. split; [vm_compute; reflexivity|].
  split; [vm_compute; reflexivity|]. split; vm_compute; reflexivity.
Qed.


Lemma flat_map_through {A B C : Type} (p : A -> B) (g : A -> list C) (l l' : list A) :
  (forall a b, p a = p b -> g a = g b) ->
  map p l = map p l' -> flat_map g l = flat_map g l'.
Proof.
  intros Hg. revert l'. induction l as [|a l IH]; intros [|b l'] H;
    try discriminate H; [reflexivity|].
  injection H as Hab Hl. simpl. rewrite (Hg a b Hab), (IH l' Hl). reflexivity.
Qed.

(** X24: under every backend but ['MONGO_DB'], [modelv3.ts.jinja] reads of a
    model only its name, its authentication flag, its methods and the name
    and type of its fields: the hooks the model declares and the schema
    type and options of its fields leave the output unchanged, and no hook
    block is written. *)
Theorem firestore_output_ignores_hooks (c : Config) (m m' : Model) :
  storage_backend c <> "MONGO_DB" ->
  model_name m = model_name m' ->
  auth (model_flags m) = auth (model_flags m') ->
  model_methods m = model_methods m' ->
  map (fun f => (field_name f, field_type f)) (model_fields m) =
  map (fun f => (field_name f, field_type f)) (model_fields m') ->
  render modelv3_ts (model_ctx c m) = render modelv3_ts (model_ctx c m') /\
  exists out,
    render_chunks modelv3_ts (model_ctx c m) = Ok out /\
    ~ In (Lit hook_open) out /\
    forall h, ~ has_block (hook_block m h) out.
Proof.
  intros Em Hn Ha Hm Hf.
  assert (Hout : modelv3_out c m = modelv3_out c m').
  { unfold modelv3_out, firestore_class, is_mongo.
    destruct (String.eqb_spec (storage_backend c) "MONGO_DB") as [E|_];
      [contradiction|].
    rewrite Hn, Ha, Hm.
    rewrite (flat_map_through (fun f => (field_name f, field_type f)) field_decl _ _
               ltac:(intros a b H; simpl in H; injection H as H1 H2;
                      unfold field_decl; rewrite H1, H2; reflexivity) Hf).
    rewrite (flat_map_through (fun f => (field_name f, field_type f)) field_assign _ _
               ltac:(intros a b H; simpl in H; injection H as H1 H2;
                      unfold field_assign; rewrite H1; reflexivity) Hf).
    reflexivity. }
  split.
  { rewrite (render_text _ _ _ (modelv3_renders c m)),
            (render_text _ _ _ (modelv3_renders c m')), Hout. reflexivity. }
  exists (modelv3_out c m). split; [apply modelv3_renders|].
  assert (Hno : ~ In (Lit hook_open) (modelv3_out c m)).
  { unfold modelv3_out, is_mongo, is_firebase.
    destruct (String.eqb_spec (storage_backend c) "MONGO_DB") as [E|_];
      [contradiction|].
    destruct (String.eqb (storage_backend c) "FIREBASE"),
      (auth (model_flags m));
      (let H := fresh "Hin" in intros H; chunk_cases H). }
  split; [exact Hno|].
  intros h (pre & post & E). apply Hno. rewrite E.
  apply in_or_app. right. apply in_or_app. left.
  unfold hook_block. do 4 right. left. reflexivity.
Qed.

Lemma firestore_output_ignores_hooks_witness :
  let firebase := {| storage_backend := "FIREBASE"; auth_mode := "jwt"; cors := false |} in
  let hashing := {| hook_event := "save";
                    hook_description := "Hash the password";
                    hook_implementation := "this.password = await bcrypt.hash(this.password, 10);" |} in
  let hooked := {| model_name := "User";
                   model_fields := model_fields Examples.user;
                   model_methods := [];
                   model_hooks := [hashing];
                   model_relations := [];
                   model_flags := model_flags Examples.user |} in
  render modelv3_ts (model_ctx firebase hooked) =
  render modelv3_ts (model_ctx firebase Examples.user).
Proof.
  cbv zeta.
  apply (firestore_output_ignores_hooks
           {| storage_backend := "FIREBASE"; auth_mode := "jwt"; cors := false |});
    first [reflexivity | discriminate].
Defined.

End MoreTemplateProperties.

(** ** The generator of the design notes *)

Module GeneratorProperties.
Import Text Generator.

Section WithGenerator.
Variable Error : Type.
Variable Model : Type.
Variable render : string -> Model -> Result Error string.
Variable write_file : string -> string -> Result Error unit.
Variable output_dir : string.
Variable to_lowercase : string -> string.


Lemma lower_char_slash a : Text.lower_char a = "/"%char -> a = "/"%char.
Proof.
  intros H.
  destruct a as [[] [] [] [] [] [] [] []]; vm_compute in H; try discriminate H;
    reflexivity.
Qed.

(** X22: [generate_models] of the design notes writes as it goes and
    rolls nothing back.  When it succeeds it has written one file per
    model, in the order of the visit; when rendering or writing fails for
    a model it returns that error, the files of the models visited before
    stay written, and no later model is rendered or written. *)
Theorem generate_models_keeps_what_it_wrote (models : list (string * Model)) :
  match snd (generate_models render write_file output_dir to_lowercase models) with
  | Success _ =>
      omap (generated render write_file output_dir to_lowercase) models = fst (generate_models render write_file output_dir to_lowercase models) /\
      length (fst (generate_models render write_file output_dir to_lowercase models)) = length models
  | Failure e =>
      exists before name model after,
        models = before ++ (name, model) :: after /\
        Forall (fun entry => generated render write_file output_dir to_lowercase entry <> None) before /\
        generated render write_file output_dir to_lowercase (name, model) = None /\
        ((render "model.ts.jinja" model = Failure e /\
          fst (generate_models render write_file output_dir to_lowercase models) = omap (generated render write_file output_dir to_lowercase) before) \/
         (exists content,
            render "model.ts.jinja" model = Success content /\
            write_file (model_path output_dir to_lowercase name) content = Failure e /\
            fst (generate_models render write_file output_dir to_lowercase models) =
              omap (generated render write_file output_dir to_lowercase) before ++ [(model_path output_dir to_lowercase name, content)]))
  end.
Proof.
  induction models as [|[name model] rest IH].
  - split; reflexivity.
  - cbn [Generator.generate_models].
    destruct (render "model.ts.jinja" model) as [content|e] eqn:Er.
    + destruct (write_file (model_path output_dir to_lowercase name) content) as [[]|e] eqn:Ew.
      * assert (Hg : generated render write_file output_dir to_lowercase (name, model) = Some (model_path output_dir to_lowercase name, content)).
        { unfold Generator.generated. cbn [fst snd]. rewrite Er, Ew. reflexivity. }
        destruct (generate_models render write_file output_dir to_lowercase rest) as [written result] eqn:Eg.
        cbn [fst snd] in *. destruct result as [[]|e].
        -- destruct IH as [IH1 IH2]. split.
           ++ cbn [omap list_omap]. rewrite Hg. cbn. f_equal. exact IH1.
           ++ cbn. f_equal. exact IH2.
        -- destruct IH as (before & n & d & after & -> & Hb & Hn & Hcase).
           exists ((name, model) :: before), n, d, after.
           split; [reflexivity|]. split.
           { apply List.Forall_cons; [rewrite Hg; discriminate | exact Hb]. }
           split; [exact Hn|].
           destruct Hcase as [[Hr ->]|(c & Hr & Hw & ->)].
           ++ left. split; [exact Hr|]. cbn [omap list_omap]. rewrite Hg. reflexivity.
           ++ right. exists c. split; [exact Hr|]. split; [exact Hw|].
              cbn [omap list_omap]. rewrite Hg. reflexivity.
      * cbn [fst snd]. exists [], name, model, rest.
        split; [reflexivity|]. split; [constructor|]. split.
        { unfold Generator.generated. cbn [fst snd]. rewrite Er, Ew. reflexivity. }
        right. exists content. split; [exact Er|]. split; [exact Ew|]. reflexivity.
    + cbn [fst snd]. exists [], name, model, rest.
      split; [reflexivity|]. split; [constructor|]. split.
      { unfold Generator.generated. cbn [fst snd]. rewrite Er. reflexivity. }
      left. split; [exact Er | reflexivity].
Qed.

Lemma is_absolute_app s t : is_absolute s = true -> is_absolute (s +:+ t) = true.
Proof. apply JinjaFacts.prefixb_app. Qed.

Lemma prefixb_refl s : prefixb s s = true.
Proof. induction s as [|c s IH]; cbn [prefixb]; rewrite ?Ascii.eqb_refl; auto. Qed.

(** X23: the file of a model is addressed by its lower-cased name alone.
    Names with the same lower-case form give the same path, so the later
    write replaces the earlier; a name that is an absolute path replaces
    the output directory altogether (the file is [<name>.ts]); any other
    name gives a path that begins with the output directory. *)
Theorem model_path_depends_on_the_lowered_name :
  (forall s, is_absolute (to_lowercase s) = is_absolute s) ->
  (forall a b, to_lowercase a = to_lowercase b ->
     model_path output_dir to_lowercase a = model_path output_dir to_lowercase b) /\
  (forall name, is_absolute name = true ->
     model_path output_dir to_lowercase name = to_lowercase name +:+ ".ts") /\
  (forall name, is_absolute name = false -> output_dir <> "" ->
     prefixb output_dir (model_path output_dir to_lowercase name) = true).
Proof.
  intros Habs. repeat split.
  - intros a b H. unfold Generator.model_path. rewrite H. reflexivity.
  - intros name Hn. unfold Generator.model_path, join at 1.
    rewrite is_absolute_app; [reflexivity|]. rewrite Habs. exact Hn.
  - intros name Hn Ho. unfold Generator.model_path.
    assert (Hl : is_absolute (to_lowercase name +:+ ".ts") = false).
    { specialize (Habs name). rewrite Hn in Habs.
      destruct (to_lowercase name) as [|c rest] eqn:E; [reflexivity|].
      exact Habs. }
    unfold join at 1. rewrite Hl.
    assert (Hj : prefixb output_dir (join output_dir "src/models") = true).
    { unfold join. cbn [is_absolute prefixb Ascii.eqb Bool.eqb andb].
      rewrite (proj2 (String.eqb_neq output_dir "") Ho).
      destruct (ends_with_separator output_dir);
        apply JinjaFacts.prefixb_app, prefixb_refl. }
    assert (Hnj : join output_dir "src/models" <> "").
    { intros E. rewrite E in Hj. destruct output_dir; [congruence | discriminate]. }
    rewrite (proj2 (String.eqb_neq _ "") Hnj).
    destruct (ends_with_separator _);
      apply JinjaFacts.prefixb_app; exact Hj.
Qed.

End WithGenerator.

Lemma lower_is_absolute s : is_absolute (lower s) = is_absolute s.
Proof.
  destruct s as [|c rest]; [reflexivity|].
  change (is_absolute (lower (String c rest)))
    with (Ascii.eqb "/" (lower_char c) && true).
  change (is_absolute (String c rest)) with (Ascii.eqb "/" c && true).
  destruct (Ascii.eqb_spec "/" c) as [<-|Hc]; [reflexivity|].
  destruct (Ascii.eqb_spec "/" (lower_char c)) as [E|]; [|reflexivity].
  exfalso. apply Hc. symmetry. apply lower_char_slash. symmetry. exact E.
Qed.

Lemma model_path_depends_on_the_lowered_name_witness :
  model_path "out" lower "User" = model_path "out" lower "USER" /\
  model_path "out" lower "/tmp/Evil" = "/tmp/evil.ts" /\
  prefixb "out" (model_path "out" lower "User") = true.
Proof.
  destruct (model_path_depends_on_the_lowered_name "out" lower lower_is_absolute)
    as (Hsame & Habs & Hunder).
  split; [apply Hsame; reflexivity|].
  split; [apply (Habs "/tmp/Evil"); reflexivity|].
  apply Hunder; [reflexivity | discriminate].
Defined.

End GeneratorProperties.
